(** * QuickEdit: the annotation engine of [script.js], embedded and verified

    The development follows the layout of the script: JavaScript values,
    annotation objects, JSON snapshots, geometry ([getObjectBounds],
    [distanceToLineSegment], [getObjectAt]), the transform controller
    ([getResizeHandle], [applyResize]), object creation ([createObject]),
    the editor state with its event handlers, and finally the properties.

    Numbers.  A JavaScript number is modelled as an exact real, or one of
    the three non-finite values [NaN], [+Infinity], [-Infinity]; rounding,
    overflow and the sign of zero are not modelled: the sum and the product
    of finite numbers are finite here, where a double overflows to an
    infinity beyond 1.8e308.  The non-finite values are kept
    because the script produces them on ordinary inputs ([undefined * s],
    [w / 0]) and because [JSON.stringify] and [||] treat them specially.

    Strings.  A string is a sequence of code units below 256, one 8-bit
    character each: the texts and keys of the model are the ASCII and
    Latin-1 ones, on which [length], [slice] and [trim] count and cut as
    they do on JavaScript's 16-bit units. *)

From Stdlib Require Import Reals Lra Lia List Bool String Ascii.
From stdpp Require Import base list.
Import ListNotations.

Set Implicit Arguments.
Set Warnings "-register-all".
Local Open Scope R_scope.

(** ** 1. JavaScript numbers and values *)

Inductive jsnum : Type :=
| Fin (r : R)
| NaN
| PInf
| NInf.

(** Boolean tests on reals; the script branches on them. *)
Definition Rltb (a b : R) : bool := if Rlt_dec a b then true else false.
Definition Rleb (a b : R) : bool := if Rle_dec a b then true else false.
Definition Reqb (a b : R) : bool := if Req_dec_T a b then true else false.

Module Num.

Definition inf (negative : bool) : jsnum := if negative then NInf else PInf.

Definition add (a b : jsnum) : jsnum :=
  match a, b with
  | NaN, _ | _, NaN => NaN
  | Fin p, Fin q => Fin (p + q)
  | PInf, NInf | NInf, PInf => NaN
  | PInf, _ | _, PInf => PInf
  | NInf, _ | _, NInf => NInf
  end.

Definition sub (a b : jsnum) : jsnum :=
  match a, b with
  | NaN, _ | _, NaN => NaN
  | Fin p, Fin q => Fin (p - q)
  | PInf, PInf | NInf, NInf => NaN
  | PInf, _ | _, NInf => PInf
  | NInf, _ | _, PInf => NInf
  end.

(** [±Infinity * q] for a finite [q]: [NaN] at zero, else the sign product. *)
Definition scaleInf (negative : bool) (q : R) : jsnum :=
  if Reqb q 0 then NaN else inf (xorb negative (Rltb q 0)).

Definition mul (a b : jsnum) : jsnum :=
  match a, b with
  | NaN, _ | _, NaN => NaN
  | Fin p, Fin q => Fin (p * q)
  | PInf, Fin q | Fin q, PInf => scaleInf false q
  | NInf, Fin q | Fin q, NInf => scaleInf true q
  | PInf, PInf | NInf, NInf => PInf
  | PInf, NInf | NInf, PInf => NInf
  end.

Definition div (a b : jsnum) : jsnum :=
  match a, b with
  | NaN, _ | _, NaN => NaN
  | Fin p, Fin q =>
      if Reqb q 0
      then (if Reqb p 0 then NaN else inf (Rltb p 0))
      else Fin (p / q)
  | Fin _, (PInf | NInf) => Fin 0
  | PInf, Fin q => inf (Rltb q 0)
  | NInf, Fin q => inf (negb (Rltb q 0))
  | (PInf | NInf), (PInf | NInf) => NaN
  end.

(** Unary minus. *)
Definition neg (a : jsnum) : jsnum :=
  match a with
  | Fin p => Fin (- p)
  | NaN => NaN
  | PInf => NInf
  | NInf => PInf
  end.

(** [Math.abs], [Math.sqrt]. *)
Definition abs (a : jsnum) : jsnum :=
  match a with
  | Fin p => Fin (Rabs p)
  | NaN => NaN
  | PInf | NInf => PInf
  end.

Definition sqrt (a : jsnum) : jsnum :=
  match a with
  | Fin p => if Rltb p 0 then NaN else Fin (R_sqrt.sqrt p)
  | PInf => PInf
  | NaN | NInf => NaN
  end.

(** [<], [<=], and [===] on numbers; every comparison with [NaN] is false. *)
Definition lt (a b : jsnum) : bool :=
  match a, b with
  | NaN, _ | _, NaN => false
  | Fin p, Fin q => Rltb p q
  | NInf, (Fin _ | PInf) | Fin _, PInf => true
  | _, _ => false
  end.

Definition le (a b : jsnum) : bool :=
  match a, b with
  | NaN, _ | _, NaN => false
  | Fin p, Fin q => Rleb p q
  | NInf, _ | _, PInf => true
  | _, _ => false
  end.

Definition eq (a b : jsnum) : bool :=
  match a, b with
  | Fin p, Fin q => Reqb p q
  | PInf, PInf | NInf, NInf => true
  | _, _ => false
  end.

(** [Math.min(a, b)], [Math.max(a, b)]: [NaN] as soon as one argument is. *)
Definition min (a b : jsnum) : jsnum :=
  match a, b with
  | NaN, _ | _, NaN => NaN
  | _, _ => if lt b a then b else a
  end.

Definition max (a b : jsnum) : jsnum :=
  match a, b with
  | NaN, _ | _, NaN => NaN
  | _, _ => if lt a b then b else a
  end.

(** [Math.min(...xs)] and [Math.max(...xs)]; on no argument they are
    [Infinity] and [-Infinity]. *)
Definition minOf (xs : list jsnum) : jsnum := fold_right min PInf xs.
Definition maxOf (xs : list jsnum) : jsnum := fold_right max NInf xs.

Definition isFinite (a : jsnum) : bool :=
  match a with Fin _ => true | _ => false end.

(** [Math.cos], [Math.sin]: no value at the infinities. *)
Definition cos (a : jsnum) : jsnum :=
  match a with Fin p => Fin (Rtrigo_def.cos p) | _ => NaN end.

Definition sin (a : jsnum) : jsnum :=
  match a with Fin p => Fin (Rtrigo_def.sin p) | _ => NaN end.

(** [Math.atan2(y, x)], the angle of the point [(x, y)] in (-PI, PI]. *)
Definition atan2 (b a : jsnum) : jsnum :=
  match b, a with
  | NaN, _ | _, NaN => NaN
  | Fin q, Fin p =>
      if Rltb 0 p then Fin (atan (q / p))
      else if Rltb p 0
           then (if Rltb q 0 then Fin (atan (q / p) - PI)
                 else Fin (atan (q / p) + PI))
           else if Rltb 0 q then Fin (PI / 2)
                else if Rltb q 0 then Fin (- PI / 2)
                     else Fin 0
  | Fin _, PInf => Fin 0
  | Fin q, NInf => if Rltb q 0 then Fin (- PI) else Fin PI
  | PInf, Fin _ => Fin (PI / 2)
  | NInf, Fin _ => Fin (- PI / 2)
  | PInf, PInf => Fin (PI / 4)
  | PInf, NInf => Fin (3 * PI / 4)
  | NInf, PInf => Fin (- PI / 4)
  | NInf, NInf => Fin (- 3 * PI / 4)
  end.

End Num.

(** The values a numeric property of an object can hold. [Undefined] is an
    absent property; [Null] only appears after [JSON.parse]. *)
Inductive value : Type :=
| Undefined
| Null
| Num (n : jsnum).

Definition num (r : R) : value := Num (Fin r).

(** [ToNumber]: what arithmetic and comparisons see. *)
Definition toNumber (v : value) : jsnum :=
  match v with
  | Undefined => NaN
  | Null => Fin 0
  | Num n => n
  end.

(** [ToBoolean] on these values: [undefined], [null], [0] and [NaN] are falsy. *)
Definition truthy (v : value) : bool :=
  match v with
  | Undefined | Null => false
  | Num (Fin r) => negb (Reqb r 0)
  | Num NaN => false
  | Num (PInf | NInf) => true
  end.

(** [a || b] *)
Definition or_else (a b : value) : value := if truthy a then a else b.

(** [a !== b] between values of this kind (strict inequality). *)
Definition strict_ne (a b : value) : bool :=
  match a, b with
  | Undefined, Undefined | Null, Null => false
  | Num p, Num q => negb (Num.eq p q)
  | _, _ => true
  end.

Declare Scope js_scope.
Delimit Scope js_scope with js.
Bind Scope js_scope with value.

Definition vadd (a b : value) : value := Num (Num.add (toNumber a) (toNumber b)).
Definition vsub (a b : value) : value := Num (Num.sub (toNumber a) (toNumber b)).
Definition vmul (a b : value) : value := Num (Num.mul (toNumber a) (toNumber b)).
Definition vdiv (a b : value) : value := Num (Num.div (toNumber a) (toNumber b)).
Definition vneg (a : value) : value := Num (Num.neg (toNumber a)).
Definition vabs (a : value) : value := Num (Num.abs (toNumber a)).
Definition vsqrt (a : value) : value := Num (Num.sqrt (toNumber a)).
Definition vlt (a b : value) : bool := Num.lt (toNumber a) (toNumber b).
Definition vle (a b : value) : bool := Num.le (toNumber a) (toNumber b).
Definition vgt (a b : value) : bool := Num.lt (toNumber b) (toNumber a).
Definition vge (a b : value) : bool := Num.le (toNumber b) (toNumber a).
Definition vmin (a b : value) : value := Num (Num.min (toNumber a) (toNumber b)).
Definition vmax (a b : value) : value := Num (Num.max (toNumber a) (toNumber b)).
Definition vcos (a : value) : value := Num (Num.cos (toNumber a)).
Definition vsin (a : value) : value := Num (Num.sin (toNumber a)).
Definition vatan2 (b a : value) : value := Num (Num.atan2 (toNumber b) (toNumber a)).
Definition vminOf (xs : list value) : value := Num (Num.minOf (map toNumber xs)).
Definition vmaxOf (xs : list value) : value := Num (Num.maxOf (map toNumber xs)).

Infix "+" := vadd : js_scope.
Infix "-" := vsub : js_scope.
Infix "*" := vmul : js_scope.
Infix "/" := vdiv : js_scope.
Notation "- a" := (vneg a) : js_scope.
Infix "<?" := vlt (at level 70) : js_scope.
Infix "<=?" := vle (at level 70) : js_scope.
Infix ">?" := vgt (at level 70) : js_scope.
Infix ">=?" := vge (at level 70) : js_scope.
Infix "||" := or_else : js_scope.

(** ** 2. Annotation objects

    An annotation is a JavaScript object whose properties depend on the
    tool that made it and on what was done to it since ([applyResize]
    writes [width] on a number marker).  It is a record in which every
    property may be absent: [Undefined] for numeric properties, [None] for
    the others. *)

Module Point.
Record t : Type := mk { x : value; y : value }.
End Point.

Record obj : Type := mkObj {
  type : option string;
  color : option string;
  x : value;
  y : value;
  width : value;
  height : value;
  lineWidth : value;
  rotation : value;
  radius : value;
  number : value;
  text : option string;
  size : value;
  family : option string;
  bold : option bool;
  italic : option bool;
  underline : option bool;
  points : option (list Point.t);
  originalWidth : value;
  originalHeight : value;
  originalSize : value;
  initialRotation : value;
  isAllSelected : option bool
}.

(** [{}] *)
Definition emptyObj : obj :=
  mkObj None None Undefined Undefined Undefined Undefined Undefined Undefined
        Undefined Undefined None Undefined None None None None None
        Undefined Undefined Undefined Undefined None.

Definition obj_eta (o : obj) : obj :=
  mkObj (type o) (color o) (x o) (y o) (width o) (height o) (lineWidth o)
        (rotation o) (radius o) (number o) (text o) (size o) (family o)
        (bold o) (italic o) (underline o) (points o) (originalWidth o)
        (originalHeight o) (originalSize o) (initialRotation o)
        (isAllSelected o).

(** Property assignment [r.p = v]: the record [r] with projection [p]
    replaced by [v], read off the eta-expansion of [r]. *)
Ltac assign eta p v r :=
  let t := eval cbv beta delta [eta] in (eta r) in
  match eval pattern (p r) in t with
  | ?g _ => let g' := eval cbv beta in (g v) in exact g'
  end.

Definition set_type v (o : obj) : obj := ltac:(assign obj_eta type v o).
Definition set_color v (o : obj) : obj := ltac:(assign obj_eta color v o).
Definition set_x v (o : obj) : obj := ltac:(assign obj_eta x v o).
Definition set_y v (o : obj) : obj := ltac:(assign obj_eta y v o).
Definition set_width v (o : obj) : obj := ltac:(assign obj_eta width v o).
Definition set_height v (o : obj) : obj := ltac:(assign obj_eta height v o).
Definition set_lineWidth v (o : obj) : obj := ltac:(assign obj_eta lineWidth v o).
Definition set_rotation v (o : obj) : obj := ltac:(assign obj_eta rotation v o).
Definition set_radius v (o : obj) : obj := ltac:(assign obj_eta radius v o).
Definition set_number v (o : obj) : obj := ltac:(assign obj_eta number v o).
Definition set_text v (o : obj) : obj := ltac:(assign obj_eta text v o).
Definition set_size v (o : obj) : obj := ltac:(assign obj_eta size v o).
Definition set_points v (o : obj) : obj := ltac:(assign obj_eta points v o).
Definition set_originalWidth v (o : obj) : obj :=
  ltac:(assign obj_eta originalWidth v o).
Definition set_originalHeight v (o : obj) : obj :=
  ltac:(assign obj_eta originalHeight v o).
Definition set_originalSize v (o : obj) : obj :=
  ltac:(assign obj_eta originalSize v o).
Definition set_initialRotation v (o : obj) : obj :=
  ltac:(assign obj_eta initialRotation v o).
Definition set_isAllSelected v (o : obj) : obj :=
  ltac:(assign obj_eta isAllSelected v o).

(** [obj.type === s] *)
Definition typeIs (o : obj) (s : string) : bool :=
  match type o with
  | Some t => String.eqb t s
  | None => false
  end.

(** The axis-aligned boxes [getObjectBounds] returns. *)
Module Bounds.
Record t : Type := mk { x : value; y : value; width : value; height : value }.
End Bounds.

(** ** 3. JSON snapshots

    [JSON.stringify(drawingStack)] is represented by the syntax tree of the
    text it produces.  A property holding [undefined] is left out, a
    non-finite number is written [null]. *)

Inductive json : Type :=
| JNull
| JBool (b : bool)
| JNum (r : R)
| JStr (s : string)
| JArr (l : list json)
| JObj (l : list (string * json)).

Module Json.

Definition ofNum (n : jsnum) : json :=
  match n with
  | Fin r => JNum r
  | NaN | PInf | NInf => JNull
  end.

Definition ofValue (v : value) : option json :=
  match v with
  | Undefined => None
  | Null => Some JNull
  | Num n => Some (ofNum n)
  end.

(** One property of an object literal, or nothing when it is absent. *)
Definition prop (k : string) (v : option json) : list (string * json) :=
  match v with
  | Some j => [(k, j)]
  | None => []
  end.

Definition ofPoint (p : Point.t) : json :=
  JObj (prop "x" (ofValue (Point.x p)) ++ prop "y" (ofValue (Point.y p))).

Definition ofObj (o : obj) : json :=
  JObj (prop "type" (JStr <$> type o)
     ++ prop "color" (JStr <$> color o)
     ++ prop "x" (ofValue (x o))
     ++ prop "y" (ofValue (y o))
     ++ prop "width" (ofValue (width o))
     ++ prop "height" (ofValue (height o))
     ++ prop "lineWidth" (ofValue (lineWidth o))
     ++ prop "rotation" (ofValue (rotation o))
     ++ prop "radius" (ofValue (radius o))
     ++ prop "number" (ofValue (number o))
     ++ prop "text" (JStr <$> text o)
     ++ prop "size" (ofValue (size o))
     ++ prop "family" (JStr <$> family o)
     ++ prop "bold" (JBool <$> bold o)
     ++ prop "italic" (JBool <$> italic o)
     ++ prop "underline" (JBool <$> underline o)
     ++ prop "points" ((fun ps => JArr (map ofPoint ps)) <$> points o)
     ++ prop "originalWidth" (ofValue (originalWidth o))
     ++ prop "originalHeight" (ofValue (originalHeight o))
     ++ prop "originalSize" (ofValue (originalSize o))
     ++ prop "initialRotation" (ofValue (initialRotation o))
     ++ prop "isAllSelected" (JBool <$> isAllSelected o)).

(** [JSON.stringify(drawingStack)] *)
Definition stringify (d : list obj) : json := JArr (map ofObj d).

(** Reading a property back. *)
Fixpoint get (k : string) (l : list (string * json)) : option json :=
  match l with
  | [] => None
  | (k', j) :: l' => if String.eqb k' k then Some j else get k l'
  end.

Definition toValue (j : option json) : value :=
  match j with
  | Some (JNum r) => Num (Fin r)
  | Some JNull => Null
  | _ => Undefined
  end.

Definition toStr (j : option json) : option string :=
  match j with Some (JStr s) => Some s | _ => None end.

Definition toBool (j : option json) : option bool :=
  match j with Some (JBool b) => Some b | _ => None end.

Definition toPoint (j : json) : Point.t :=
  match j with
  | JObj l => Point.mk (toValue (get "x" l)) (toValue (get "y" l))
  | _ => Point.mk Undefined Undefined
  end.

Definition toPoints (j : option json) : option (list Point.t) :=
  match j with Some (JArr l) => Some (map toPoint l) | _ => None end.

Definition toObj (j : json) : obj :=
  match j with
  | JObj l =>
      mkObj (toStr (get "type" l)) (toStr (get "color" l))
            (toValue (get "x" l)) (toValue (get "y" l))
            (toValue (get "width" l)) (toValue (get "height" l))
            (toValue (get "lineWidth" l)) (toValue (get "rotation" l))
            (toValue (get "radius" l)) (toValue (get "number" l))
            (toStr (get "text" l)) (toValue (get "size" l))
            (toStr (get "family" l)) (toBool (get "bold" l))
            (toBool (get "italic" l)) (toBool (get "underline" l))
            (toPoints (get "points" l))
            (toValue (get "originalWidth" l))
            (toValue (get "originalHeight" l))
            (toValue (get "originalSize" l))
            (toValue (get "initialRotation" l))
            (toBool (get "isAllSelected" l))
  | _ => emptyObj
  end.

(** [JSON.parse(snapshot)] *)
Definition parse (j : json) : list obj :=
  match j with
  | JArr l => map toObj l
  | _ => []
  end.

End Json.

(** ** 4. Editor state

    The variables of the script's closure.  Objects live in [heap] and are
    referred to by their index there, so that [drawingStack],
    [selectedObject], [hoveredObject], [currentTextObj] and
    [currentBrushStroke] can share one mutable object, and a reference can
    outlive the object's presence in [drawingStack]. *)

Module TextFormatting.
Record t : Type := mk {
  bold : bool; italic : bool; underline : bool;
  family : string; size : value
}.
End TextFormatting.

Record state : Type := mkState {
  currentImage : bool;                 (* is an image loaded *)
  activeTool : string;
  heap : list obj;
  drawingStack : list nat;
  undoStack : list json;               (* head = top of the stack *)
  redoStack : list json;
  numberCounter : value;
  isDrawing : bool;
  isDragging : bool;
  selectedObject : option nat;
  startX : value;
  startY : value;
  offsetX : value;
  offsetY : value;
  isCropping : bool;
  cropRect : option Bounds.t;
  currentEraserStroke : option bool;   (* [{ isActive: b }] *)
  currentBrushStroke : option nat;
  currentShape : string;
  isShiftPressed : bool;
  textFormatting : TextFormatting.t;
  isEditingText : bool;
  hoveredObject : option nat;
  resizeHandle : option string;
  initialBounds : option Bounds.t;
  initialMousePos : option Point.t;
  currentTextObj : option nat;
  textCursor : nat;
  colorPicker : string;                (* [colorPicker.value] *)
  lineWidthInput : value               (* [parseInt(lineWidth.value)] *)
}.

Definition state_eta (s : state) : state :=
  mkState (currentImage s) (activeTool s) (heap s) (drawingStack s)
          (undoStack s) (redoStack s) (numberCounter s) (isDrawing s)
          (isDragging s) (selectedObject s) (startX s) (startY s)
          (offsetX s) (offsetY s) (isCropping s) (cropRect s)
          (currentEraserStroke s) (currentBrushStroke s) (currentShape s)
          (isShiftPressed s) (textFormatting s) (isEditingText s)
          (hoveredObject s) (resizeHandle s) (initialBounds s)
          (initialMousePos s) (currentTextObj s) (textCursor s)
          (colorPicker s) (lineWidthInput s).

Definition set_currentImage v (s : state) : state :=
  ltac:(assign state_eta currentImage v s).
Definition set_activeTool v (s : state) : state :=
  ltac:(assign state_eta activeTool v s).
Definition set_heap v (s : state) : state := ltac:(assign state_eta heap v s).
Definition set_drawingStack v (s : state) : state :=
  ltac:(assign state_eta drawingStack v s).
Definition set_undoStack v (s : state) : state :=
  ltac:(assign state_eta undoStack v s).
Definition set_redoStack v (s : state) : state :=
  ltac:(assign state_eta redoStack v s).
Definition set_numberCounter v (s : state) : state :=
  ltac:(assign state_eta numberCounter v s).
Definition set_isDrawing v (s : state) : state :=
  ltac:(assign state_eta isDrawing v s).
Definition set_isDragging v (s : state) : state :=
  ltac:(assign state_eta isDragging v s).
Definition set_selectedObject v (s : state) : state :=
  ltac:(assign state_eta selectedObject v s).
Definition set_startX v (s : state) : state := ltac:(assign state_eta startX v s).
Definition set_startY v (s : state) : state := ltac:(assign state_eta startY v s).
Definition set_offsetX v (s : state) : state :=
  ltac:(assign state_eta offsetX v s).
Definition set_offsetY v (s : state) : state :=
  ltac:(assign state_eta offsetY v s).
Definition set_isCropping v (s : state) : state :=
  ltac:(assign state_eta isCropping v s).
Definition set_cropRect v (s : state) : state :=
  ltac:(assign state_eta cropRect v s).
Definition set_currentEraserStroke v (s : state) : state :=
  ltac:(assign state_eta currentEraserStroke v s).
Definition set_currentBrushStroke v (s : state) : state :=
  ltac:(assign state_eta currentBrushStroke v s).
Definition set_currentShape v (s : state) : state :=
  ltac:(assign state_eta currentShape v s).
Definition set_isShiftPressed v (s : state) : state :=
  ltac:(assign state_eta isShiftPressed v s).
Definition set_textFormatting v (s : state) : state :=
  ltac:(assign state_eta textFormatting v s).
Definition set_isEditingText v (s : state) : state :=
  ltac:(assign state_eta isEditingText v s).
Definition set_hoveredObject v (s : state) : state :=
  ltac:(assign state_eta hoveredObject v s).
Definition set_resizeHandle v (s : state) : state :=
  ltac:(assign state_eta resizeHandle v s).
Definition set_initialBounds v (s : state) : state :=
  ltac:(assign state_eta initialBounds v s).
Definition set_initialMousePos v (s : state) : state :=
  ltac:(assign state_eta initialMousePos v s).
Definition set_currentTextObj v (s : state) : state :=
  ltac:(assign state_eta currentTextObj v s).
Definition set_textCursor v (s : state) : state :=
  ltac:(assign state_eta textCursor v s).
Definition set_colorPicker v (s : state) : state :=
  ltac:(assign state_eta colorPicker v s).
Definition set_lineWidthInput v (s : state) : state :=
  ltac:(assign state_eta lineWidthInput v s).

(** The object a reference points to. *)
Definition deref (s : state) (l : nat) : obj := default emptyObj (heap s !! l).

(** In-place mutation of the object behind a reference. *)
Definition modify (l : nat) (f : obj -> obj) (s : state) : state :=
  set_heap (<[l := f (deref s l)]> (heap s)) s.

(** A new object; its reference is the next free index. *)
Definition alloc (o : obj) (s : state) : nat * state :=
  (length (heap s), set_heap (heap s ++ [o]) s).

Fixpoint allocAll (os : list obj) (s : state) : list nat * state :=
  match os with
  | [] => ([], s)
  | o :: os' =>
      let '(l, s1) := alloc o s in
      let '(ls, s2) := allocAll os' s1 in
      (l :: ls, s2)
  end.

(** The Document: the objects of [drawingStack], in z-order, by value. *)
Definition document (s : state) : list obj := map (deref s) (drawingStack s).

(** The font a text object is measured and drawn with.  The script builds a
    CSS font string ([getTextFont]); its four components are kept apart. *)
Module Font.
Record t : Type := mk {
  bold : bool; italic : bool; size : value; family : string
}.
End Font.

(** The part of a keyboard event the listeners look at. *)
Module Key.
Record t : Type := mk {
  key : string;
  ctrlKey : bool; altKey : bool; shiftKey : bool; metaKey : bool;
  targetIsBody : bool;    (* [e.target] is the body or the root element *)
  targetIsInput : bool    (* [e.target.tagName === 'INPUT'] *)
}.
End Key.

(** Sequencing.  [let* s := a in k] is [k] applied to [a]: one statement of
    the script after another.  Keeping the combinator folded lets a proof
    run a handler statement by statement. *)
Definition andThen {A B : Type} (a : A) (k : A -> B) : B := k a.

Notation "'let*' p ':=' a 'in' k" :=
  (andThen a (fun p => k))
    (at level 10, p pattern, a at level 200, k at level 200,
     format "'[v' 'let*'  p  ':='  a  'in' '/' k ']'").

Local Open Scope js_scope.

Section Editor.

(** Supplied by the browser: the width [ctx.measureText(t).width] of a
    string under a font, and the number [parseInt(lineWidth.value)] reads
    from the size slider after the script assigned it a value. *)
Variable measureText : Font.t -> string -> value.
Variable rangeInput : value -> value.

(** ** 5. Geometry *)

Definition isTrue (b : option bool) : bool :=
  match b with Some true => true | _ => false end.

Definition getTextFont (o : obj) : Font.t :=
  Font.mk (isTrue (bold o)) (isTrue (italic o)) (size o)
          (match family o with
           | Some f => if String.eqb f "" then "Arial"%string else f
           | None => "Arial"%string
           end).

(** [obj.text] as [measureText] and string operations see it. *)
Definition textOf (o : obj) : string := default "undefined"%string (text o).

(** The [brush] and [eraser] cases of [getObjectBounds]. *)
Definition strokeBounds (o : obj) : Bounds.t :=
  match points o with
  | Some ((_ :: _) as ps) =>
      let xs := map Point.x ps in
      let ys := map Point.y ps in
      let minX := vminOf xs - lineWidth o / num 2 in
      let maxX := vmaxOf xs + lineWidth o / num 2 in
      let minY := vminOf ys - lineWidth o / num 2 in
      let maxY := vmaxOf ys + lineWidth o / num 2 in
      Bounds.mk minX minY (maxX - minX) (maxY - minY)
  | _ =>
      Bounds.mk (x o - lineWidth o / num 2) (y o - lineWidth o / num 2)
                (lineWidth o) (lineWidth o)
  end.

Definition getObjectBounds (o : obj) : Bounds.t :=
  let bounds :=
    Bounds.mk (x o) (y o) (width o || num 0) (height o || num 0) in
  let bounds :=
    if typeIs o "numbers" then
      Bounds.mk (x o - radius o) (y o - radius o)
                (radius o * num 2) (radius o * num 2)
    else if typeIs o "text" then
      Bounds.mk (x o) (y o) (measureText (getTextFont o) (textOf o)) (size o)
    else if typeIs o "brush" then strokeBounds o
    else if typeIs o "eraser" then strokeBounds o
    else bounds in
  if (truthy (rotation o) && strict_ne (rotation o) (num 0))%bool then
    if (typeIs o "numbers" || typeIs o "circle")%bool then bounds
    else
      let centerX := Bounds.x bounds + Bounds.width bounds / num 2 in
      let centerY := Bounds.y bounds + Bounds.height bounds / num 2 in
      let corners :=
        [ Point.mk (Bounds.x bounds) (Bounds.y bounds);
          Point.mk (Bounds.x bounds + Bounds.width bounds) (Bounds.y bounds);
          Point.mk (Bounds.x bounds + Bounds.width bounds)
                   (Bounds.y bounds + Bounds.height bounds);
          Point.mk (Bounds.x bounds) (Bounds.y bounds + Bounds.height bounds) ] in
      let rotatedCorners :=
        map (fun corner =>
               let dx := Point.x corner - centerX in
               let dy := Point.y corner - centerY in
               Point.mk
                 (centerX + dx * vcos (rotation o) - dy * vsin (rotation o))
                 (centerY + dx * vsin (rotation o) + dy * vcos (rotation o)))
            corners in
      let xs := map Point.x rotatedCorners in
      let ys := map Point.y rotatedCorners in
      let minX := vminOf xs in
      let maxX := vmaxOf xs in
      let minY := vminOf ys in
      let maxY := vmaxOf ys in
      Bounds.mk minX minY (maxX - minX) (maxY - minY)
  else bounds.

(** [a === b] on numbers *)
Definition strict_eq (a b : value) : bool := negb (strict_ne a b).

Definition distanceToLineSegment (px py x1 y1 x2 y2 : value) : value :=
  let dx := x2 - x1 in
  let dy := y2 - y1 in
  let length := vsqrt (dx * dx + dy * dy) in
  if strict_eq length (num 0) then
    vsqrt ((px - x1) * (px - x1) + (py - y1) * (py - y1))
  else
    let t := vmax (num 0)
               (vmin (num 1)
                  (((px - x1) * dx + (py - y1) * dy) / (length * length))) in
    let projection := Point.mk (x1 + t * dx) (y1 + t * dy) in
    vsqrt ((px - Point.x projection) * (px - Point.x projection)
           + (py - Point.y projection) * (py - Point.y projection)).

(** The pairs [points[j], points[j + 1]] for [j < points.length - 1]. *)
Fixpoint segments (ps : list Point.t) : list (Point.t * Point.t) :=
  match ps with
  | p1 :: (p2 :: _) as rest => (p1, p2) :: segments rest
  | _ => []
  end.

(** One turn of the loop of [getObjectAt]: does it [return obj]? *)
Definition hits (o : obj) (mx my : value) : bool :=
  match (if typeIs o "brush" then points o else None) with
  | Some ((_ :: _) as ps) =>
      let tolerance := lineWidth o / num 2 + num 2 in
      existsb (fun '(p1, p2) =>
                 distanceToLineSegment mx my (Point.x p1) (Point.y p1)
                                       (Point.x p2) (Point.y p2)
                 <=? tolerance)
              (segments ps)
  | _ =>
      if typeIs o "arrow" then
        let tolerance := lineWidth o / num 2 + num 2 in
        distanceToLineSegment mx my (x o) (y o)
                              (x o + width o) (y o + height o)
        <=? tolerance
      else
        let bounds := getObjectBounds o in
        let tolerance := num 3 in
        ((mx >=? Bounds.x bounds - tolerance)
         && (mx <=? Bounds.x bounds + Bounds.width bounds + tolerance)
         && (my >=? Bounds.y bounds - tolerance)
         && (my <=? Bounds.y bounds + Bounds.height bounds + tolerance))%bool
  end.

(** [getObjectAt(x, y)]: the topmost object of [drawingStack] hit. *)
Definition getObjectAt (s : state) (mx my : value) : option nat :=
  find (fun l => hits (deref s l) mx my) (rev (drawingStack s)).

(** ** 6. Transform controller *)

Definition getResizeHandle (mx my : value) (o : obj) : option string :=
  let bounds := getObjectBounds o in
  let handleSize := num 8 in
  let tolerance := handleSize / num 2 in
  let rotateTolerance := num 12 in
  let corners :=
    [ (Point.mk (Bounds.x bounds - num 2) (Bounds.y bounds - num 2),
       "nw-resize"%string);
      (Point.mk (Bounds.x bounds + Bounds.width bounds - num 2)
                (Bounds.y bounds - num 2), "ne-resize"%string);
      (Point.mk (Bounds.x bounds - num 2)
                (Bounds.y bounds + Bounds.height bounds - num 2),
       "sw-resize"%string);
      (Point.mk (Bounds.x bounds + Bounds.width bounds - num 2)
                (Bounds.y bounds + Bounds.height bounds - num 2),
       "se-resize"%string) ] in
  let rotateHandleX := Bounds.x bounds + Bounds.width bounds / num 2 in
  let rotateHandleY := Bounds.y bounds - num 20 in
  let rotateDistance :=
    vsqrt ((mx - rotateHandleX) * (mx - rotateHandleX)
           + (my - rotateHandleY) * (my - rotateHandleY)) in
  if rotateDistance <=? rotateTolerance then Some "rotate"%string
  else
    snd <$> find (fun '(corner, _) =>
                    ((vabs (mx - Point.x corner) <=? tolerance)
                     && (vabs (my - Point.y corner) <=? tolerance))%bool)
                 corners.

(** [!v] *)
Definition falsy (v : value) : bool := negb (truthy v).

(** The angle a rotate drag adds: [currentAngle - initialAngle], both
    taken about the centre of the baseline box. *)
Definition rotationDelta (initialBounds : Bounds.t)
    (newX newY initialMouseX initialMouseY : value) : value :=
  let centerX := Bounds.x initialBounds + Bounds.width initialBounds / num 2 in
  let centerY := Bounds.y initialBounds + Bounds.height initialBounds / num 2 in
  let currentAngle := vatan2 (newY - centerY) (newX - centerX) in
  let initialAngle :=
    vatan2 (initialMouseY - centerY) (initialMouseX - centerX) in
  currentAngle - initialAngle.

(** The [switch (handleType)] of [applyResize]: the box after the dragged
    corner moved by [(deltaX, deltaY)]. *)
Definition resizedBounds (initialBounds : Bounds.t) (handleType : string)
    (deltaX deltaY : value) : Bounds.t :=
  let ix := Bounds.x initialBounds in
  let iy := Bounds.y initialBounds in
  let iw := Bounds.width initialBounds in
  let ih := Bounds.height initialBounds in
  if String.eqb handleType "nw-resize" then
    Bounds.mk (ix + deltaX) (iy + deltaY) (iw - deltaX) (ih - deltaY)
  else if String.eqb handleType "ne-resize" then
    Bounds.mk ix (iy + deltaY) (iw + deltaX) (ih - deltaY)
  else if String.eqb handleType "sw-resize" then
    Bounds.mk (ix + deltaX) iy (iw - deltaX) (ih + deltaY)
  else if String.eqb handleType "se-resize" then
    Bounds.mk ix iy (iw + deltaX) (ih + deltaY)
  else initialBounds.

(** [applyResize(obj, handleType, newX, newY, initialMouseX, initialMouseY)];
    the closure variable [initialBounds] is its first argument and the
    mutated object its result. *)
Definition applyResize (initialBounds : option Bounds.t) (o : obj)
    (handleType : string) (newX newY initialMouseX initialMouseY : value)
    : obj :=
  match initialBounds with
  | None => o
  | Some initialBounds =>
    if String.eqb handleType "rotate" then
      let deltaRotation :=
        rotationDelta initialBounds newX newY initialMouseX initialMouseY in
      set_rotation ((initialRotation o || num 0) + deltaRotation) o
    else
      let deltaX := newX - initialMouseX in
      let deltaY := newY - initialMouseY in
      let newBounds := resizedBounds initialBounds handleType deltaX deltaY in
      let minSize := num 5 in
      if vabs (Bounds.width newBounds) <? minSize then o
      else if vabs (Bounds.height newBounds) <? minSize then o
      else if typeIs o "text" then
        let* o := if falsy (originalSize o)
                  then set_originalSize (size o) o else o in
        let heightScale :=
          vabs (Bounds.height newBounds) / Bounds.height initialBounds in
        let newSize := originalSize o * heightScale in
        if newSize <? num 4 then o
        else
          let* o := set_x (Bounds.x newBounds) o in
          let* o := set_y (Bounds.y newBounds) o in
          set_size newSize o
      else
        let* o := if falsy (originalWidth o)
                  then set_originalWidth (width o) o else o in
        let* o := if falsy (originalHeight o)
                  then set_originalHeight (height o) o else o in
        let scaleX := Bounds.width newBounds / Bounds.width initialBounds in
        let scaleY := Bounds.height newBounds / Bounds.height initialBounds in
        let* o := set_x (Bounds.x newBounds) o in
        let* o := set_y (Bounds.y newBounds) o in
        let* o := set_width (originalWidth o * scaleX) o in
        set_height (originalHeight o * scaleY) o
  end.

(** What [mousedown] does to the object when a handle is grabbed, and what
    [mouseup] does to it when the drag ends. *)
Definition startTransform (o : obj) : obj :=
  set_initialRotation (rotation o || num 0) o.

Definition commitTransform (o : obj) : obj :=
  let* o :=
    if typeIs o "text" then set_originalSize (size o) o
    else
      let* o := set_originalWidth (vabs (width o)) o in
      set_originalHeight (vabs (height o)) o in
  set_initialRotation Undefined o.

(** ** 7. History *)

(** [undoStack.push(JSON.stringify(drawingStack)); redoStack = []] *)
Definition pushToUndoStack (s : state) : state :=
  let* s := set_undoStack (Json.stringify (document s) :: undoStack s) s in
  set_redoStack [] s.

(** [drawingStack = JSON.parse(snapshot)]: the parsed objects are new. *)
Definition restore (snapshot : json) (s : state) : state :=
  let* (ls, s) := allocAll (Json.parse snapshot) s in
  set_drawingStack ls s.

Definition undo (s : state) : state :=
  match undoStack s with
  | [] => s
  | top :: rest =>
      let* s := set_redoStack (Json.stringify (document s) :: redoStack s) s in
      let* s := set_undoStack rest s in
      let* s := restore top s in
      set_selectedObject None s
  end.

Definition redo (s : state) : state :=
  match redoStack s with
  | [] => s
  | top :: rest =>
      let* s := set_undoStack (Json.stringify (document s) :: undoStack s) s in
      let* s := set_redoStack rest s in
      let* s := restore top s in
      set_selectedObject None s
  end.

(** ** 8. Tools and object creation *)

Definition cancelCrop (s : state) : state :=
  let* s := set_isCropping false s in
  set_cropRect None s.

Definition isSome {A : Type} (o : option A) : bool :=
  match o with Some _ => true | None => false end.

Definition isIn (t : string) (ts : list string) : bool :=
  existsb (String.eqb t) ts.

Definition setActiveTool (tool : string) (s : state) : state :=
  if String.eqb tool "copy" then s
  else if String.eqb tool "save" then s
  else
    let* s := if String.eqb (activeTool s) "crop" then cancelCrop s else s in
    let* s := set_activeTool tool s in
    let* s := set_selectedObject None s in
    let* s := if String.eqb tool "check"
             then set_colorPicker "#4caf50"%string s else s in
    let* s := if String.eqb tool "cross"
             then set_colorPicker "#f44336"%string s else s in
    let defaultSize :=
      if isIn tool ["rect"; "circle"; "shape"; "check"; "cross"]%string
      then num 5
      else if String.eqb tool "numbers" then num 20
      else if String.eqb tool "text" then num 50
      else if String.eqb tool "blur" then num 69
      else num 10 in
    let* s := set_lineWidthInput defaultSize s in
    if String.eqb tool "text" then
      let tf := textFormatting s in
      set_textFormatting
        (TextFormatting.mk (TextFormatting.bold tf) (TextFormatting.italic tf)
                           (TextFormatting.underline tf)
                           (TextFormatting.family tf) defaultSize) s
    else s.

(** A click in the shape menu on the entry [shape]. *)
Definition selectShape (shape : string) (s : state) : state :=
  let* s := set_currentShape shape s in
  let* s := if String.eqb shape "check"
           then set_colorPicker "#4caf50"%string s else s in
  setActiveTool (if (String.eqb shape "rect" || String.eqb shape "circle")%bool
                 then shape else "shape"%string) s.

(** The properties [width] and [height] of an object, for the places
    where local variables of the script have the same names. *)
Definition obj_width (o : obj) : value := width o.
Definition obj_height (o : obj) : value := height o.

(** [createObject(x1, y1, x2, y2)]; [numberCounter++] is the only effect. *)
Definition createObject (s : state) (x1 y1 x2 y2 : value)
    : option obj * state :=
  let* newObj :=
    mkObj (Some (if String.eqb (activeTool s) "shape"
                 then currentShape s else activeTool s))
          (Some (colorPicker s)) Undefined Undefined Undefined Undefined
          Undefined (num 0) Undefined Undefined None Undefined None None
          None None None Undefined Undefined Undefined Undefined None in
  let* newObj :=
    if (String.eqb (activeTool s) "check"
        || (String.eqb (activeTool s) "shape"
            && String.eqb (currentShape s) "check"))%bool
    then set_color (Some "#4caf50"%string) newObj else newObj in
  if String.eqb (activeTool s) "numbers" then
    let* newObj := set_x x1 newObj in
    let* newObj := set_y y1 newObj in
    let* newObj := set_number (numberCounter s) newObj in
    let* newObj := set_radius (lineWidthInput s) newObj in
    (Some newObj, set_numberCounter (numberCounter s + num 1) s)
  else if String.eqb (activeTool s) "eraser" then (None, s)
  else
    let width := x2 - x1 in
    let height := y2 - y1 in
    let snap :=
      (String.eqb (activeTool s) "arrow"
       && ((vabs width <? num 10) || (vabs height <? num 10)))%bool in
    let directionX := if width >=? num 0 then num 1 else num (-1) in
    let directionY := if height >=? num 0 then num 1 else num (-1) in
    let width := if snap then num 10 * directionX else width in
    let height := if snap then num 10 * directionY else height in
    let* newObj := set_x x1 newObj in
    let* newObj := set_y y1 newObj in
    let* newObj := set_width width newObj in
    let* newObj := set_height height newObj in
    let* newObj := set_lineWidth (lineWidthInput s) newObj in
    let* newObj := set_originalWidth (vabs width) newObj in
    let* newObj := set_originalHeight (vabs height) newObj in
    let* newObj :=
      if (negb (String.eqb (activeTool s) "arrow")
          && (negb (String.eqb (activeTool s) "shape")
              || negb (String.eqb (currentShape s) "arrow")))%bool
      then
        let* newObj :=
          if width <? num 0
          then set_width (vmul (obj_width newObj) (num (-1)))
                         (set_x x2 newObj)
          else newObj in
        if height <? num 0
        then set_height (vmul (obj_height newObj) (num (-1)))
                        (set_y y2 newObj)
        else newObj
      else newObj in
    (Some newObj, s).

(** ** 9. Pointer and keyboard handlers

    Pointer events carry their position already mapped to canvas
    coordinates.  Drawing, cursor styles and the caret timer change no
    variable of the closure and are left out. *)

(** [drawingStack.indexOf(obj)] *)
Fixpoint indexOf (st : list nat) (l : nat) : option nat :=
  match st with
  | [] => None
  | l' :: st' => if Nat.eqb l' l then Some 0%nat else S <$> indexOf st' l
  end.

(** [drawingStack.splice(i, 1)], where [None] is the index [-1] that
    [indexOf] returns for an absent object: it counts from the end. *)
Definition splice (i : option nat) (st : list nat) : list nat :=
  match i with
  | Some i => delete i st
  | None => delete (length st - 1)%nat st
  end.

Definition updateToolOptions (o : obj) (s : state) : state :=
  if (typeIs o "blur" || String.eqb (activeTool s) "select")%bool then s
  else if negb (isIn (activeTool s)
                  ["text"; "brush"; "rect"; "circle"; "arrow"; "numbers";
                   "shape"; "check"; "cross"]%string)
  then s
  else
    let* s := set_colorPicker (default "#000000"%string (color o)) s in
    let sizeAttr := if typeIs o "text" then size o else lineWidth o in
    set_lineWidthInput (rangeInput (sizeAttr || radius o)) s.

Definition createTextInput (px py : value) (existingObj : option nat)
    (s : state) : state :=
  let* s := match existingObj with None => pushToUndoStack s | Some _ => s end in
  let* s := set_isEditingText true s in
  match existingObj with
  | Some l =>
      let* s := set_currentTextObj (Some l) s in
      set_textCursor (String.length (default ""%string (text (deref s l)))) s
  | None =>
      let tf := textFormatting s in
      let* o :=
        mkObj (Some "text"%string) (Some (colorPicker s)) px py Undefined
              Undefined Undefined (num 0) Undefined Undefined
              (Some ""%string) (TextFormatting.size tf)
              (Some (TextFormatting.family tf))
              (Some (TextFormatting.bold tf))
              (Some (TextFormatting.italic tf))
              (Some (TextFormatting.underline tf)) None Undefined Undefined
              (TextFormatting.size tf) Undefined None in
      let* (l, s) := alloc o s in
      let* s := set_currentTextObj (Some l) s in
      let* s := set_drawingStack (drawingStack s ++ [l]) s in
      set_textCursor 0%nat s
  end.

(** The part of [mousedown] shared by the select and text tools once
    [selectedObject] and [resizeHandle] are settled. *)
Definition beginManipulation (s : state) : state :=
  match selectedObject s with
  | None => s
  | Some sel =>
      let* s :=
        match resizeHandle s with
        | Some _ =>
            let* s := pushToUndoStack s in
            let* s := set_initialBounds (Some (getObjectBounds (deref s sel))) s in
            let* s := set_initialMousePos
                       (Some (Point.mk (startX s) (startY s))) s in
            let* s := modify sel startTransform s in
            set_isDragging false s
        | None =>
            let* s := pushToUndoStack s in
            let* s := set_isDragging true s in
            let bounds := getObjectBounds (deref s sel) in
            let* s := set_offsetX (startX s - Bounds.x bounds) s in
            set_offsetY (startY s - Bounds.y bounds) s
        end in
      updateToolOptions (deref s sel) s
  end.

Definition mousedown (ex ey : value) (s : state) : state :=
  if negb (currentImage s) then s
  else
    let* s := set_startX ex s in
    let* s := set_startY ey s in
    let* s := set_isDrawing true s in
    if String.eqb (activeTool s) "select" then
      let* s :=
        match selectedObject s with
        | Some sel =>
            let* s := set_resizeHandle
                       (getResizeHandle (startX s) (startY s) (deref s sel)) s in
            match resizeHandle s with
            | None => set_selectedObject
                        (getObjectAt s (startX s) (startY s)) s
            | Some _ => s
            end
        | None => set_selectedObject (getObjectAt s (startX s) (startY s)) s
        end in
      let* s :=
        match selectedObject s, resizeHandle s with
        | Some sel, None =>
            set_resizeHandle
              (getResizeHandle (startX s) (startY s) (deref s sel)) s
        | _, _ => s
        end in
      beginManipulation s
    else if String.eqb (activeTool s) "crop" then
      let* s := set_isCropping true s in
      let* s := set_cropRect
                 (Some (Bounds.mk (startX s) (startY s) (num 0) (num 0))) s in
      set_selectedObject None s
    else if String.eqb (activeTool s) "text" then
      if isEditingText s then s
      else
        let clicked :=
          match getObjectAt s (startX s) (startY s) with
          | Some l => if typeIs (deref s l) "text" then Some l else None
          | None => None
          end in
        let selectedText :=
          match selectedObject s with
          | Some sel => typeIs (deref s sel) "text"
          | None => false
          end in
        let* s :=
          match selectedObject s with
          | Some sel =>
              if selectedText
              then set_resizeHandle
                     (getResizeHandle (startX s) (startY s) (deref s sel)) s
              else s
          | None => s
          end in
        if (selectedText && isSome (resizeHandle s))%bool
        then beginManipulation s
        else
          match clicked with
          | Some l =>
              let* s := set_selectedObject (Some l) s in
              let* s := set_resizeHandle
                         (getResizeHandle (startX s) (startY s) (deref s l)) s in
              beginManipulation s
          | None =>
              let* s := createTextInput (startX s) (startY s) None s in
              set_selectedObject None s
          end
    else
      let* s := set_selectedObject None s in
      let* s := pushToUndoStack s in
      if String.eqb (activeTool s) "eraser" then
        let* s :=
          match getObjectAt s (startX s) (startY s) with
          | Some objectToRemove =>
              match indexOf (drawingStack s) objectToRemove with
              | Some index =>
                  set_drawingStack (splice (Some index) (drawingStack s)) s
              | None => s
              end
          | None => s
          end in
        set_currentEraserStroke (Some true) s
      else if String.eqb (activeTool s) "brush" then
        let stroke :=
          mkObj (Some "brush"%string) (Some (colorPicker s)) Undefined
                Undefined Undefined Undefined (lineWidthInput s) Undefined
                Undefined Undefined None Undefined None None None None
                (Some [Point.mk (startX s) (startY s)]) Undefined Undefined
                Undefined Undefined None in
        let* (l, s) := alloc stroke s in
        let* s := set_currentBrushStroke (Some l) s in
        set_drawingStack (drawingStack s ++ [l]) s
      else s.

(** The shift-key rule that [mousemove] (preview) and [mouseup] (commit)
    both apply to the drag deltas; the script spells it out twice, in the
    same words. *)
Definition currentTool (s : state) : string :=
  if String.eqb (activeTool s) "shape" then currentShape s else activeTool s.

Definition shiftConstrain (s : state) (drawWidth drawHeight : value)
    : value * value :=
  let currentTool := currentTool s in
  if isShiftPressed s then
    if (String.eqb currentTool "rect" || String.eqb currentTool "circle")%bool
    then
      let size := vmax (vabs drawWidth) (vabs drawHeight) in
      (if drawWidth >=? num 0 then size else - size,
       if drawHeight >=? num 0 then size else - size)
    else (drawWidth, drawHeight)
  else
    if (String.eqb currentTool "check" || String.eqb currentTool "cross")%bool
    then
      let size := vmin (vabs drawWidth) (vabs drawHeight) in
      (if drawWidth >=? num 0 then size else - size,
       if drawHeight >=? num 0 then size else - size)
    else (drawWidth, drawHeight).

(** The temporary object the preview branch of [mousemove] hands to
    [drawObject]; [None] when that branch is not taken or draws the blur
    frame instead. *)
Definition previewObject (s : state) (mouseX mouseY : value) : option obj :=
  if (negb (isDrawing s) || negb (currentImage s))%bool then None
  else if ((String.eqb (activeTool s) "select"
            || String.eqb (activeTool s) "text")
           && isSome (selectedObject s))%bool then None
  else if (String.eqb (activeTool s) "crop" && isCropping s)%bool then None
  else if (String.eqb (activeTool s) "brush"
           && isSome (currentBrushStroke s))%bool then None
  else if (String.eqb (activeTool s) "eraser"
           && default false (currentEraserStroke s))%bool then None
  else if isIn (activeTool s)
            ["select"; "numbers"; "crop"; "eraser"; "brush"; "text"]%string
  then None
  else
    let* (drawWidth, drawHeight) :=
      shiftConstrain s (mouseX - startX s) (mouseY - startY s) in
    if String.eqb (activeTool s) "blur" then None
    else
      Some (mkObj (Some (if String.eqb (activeTool s) "shape"
                         then currentShape s else activeTool s))
                  (Some (colorPicker s)) (startX s) (startY s)
                  drawWidth drawHeight (lineWidthInput s) Undefined
                  Undefined Undefined None Undefined None None None None
                  None Undefined Undefined Undefined Undefined None).

Definition eraseAt (mx my : value) (s : state) : state :=
  match getObjectAt s mx my with
  | Some objectToRemove =>
      match indexOf (drawingStack s) objectToRemove with
      | Some index => set_drawingStack (splice (Some index) (drawingStack s)) s
      | None => s
      end
  | None => s
  end.

(** The first [mousemove] listener: manipulation, crop frame, brush,
    eraser.  The preview branch changes nothing. *)
Definition mousemoveDraw (mouseX mouseY : value) (s : state) : state :=
  if (negb (isDrawing s) || negb (currentImage s))%bool then s
  else
    match (if (String.eqb (activeTool s) "select"
               || String.eqb (activeTool s) "text")%bool
           then selectedObject s else None) with
    | Some sel =>
        match resizeHandle s, initialBounds s, initialMousePos s with
        | Some handle, Some _, Some pos =>
            modify sel (fun o =>
              applyResize (initialBounds s) o handle mouseX mouseY
                          (Point.x pos) (Point.y pos)) s
        | _, _, _ =>
            if isDragging s then
              modify sel (fun o =>
                set_y (mouseY - offsetY s) (set_x (mouseX - offsetX s) o)) s
            else s
        end
    | None =>
        if (String.eqb (activeTool s) "crop" && isCropping s)%bool then
          match cropRect s with
          | Some c =>
              set_cropRect
                (Some (Bounds.mk (Bounds.x c) (Bounds.y c)
                                 (mouseX - Bounds.x c) (mouseY - Bounds.y c))) s
          | None => s
          end
        else
          match (if String.eqb (activeTool s) "brush"
                 then currentBrushStroke s else None) with
          | Some stroke =>
              modify stroke (fun o =>
                set_points
                  (Some (default [] (points o) ++ [Point.mk mouseX mouseY])) o) s
          | None =>
              if (String.eqb (activeTool s) "eraser"
                  && default false (currentEraserStroke s))%bool
              then eraseAt mouseX mouseY s
              else s
          end
    end.

(** The second [mousemove] listener: hover detection. *)
Definition mousemoveHover (mouseX mouseY : value) (s : state) : state :=
  if (negb (currentImage s) || isDrawing s || isEditingText s)%bool then s
  else if (String.eqb (activeTool s) "select"
           || String.eqb (activeTool s) "text")%bool then
    let objectUnderMouse := getObjectAt s mouseX mouseY in
    let newHoveredObject :=
      match selectedObject s with
      | Some _ => None
      | None => objectUnderMouse
      end in
    set_hoveredObject newHoveredObject s
  else set_hoveredObject None s.

Definition mousemove (mouseX mouseY : value) (s : state) : state :=
  mousemoveHover mouseX mouseY (mousemoveDraw mouseX mouseY s).

(** [drawingStack.push(newObject)] *)
Definition pushObject (o : obj) (s : state) : state :=
  let* (l, s) := alloc o s in
  set_drawingStack (drawingStack s ++ [l]) s.

Definition mouseup (endX endY : value) (s : state) : state :=
  if (negb (currentImage s) || negb (isDrawing s))%bool then
    let* s := set_isDrawing false s in
    let* s := set_isDragging false s in
    let* s := set_currentEraserStroke None s in
    set_currentBrushStroke None s
  else
    let wasClick :=
      ((vabs (endX - startX s) <? num 5)
       && (vabs (endY - startY s) <? num 5))%bool in
    let* s :=
      if (String.eqb (activeTool s) "crop" && isCropping s)%bool then
        match cropRect s with
        | Some c =>
            if (negb wasClick && (vabs (Bounds.width c) >? num 10)
                && (vabs (Bounds.height c) >? num 10))%bool
            then s
            else cancelCrop s
        | None => s
        end
      else if (negb (String.eqb (activeTool s) "select")
               && negb (String.eqb (activeTool s) "text"))%bool then
        let* (newObject, s) :=
          if wasClick then
            if String.eqb (activeTool s) "numbers" then
              createObject s endX endY Undefined Undefined
            else if isIn (activeTool s)
                      ["rect"; "circle"; "arrow"; "blur"; "shape"]%string
            then
              let size := lineWidthInput s in
              createObject s (startX s - size / num 2)
                           (startY s - size / num 2)
                           (startX s + size / num 2)
                           (startY s + size / num 2)
            else if (isIn (activeTool s) ["check"; "cross"]%string
                     || (String.eqb (activeTool s) "shape"
                         && isIn (currentShape s)
                              ["check"; "cross"]%string))%bool
            then
              let size := num 20 in
              createObject s (startX s - size / num 2)
                           (startY s - size / num 2)
                           (startX s + size / num 2)
                           (startY s + size / num 2)
            else (None, s)
          else
            let* (drawWidth, drawHeight) :=
              shiftConstrain s (endX - startX s) (endY - startY s) in
            createObject s (startX s) (startY s)
                         (startX s + drawWidth) (startY s + drawHeight) in
        match newObject with
        | Some o => pushObject o s
        | None => s
        end
      else s in
    let* s :=
      match resizeHandle s, selectedObject s, initialBounds s with
      | Some _, Some sel, Some _ =>
          modify sel commitTransform s
      | _, _, _ => s
      end in
    let* s := set_isDrawing false s in
    let* s := set_isDragging false s in
    let* s := set_resizeHandle None s in
    let* s := set_initialBounds None s in
    let* s := set_initialMousePos None s in
    let* s := set_currentEraserStroke None s in
    set_currentBrushStroke None s.

Definition dblclick (clickX clickY : value) (s : state) : state :=
  if negb (currentImage s) then s
  else
    match getObjectAt s clickX clickY with
    | Some clickedObject =>
        if typeIs (deref s clickedObject) "text" then
          createTextInput (x (deref s clickedObject))
                          (y (deref s clickedObject)) (Some clickedObject) s
        else s
    | None => s
    end.

(** ** 10. Text editing *)

Definition isWhite (c : ascii) : bool :=
  isIn (String c EmptyString)
       [" "; String "009" ""; String "010" ""; String "011" "";
        String "012" ""; String "013" ""; String "160" ""]%string.

(** [!text.trim()] *)
Definition isBlank (t : string) : bool := forallb isWhite (list_ascii_of_string t).

(** [text.slice(0, i)] and [text.slice(i)] *)
Definition sliceTo (i : nat) (t : string) : string := substring 0 i t.
Definition sliceFrom (i : nat) (t : string) : string :=
  substring i (String.length t) t.

Definition applyText (s : state) : state :=
  if isEditingText s then
    let* s := set_isEditingText false s in
    let* s :=
      match currentTextObj s with
      | Some cur =>
          if isBlank (textOf (deref s cur)) then
            match indexOf (drawingStack s) cur with
            | Some index =>
                set_drawingStack (splice (Some index) (drawingStack s)) s
            | None => s
            end
          else s
      | None => s
      end in
    let* s := set_currentTextObj None s in
    let* s := set_textCursor 0%nat s in
    set_selectedObject None s
  else s.

Definition lowerAscii (c : ascii) : ascii :=
  let n := nat_of_ascii c in
  if ((65 <=? n) && (n <=? 90))%nat then ascii_of_nat (n + 32) else c.

(** [key.toLowerCase()] on the keys the script compares with. *)
Fixpoint toLowerCase (t : string) : string :=
  match t with
  | EmptyString => EmptyString
  | String c t' => String (lowerAscii c) (toLowerCase t')
  end.

(** The editing listener, once it has established that a text is being
    edited and that the event targets the page itself. *)
Definition handleGlobalKeydown (e : Key.t) (s : state) : state :=
  match currentTextObj s with
  | None => s
  | Some cur =>
    let* o := deref s cur in
    let t := textOf o in
    let k := Key.key e in
    if (String.eqb k "Enter" || String.eqb k "Escape")%bool then applyText s
    else if (Key.ctrlKey e && String.eqb (toLowerCase k) "a")%bool then
      let* s := set_textCursor (String.length t) s in
      modify cur (set_isAllSelected (Some true)) s
    else if String.eqb k "Backspace" then
      if isTrue (isAllSelected o) then
        let* s := modify cur (fun o =>
                   set_isAllSelected (Some false)
                     (set_text (Some ""%string) o)) s in
        set_textCursor 0%nat s
      else if (0 <? textCursor s)%nat then
        let* s := modify cur (set_text
                   (Some (sliceTo (textCursor s - 1) t
                          ++ sliceFrom (textCursor s) t)%string)) s in
        set_textCursor (textCursor s - 1)%nat s
      else s
    else if String.eqb k "Delete" then
      if isTrue (isAllSelected o) then
        let* s := modify cur (fun o =>
                   set_isAllSelected (Some false)
                     (set_text (Some ""%string) o)) s in
        set_textCursor 0%nat s
      else if (textCursor s <? String.length t)%nat then
        modify cur (set_text
          (Some (sliceTo (textCursor s) t
                 ++ sliceFrom (textCursor s + 1) t)%string)) s
      else s
    else if String.eqb k "ArrowLeft" then
      let* s := modify cur (set_isAllSelected (Some false)) s in
      if (0 <? textCursor s)%nat
      then set_textCursor (textCursor s - 1)%nat s else s
    else if String.eqb k "ArrowRight" then
      let* s := modify cur (set_isAllSelected (Some false)) s in
      if (textCursor s <? String.length t)%nat
      then set_textCursor (textCursor s + 1)%nat s else s
    else if String.eqb k "Home" then
      let* s := modify cur (set_isAllSelected (Some false)) s in
      set_textCursor 0%nat s
    else if String.eqb k "End" then
      let* s := modify cur (set_isAllSelected (Some false)) s in
      set_textCursor (String.length t) s
    else if ((String.length k =? 1)%nat && negb (Key.ctrlKey e)
             && negb (Key.altKey e) && negb (Key.metaKey e))%bool then
      if isTrue (isAllSelected o) then
        let* s := modify cur (fun o =>
                   set_isAllSelected (Some false) (set_text (Some k) o)) s in
        set_textCursor 1%nat s
      else
        let* s := modify cur (set_text
                   (Some (sliceTo (textCursor s) t ++ k
                          ++ sliceFrom (textCursor s) t)%string)) s in
        set_textCursor (textCursor s + 1)%nat s
    else s
  end.

(** The loop of [handleClickOutside] that turns a click position into a
    cursor index; [i] counts the characters already passed. *)
Fixpoint clickPosition (f : Font.t) (chars : list ascii) (i : nat)
    (totalWidth clickX objX : value) : nat :=
  match chars with
  | [] =>
      if clickX <=? objX + totalWidth + num 0 / num 2 then i else S i
  | c :: rest =>
      let charWidth := measureText f (String c EmptyString) in
      if clickX <=? objX + totalWidth + charWidth / num 2 then i
      else clickPosition f rest (S i) (totalWidth + charWidth) clickX objX
  end.

(** The editing listener for clicks on the canvas. *)
Definition handleClickOutside (clickX clickY : value) (s : state) : state :=
  if isEditingText s then
    match currentTextObj s with
    | Some cur =>
        let* o := deref s cur in
        let bounds := getObjectBounds o in
        if ((clickX >=? Bounds.x bounds)
            && (clickX <=? Bounds.x bounds + Bounds.width bounds)
            && (clickY >=? Bounds.y bounds)
            && (clickY <=? Bounds.y bounds + Bounds.height bounds))%bool
        then
          set_textCursor
            (clickPosition (getTextFont o) (list_ascii_of_string (textOf o))
                           0%nat (num 0) clickX (x o)) s
        else applyText s
    | None => applyText s
    end
  else s.

(** The [keydown] listener of the document. *)
Definition keydown (e : Key.t) (s : state) : state :=
  let k := Key.key e in
  let* s := if String.eqb k "Shift" then set_isShiftPressed true s else s in
  let* s := if (Key.ctrlKey e && String.eqb (toLowerCase k) "z")%bool
           then undo s else s in
  let* s := if (Key.ctrlKey e && String.eqb (toLowerCase k) "y")%bool
           then redo s else s in
  let* s :=
    match (if String.eqb k "Delete" then selectedObject s else None) with
    | Some sel =>
        let* s := pushToUndoStack s in
        let* s := set_drawingStack
                   (splice (indexOf (drawingStack s) sel) (drawingStack s)) s in
        set_selectedObject None s
    | None => s
    end in
  let* s :=
    if String.eqb k "Escape" then
      if isCropping s then cancelCrop s
      else set_selectedObject None s
    else s in
  if (negb (Key.ctrlKey e) && negb (Key.altKey e) && negb (Key.shiftKey e)
      && negb (isEditingText s))%bool then
    let k := toLowerCase k in
    let tool :=
      if String.eqb k "s" then Some "select"%string
      else if String.eqb k "c" then Some "crop"%string
      else if String.eqb k "t" then Some "text"%string
      else if String.eqb k "r" then Some "rect"%string
      else if String.eqb k "o" then Some "circle"%string
      else if String.eqb k "a" then Some "arrow"%string
      else if String.eqb k "n" then Some "numbers"%string
      else if String.eqb k "b" then Some "blur"%string
      else if String.eqb k "u" then Some "brush"%string
      else if String.eqb k "e" then Some "eraser"%string
      else None in
    match tool with
    | Some tool => if Key.targetIsInput e then s else setActiveTool tool s
    | None => s
    end
  else s.

Definition keyup (k : string) (s : state) : state :=
  if String.eqb k "Shift" then set_isShiftPressed false s else s.

(** A key press as the page dispatches it once the editing listeners are
    installed: the editing listener runs in the capture phase and, when it
    takes the event, stops it there.  [createTextInput] installs the
    editing listeners 100 ms after it is called; a key pressed before that
    goes to [keydown] alone, as a key whose target is not the page does
    here. *)
Definition keydownEvent (e : Key.t) (s : state) : state :=
  if (isEditingText s && isSome (currentTextObj s) && Key.targetIsBody e)%bool
  then handleGlobalKeydown e s
  else keydown e s.

(** [img.onload] of [handleImage] *)
Definition loadImage (s : state) : state :=
  let* s := set_currentImage true s in
  let* s := set_drawingStack [] s in
  let* s := set_undoStack [] s in
  let* s := set_redoStack [] s in
  let* s := set_numberCounter (num 1) s in
  set_selectedObject None s.

(** ** 11. Events and runs *)

Inductive event : Type :=
| LoadImage
| ToolButton (tool : string)
| ShapeMenu (shape : string)
| MouseDown (ex ey : R)
| MouseMove (ex ey : R)
| MouseUp (ex ey : R)
| Click (ex ey : R)
| DblClick (ex ey : R)
| KeyDown (e : Key.t)
| KeyUp (k : string)
| UndoButton
| RedoButton.

Definition handle (s : state) (e : event) : state :=
  match e with
  | LoadImage => loadImage s
  | ToolButton tool => setActiveTool tool s
  | ShapeMenu shape => selectShape shape s
  | MouseDown ex ey => mousedown (num ex) (num ey) s
  | MouseMove ex ey => mousemove (num ex) (num ey) s
  | MouseUp ex ey => mouseup (num ex) (num ey) s
  | Click ex ey => handleClickOutside (num ex) (num ey) s
  | DblClick ex ey => dblclick (num ex) (num ey) s
  | KeyDown e => keydownEvent e s
  | KeyUp k => keyup k s
  | UndoButton => undo s
  | RedoButton => redo s
  end.

(** The events of a session, handled in the order of their arrival. *)
Fixpoint run (s : state) (es : list event) : state :=
  match es with
  | [] => s
  | e :: es' => let* s := handle s e in run s es'
  end.

(** The state in which the page starts: no image, the select tool. *)
Definition init : state :=
  mkState false "select" [] [] [] [] (num 1) false false None
          Undefined Undefined Undefined Undefined false None None None
          "rect" false
          (TextFormatting.mk false false false "Arial" (num 50))
          false None None None None None 0%nat "#ff0000" (num 10).

Definition reachable (s : state) : Prop := exists es, s = run init es.

End Editor.

(** ** 12. The sentences of the specification, as definitions

    Where the specification describes a result in words, the description is
    written down here next to the script's function, once as the sentence
    stands ([statedBox], [statedOutside]) and once as the script has it
    ([baseBox], [outside]). *)

Section Statements.

Variable measureText : Font.t -> string -> value.

(** The min/max over the points of a stroke, expanded by half the stroke
    width on each side. *)
Definition pointsBox (ps : list Point.t) (lw : value) : Bounds.t :=
  let left := vminOf (map Point.x ps) - lw / num 2 in
  let right := vmaxOf (map Point.x ps) + lw / num 2 in
  let top := vminOf (map Point.y ps) - lw / num 2 in
  let bottom := vmaxOf (map Point.y ps) + lw / num 2 in
  Bounds.mk left top (right - left) (bottom - top).

(** The unrotated base box of each kind, as the specification words it:
    the stored box, the radius-centred square of a number marker, the
    measured extent of a text, the expanded min/max of a brush stroke. *)
Definition statedBox (o : obj) : Bounds.t :=
  if typeIs o "numbers" then
    Bounds.mk (x o - radius o) (y o - radius o)
              (radius o + radius o) (radius o + radius o)
  else if typeIs o "text" then
    Bounds.mk (x o) (y o) (measureText (getTextFont o) (textOf o)) (size o)
  else if typeIs o "brush" then
    pointsBox (default [] (points o)) (lineWidth o)
  else Bounds.mk (x o) (y o) (width o) (height o).

(** A stored dimension as [getObjectBounds] reads it: one that is absent,
    [null] or [NaN] counts as 0. *)
Definition dimension (v : value) : value :=
  match v with
  | Undefined | Null | Num NaN => num 0
  | Num n => Num n
  end.

(** The base box of each kind as the script computes it: a stroke
    without points is the [lineWidth] square centred on its [x], [y]. *)
Definition baseBox (o : obj) : Bounds.t :=
  if typeIs o "numbers" then
    Bounds.mk (x o - radius o) (y o - radius o)
              (radius o + radius o) (radius o + radius o)
  else if typeIs o "text" then
    Bounds.mk (x o) (y o) (measureText (getTextFont o) (textOf o)) (size o)
  else if (typeIs o "brush" || typeIs o "eraser")%bool then
    match points o with
    | Some (p :: ps) => pointsBox (p :: ps) (lineWidth o)
    | _ => Bounds.mk (x o - lineWidth o / num 2) (y o - lineWidth o / num 2)
                     (lineWidth o) (lineWidth o)
    end
  else Bounds.mk (x o) (y o) (dimension (width o)) (dimension (height o)).

(** A point strictly outside a box widened by [margin] on every side. *)
Definition outsideBox (mx my : value) (b : Bounds.t) (margin : value) : bool :=
  ((mx <? Bounds.x b - margin)
   || (mx >? Bounds.x b + Bounds.width b + margin)
   || (my <? Bounds.y b - margin)
   || (my >? Bounds.y b + Bounds.height b + margin))%bool.

(** A point farther than [lineWidth / 2 + 2] from every segment. *)
Definition outsideSegments (mx my : value) (segs : list (Point.t * Point.t))
    (lw : value) : bool :=
  forallb (fun '(p1, p2) =>
             distanceToLineSegment mx my (Point.x p1) (Point.y p1)
                                   (Point.x p2) (Point.y p2)
             >? lw / num 2 + num 2)
          segs.

(** The one segment of an arrow, from its origin to its tip. *)
Definition arrowSegment (o : obj) : list (Point.t * Point.t) :=
  [(Point.mk (x o) (y o), Point.mk (x o + width o) (y o + height o))].

(** "Strictly outside the tolerance-expanded bounds" of one object, as
    the specification words it: segments for arrows and brush strokes,
    the box with a 3px margin for every other kind. *)
Definition statedOutside (mx my : value) (o : obj) : bool :=
  if typeIs o "arrow" then outsideSegments mx my (arrowSegment o) (lineWidth o)
  else if typeIs o "brush" then
    outsideSegments mx my (segments (default [] (points o))) (lineWidth o)
  else outsideBox mx my (getObjectBounds measureText o) (num 3).

(** The same as the script tests it: a brush object without points is
    box-tested. *)
Definition outside (mx my : value) (o : obj) : bool :=
  match (if typeIs o "brush" then points o else None) with
  | Some (p :: ps) => outsideSegments mx my (segments (p :: ps)) (lineWidth o)
  | _ =>
      if typeIs o "arrow"
      then outsideSegments mx my (arrowSegment o) (lineWidth o)
      else outsideBox mx my (getObjectBounds measureText o) (num 3)
  end.

End Statements.

(** ** 12b. More of the script

    The selection box, the crop and the canvas size: what [drawSelectionBox]
    draws as handles, what [applyCrop] computes and what its [onload]
    handler does to the Document, and the size [resetCanvas] displays the
    canvas at. *)

Section Overlay.

Variable measureText : Font.t -> string -> value.

(** The [corners] of [drawSelectionBox]. *)
Definition handleCorners (bounds : Bounds.t) : list Point.t :=
  [ Point.mk (Bounds.x bounds - num 2) (Bounds.y bounds - num 2);
    Point.mk (Bounds.x bounds + Bounds.width bounds - num 2)
             (Bounds.y bounds - num 2);
    Point.mk (Bounds.x bounds - num 2)
             (Bounds.y bounds + Bounds.height bounds - num 2);
    Point.mk (Bounds.x bounds + Bounds.width bounds - num 2)
             (Bounds.y bounds + Bounds.height bounds - num 2) ].

(** The squares [drawSelectionBox] fills, one for each corner
    ([fillRect(corner.x - handleSize/2, corner.y - handleSize/2,
    handleSize, handleSize)]), and the circle it draws for the rotation
    handle: its centre and its radius. *)
Definition handleSquares (o : obj) : list Bounds.t :=
  let bounds := getObjectBounds measureText o in
  let handleSize := num 8 in
  map (fun corner =>
         Bounds.mk (Point.x corner - handleSize / num 2)
                   (Point.y corner - handleSize / num 2) handleSize handleSize)
      (handleCorners bounds).

Definition rotationCircle (o : obj) : Point.t * value :=
  let bounds := getObjectBounds measureText o in
  let handleSize := num 8 in
  let rotateHandleY := Bounds.y bounds - num 20 in
  let rotateHandleX := Bounds.x bounds + Bounds.width bounds / num 2 in
  (Point.mk rotateHandleX rotateHandleY, handleSize / num 2).

(** A point of a filled rectangle, its border included. *)
Definition inRect (mx my : value) (r : Bounds.t) : bool :=
  ((Bounds.x r <=? mx) && (mx <=? Bounds.x r + Bounds.width r)
   && (Bounds.y r <=? my) && (my <=? Bounds.y r + Bounds.height r))%bool.

(** [if (width < 0) { x += width; width = -width; }], and the same for the
    height: the rectangle of a drag in any direction. *)
Definition normalizeRect (c : Bounds.t) : Bounds.t :=
  let* (x, width) :=
    if Bounds.width c <? num 0
    then (Bounds.x c + Bounds.width c, - Bounds.width c)
    else (Bounds.x c, Bounds.width c) in
  let* (y, height) :=
    if Bounds.height c <? num 0
    then (Bounds.y c + Bounds.height c, - Bounds.height c)
    else (Bounds.y c, Bounds.height c) in
  Bounds.mk x y width height.

(** The area [applyCrop] cuts out of an image of the given size, or
    nothing when it is empty and [applyCrop] cancels the crop. *)
Definition cropArea (imageWidth imageHeight : value) (cropRect : Bounds.t)
    : option Bounds.t :=
  let c := normalizeRect cropRect in
  let x := vmax (num 0) (vmin (Bounds.x c) imageWidth) in
  let y := vmax (num 0) (vmin (Bounds.y c) imageHeight) in
  let width := vmin (Bounds.width c) (imageWidth - x) in
  let height := vmin (Bounds.height c) (imageHeight - y) in
  if ((width <=? num 0) || (height <=? num 0))%bool then None
  else Some (Bounds.mk x y width height).

(** [obj.x -= x; obj.y -= y] *)
Definition cropShift (area : Bounds.t) (o : obj) : obj :=
  let* o := set_x (x o - Bounds.x area) o in
  set_y (y o - Bounds.y area) o.

(** The value the filter callback returns: is the object still visible
    after the crop. *)
Definition cropVisible (area : Bounds.t) (o : obj) : bool :=
  let bounds := getObjectBounds measureText o in
  ((Bounds.x bounds + Bounds.width bounds >? num 0)
   && (Bounds.x bounds <? Bounds.width area)
   && (Bounds.y bounds + Bounds.height bounds >? num 0)
   && (Bounds.y bounds <? Bounds.height area))%bool.

(** [drawingStack.filter(obj => ...)] of the [onload] handler of
    [applyCrop]; the callback moves the objects it is called on. *)
Fixpoint cropFilter (area : Bounds.t) (ls : list nat) (s : state)
    : list nat * state :=
  match ls with
  | [] => ([], s)
  | l :: ls' =>
      if typeIs (deref s l) "blur" then cropFilter area ls' s
      else
        let* s := modify l (cropShift area) s in
        let keep := cropVisible area (deref s l) in
        let* (kept, s) := cropFilter area ls' s in
        (if keep then l :: kept else kept, s)
  end.

(** [newImg.onload] of [applyCrop], for the area computed there. *)
Definition cropLoaded (area : Bounds.t) (s : state) : state :=
  let* s := set_currentImage true s in
  let* (kept, s) := cropFilter area (drawingStack s) s in
  let* s := set_drawingStack kept s in
  cancelCrop s.

End Overlay.

(** The size [resetCanvas] gives the canvas on the page, before
    [Math.round], from the size of the container and of the image. *)
Definition displaySize (containerWidth containerHeight imageWidth imageHeight
                        : value) : value * value :=
  let availableWidth := containerWidth - num 40 in
  let availableHeight := containerHeight - num 40 in
  let imageRatio := imageWidth / imageHeight in
  let displayWidth := availableWidth in
  let displayHeight := displayWidth / imageRatio in
  let* (displayWidth, displayHeight) :=
    if displayHeight >? availableHeight
    then (availableHeight * imageRatio, availableHeight)
    else (displayWidth, displayHeight) in
  let minSize := num 100 in
  let* (displayWidth, displayHeight) :=
    if displayWidth <? minSize
    then (minSize, minSize / imageRatio)
    else (displayWidth, displayHeight) in
  if displayHeight <? minSize
  then (minSize * imageRatio, minSize)
  else (displayWidth, displayHeight).

(** ** 12c. Notions the further properties are stated with *)

(** A resize update that passes the minimum-size test of [applyResize]. *)
Definition accepted (ib : Bounds.t) (h : string) (nx ny mx my : value) : bool :=
  let nb := resizedBounds ib h (nx - mx) (ny - my) in
  (negb (vabs (Bounds.width nb) <? num 5)
   && negb (vabs (Bounds.height nb) <? num 5))%bool.

(** The key presses on which [keydown] looks for a tool shortcut. *)
Definition plainKeydown (e : Key.t) (s : state) : bool :=
  (negb (Key.ctrlKey e) && negb (Key.altKey e) && negb (Key.shiftKey e)
   && negb (isEditingText s) && negb (Key.targetIsInput e))%bool.

(** [handleGlobalKeydown] with the two tests it begins with: the whole
    editing listener, as the page calls it once [createTextInput] has
    installed it, 100 ms after it was called. *)
Definition editingListener (e : Key.t) (s : state) : state :=
  if (negb (isEditingText s) || negb (isSome (currentTextObj s)))%bool then s
  else if Key.targetIsBody e then handleGlobalKeydown e s
  else s.

(** The point at the fraction [t] of the segment from [(x1, y1)] to
    [(x2, y2)], and the distance from [(px, py)] to a point. *)
Definition squaredDistance (px py qx qy : R) : R :=
  ((px - qx) * (px - qx) + (py - qy) * (py - qy))%R.

Definition pointOn (x1 y1 x2 y2 t : R) : R * R :=
  ((x1 + t * (x2 - x1))%R, (y1 + t * (y2 - y1))%R).

Definition distanceTo (px py : R) (q : R * R) : R :=
  sqrt (squaredDistance px py (fst q) (snd q)).

(** The variables of a crop in progress, and what holds of them in every
    state the page can be in. *)
Definition cropView (s : state) : string * bool * option Bounds.t :=
  (activeTool s, isCropping s, cropRect s).

Definition cropConsistent (s : state) : Prop :=
  isCropping s = isSome (cropRect s)
  /\ (isCropping s = true -> activeTool s = "crop"%string).

(** A stored dimension that is a number. *)
Definition isNumber (v : value) : bool :=
  match v with
  | Num NaN => false
  | Num _ => true
  | _ => false
  end.

(** A brush stroke that has its points. *)
Definition drawn (o : obj) : bool :=
  if typeIs o "brush"
  then match points o with Some (_ :: _) => true | _ => false end
  else true.

(** The objects on which [statedBox] and [baseBox] agree: number markers,
    texts, brush strokes that have their points, and boxes whose width and
    height are numbers. *)
Definition conforming (o : obj) : bool :=
  if typeIs o "numbers" then true
  else if typeIs o "text" then true
  else if typeIs o "brush" then drawn o
  else (negb (typeIs o "eraser") && isNumber (width o)
        && isNumber (height o))%bool.

(** [d >= 0 ? size : -size] *)
Definition towards (d size : R) : R := if Rleb 0 d then size else (- size)%R.

(** The deltas a creation drag by [(dx, dy)] draws with, as the
    specification words them: with shift held a rectangle or circle takes
    the larger magnitude on both axes and a checkmark or cross is left
    alone; without shift it is the other way round, with the smaller
    magnitude.  Each delta keeps its sign. *)
Definition statedDrag (shift : bool) (tool : string) (dx dy : R) : R * R :=
  if (String.eqb tool "rect" || String.eqb tool "circle")%bool then
    if shift
    then (towards dx (Rmax (Rabs dx) (Rabs dy)),
          towards dy (Rmax (Rabs dx) (Rabs dy)))
    else (dx, dy)
  else if (String.eqb tool "check" || String.eqb tool "cross")%bool then
    if shift
    then (dx, dy)
    else (towards dx (Rmin (Rabs dx) (Rabs dy)),
          towards dy (Rmin (Rabs dx) (Rabs dy)))
  else (dx, dy).

(** The four shapes a drag draws as a box. *)
Definition boxShape (tool : string) : Prop :=
  tool = "rect"%string \/ tool = "circle"%string
  \/ tool = "check"%string \/ tool = "cross"%string.

(** The box between two opposite corners. *)
Definition cornersBox (x1 y1 x2 y2 : R) : Bounds.t :=
  Bounds.mk (num (Rmin x1 x2)) (num (Rmin y1 y2))
            (num (Rabs (x2 - x1))) (num (Rabs (y2 - y1))).

(** The stored box of an object. *)
Definition storedBox (o : obj) : Bounds.t :=
  Bounds.mk (x o) (y o) (width o) (height o).

(** The object a [mouseup] at [(endX, endY)] adds to the Document. *)
Definition created (s : state) (endX endY : value) : option obj :=
  let s' := mouseup endX endY s in
  if (length (drawingStack s) <? length (drawingStack s'))%nat
  then last (document s')
  else None.

(** A value [JSON.stringify] writes and [JSON.parse] reads back unchanged:
    anything but [NaN] and the infinities. *)
Definition representable (v : value) : Prop :=
  match v with
  | Num (Fin _) | Undefined | Null => True
  | Num _ => False
  end.

Definition representablePoint (p : Point.t) : Prop :=
  representable (Point.x p) /\ representable (Point.y p).

(** An object all of whose numbers are representable. *)
Definition jsonSafe (o : obj) : Prop :=
  representable (x o) /\ representable (y o) /\ representable (width o)
  /\ representable (height o) /\ representable (lineWidth o)
  /\ representable (rotation o) /\ representable (radius o)
  /\ representable (number o) /\ representable (size o)
  /\ representable (originalWidth o) /\ representable (originalHeight o)
  /\ representable (originalSize o) /\ representable (initialRotation o)
  /\ Forall representablePoint (default [] (points o)).

(** A concrete browser for the examples: every glyph is ten pixels wide,
    and the slider keeps the value it is given. *)
Definition tenPixelGlyphs : Font.t -> string -> value :=
  fun _ t => num (10 * INR (String.length t)).

Definition plainSlider : value -> value := fun v => v.

(** ** 13. Gestures on one object, example objects and sessions *)

(** What one complete drag of a handle does to the selected object:
    [mousedown] on the handle ([startTransform]), one [applyResize] for
    every [mousemove], all from the same baseline box and mouse position,
    and [mouseup] ([commitTransform]). *)
Definition dragHandle (baseline : Bounds.t) (handleType : string)
    (initialMouseX initialMouseY : value) (moves : list (value * value))
    (o : obj) : obj :=
  commitTransform
    (fold_left (fun o '(newX, newY) =>
                  applyResize (Some baseline) o handleType newX newY
                              initialMouseX initialMouseY)
               moves (startTransform o)).

(** The page with an image loaded and the arrow tool chosen. *)
Definition arrowToolState : state := setActiveTool "arrow" (loadImage init).

Local Open Scope R_scope.
Local Open Scope string_scope.


(** A 100 x 100 rectangle at the origin, as [createObject] leaves it. *)
Definition rect100 : obj :=
  mkObj (Some "rect"%string) (Some "#ff0000"%string) (num 0) (num 0)
        (num 100) (num 100) (num 5) (num 0) Undefined Undefined None
        Undefined None None None None None (num 100) (num 100) Undefined
        Undefined None.

(** A text of size 50, as [createTextInput] leaves it after typing. *)
Definition text50 : obj :=
  mkObj (Some "text"%string) (Some "#ff0000"%string) (num 0) (num 0)
        Undefined Undefined Undefined (num 0) Undefined Undefined
        (Some "Hello"%string) (num 50) (Some "Arial"%string) (Some false)
        (Some false) (Some false) None Undefined Undefined (num 50)
        Undefined None.

(** A brush stroke drawn from (100, 100) to (50, 150) ... *)
Definition brushSession : list event :=
  [LoadImage; ToolButton "brush"; MouseDown 100 100; MouseMove 50 150;
   MouseUp 50 150].

(** ... the stroke it leaves ... *)
Definition brushStroke : obj :=
  mkObj (Some "brush"%string) (Some "#ff0000"%string) Undefined Undefined
        Undefined Undefined (num 10) Undefined Undefined Undefined None
        Undefined None None None None
        (Some [Point.mk (num 100) (num 100); Point.mk (num 50) (num 150)])
        Undefined Undefined Undefined Undefined None.

(** ... and the second object [mouseup] adds for the same gesture: a box
    of type [brush] that has no points. *)
Definition pointlessBrush : obj :=
  mkObj (Some "brush"%string) (Some "#ff0000"%string) (num 50) (num 100)
        (num 50) (num 50) (num 10) (num 0) Undefined Undefined None
        Undefined None None None None None (num 50) (num 50) Undefined
        Undefined None.

(** A rectangle drawn straight down, 0 wide and 50 high, then widened by
    its sw handle. *)
Definition thinRectSession : list event :=
  [LoadImage; ToolButton "rect"; MouseDown 100 100; MouseUp 100 150;
   ToolButton "select"; MouseDown 98 148; MouseMove 88 148; MouseUp 88 148].

Definition widenedThinRect : obj :=
  mkObj (Some "rect"%string) (Some "#ff0000"%string) (num 90) (num 100)
        (Num NaN) (num 50) (num 5) (num 0) Undefined Undefined None
        Undefined None None None None None (Num NaN) (num 50) Undefined
        Undefined None.

(** A number marker placed at (100, 100), then resized by its se handle. *)
Definition markerSession : list event :=
  [LoadImage; ToolButton "numbers"; MouseDown 100 100; MouseUp 100 100;
   ToolButton "select"; MouseDown 118 118; MouseMove 128 128; MouseUp 128 128].

Definition resizedMarker : obj :=
  mkObj (Some "numbers"%string) (Some "#ff0000"%string) (num 80) (num 80)
        (Num NaN) (Num NaN) Undefined (num 0) (num 20) (num 1) None
        Undefined None None None None None (Num NaN) (Num NaN) Undefined
        Undefined None.

(** The same marker as a snapshot gives it back. *)
Definition restoredMarker : obj :=
  mkObj (Some "numbers"%string) (Some "#ff0000"%string) (num 80) (num 80)
        Null Null Undefined (num 0) (num 20) (num 1) None
        Undefined None None None None None Null Null Undefined
        Undefined None.

(** A rectangle is drawn; with the select tool the pointer comes to rest
    on it, it is clicked, and Delete is pressed. *)
Definition deleteKey : Key.t := Key.mk "Delete" false false false false true false.

Definition hoverSession : list event :=
  [LoadImage; ToolButton "rect"; MouseDown 100 100; MouseUp 200 200;
   ToolButton "select"; MouseMove 150 150; MouseDown 150 150;
   MouseUp 150 150].

Definition hoverDeleteSession : list event :=
  hoverSession ++ [KeyDown deleteKey].

(** The rectangle of these sessions, drawn from (100, 100) to (200, 200). *)
Definition firstRect : obj :=
  mkObj (Some "rect"%string) (Some "#ff0000"%string) (num 100) (num 100)
        (num 100) (num 100) (num 5) (num 0) Undefined Undefined None
        Undefined None None None None None (num 100) (num 100) Undefined
        Undefined None.

(** Two rectangles are drawn and the second is undone: an undo and a redo
    are both available. *)
Definition twoRectSession : list event :=
  [LoadImage; ToolButton "rect"; MouseDown 100 100; MouseUp 200 200;
   MouseDown 300 300; MouseUp 350 350; UndoButton].

(** The checkmark is chosen in the shape menu and the canvas is clicked at
    (100, 100). *)
Definition checkClickSession : list event :=
  [LoadImage; ShapeMenu "check"; MouseDown 100 100; MouseUp 100 100].

Definition clickedCheck : obj :=
  mkObj (Some "check"%string) (Some "#4caf50"%string) (num (195 / 2))
        (num (195 / 2)) (num 5) (num 5) (num 5) (num 0) Undefined Undefined
        None Undefined None None None None None (num 5) (num 5) Undefined
        Undefined None.

(** Shift is held and the rect tool has the button down at (100, 100). *)
Definition shiftKey : Key.t := Key.mk "Shift" false false true false true false.

Definition shiftRectSession : list event :=
  [LoadImage; ToolButton "rect"; KeyDown shiftKey; MouseDown 100 100].

(** The same click with [activeTool] set to [check] itself, which no
    button or key of the page does. *)
Definition directCheckSession : list event :=
  [LoadImage; ToolButton "check"; MouseDown 100 100; MouseUp 100 100].

Definition twentyCheck : obj :=
  mkObj (Some "check"%string) (Some "#4caf50"%string) (num 90) (num 90)
        (num 20) (num 20) (num 5) (num 0) Undefined Undefined None
        Undefined None None None None None (num 20) (num 20) Undefined
        Undefined None.

(** More keys, and states for the examples of the further properties. *)
Definition ctrlZ : Key.t := Key.mk "z" true false false false true false.
Definition ctrlR : Key.t := Key.mk "r" true false false false true false.
Definition escapeKey : Key.t := Key.mk "Escape" false false false false true false.
Definition backspaceKey : Key.t :=
  Key.mk "Backspace" false false false false true false.
Definition bangKey : Key.t := Key.mk "!" false false false false true false.

(** An image with [rect100] on it, selected. *)
Definition selectedRectState : state :=
  set_selectedObject (Some 0%nat)
    (set_drawingStack [0%nat] (set_heap [rect100] (loadImage init))).

(** The same with the button down on the rectangle at (50, 50). *)
Definition pressedRectState : state :=
  set_startY (num 50) (set_startX (num 50)
    (set_isDrawing true selectedRectState)).

(** [text50] being edited, the cursor at its end. *)
Definition editingState : state :=
  set_textCursor 5%nat
    (set_currentTextObj (Some 0%nat)
       (set_isEditingText true
          (set_drawingStack [0%nat] (set_heap [text50] (loadImage init))))).

Definition numbersToolState : state := setActiveTool "numbers" (loadImage init).
Definition blurToolState : state := setActiveTool "blur" (loadImage init).

(** [rect100] on the image, the eraser chosen. *)
Definition eraserState : state :=
  set_drawingStack [0%nat]
    (set_heap [rect100] (setActiveTool "eraser" (loadImage init))).

(** A blurred region, and an image with it and [rect100]. *)
Definition blur100 : obj := set_type (Some "blur") rect100.

Definition blurAndRectState : state :=
  set_drawingStack [0%nat; 1%nat] (set_heap [blur100; rect100] (loadImage init)).

(** The same with [rect100], the upper of the two, selected. *)
Definition selectedSecondState : state :=
  set_selectedObject (Some 1%nat) blurAndRectState.

(** A crop frame is being dragged. *)
Definition cropSession : list event :=
  [LoadImage; ToolButton "crop"; MouseDown 10 10; MouseMove 200 150].

(** A stroke of three points. *)
Definition zigzag : obj :=
  mkObj (Some "brush"%string) (Some "#ff0000"%string) Undefined Undefined
        Undefined Undefined (num 10) Undefined Undefined Undefined None
        Undefined None None None None
        (Some [Point.mk (num 10) (num 10); Point.mk (num 30) (num 40);
               Point.mk (num 60) (num 20)])
        Undefined Undefined Undefined Undefined None.

(** * Properties *)

(** ** Reals: deciding the tests of the script *)

Unset Implicit Arguments.
Local Close Scope string_scope.
Local Open Scope R_scope.

Lemma Rltb_true a b : a < b -> Rltb a b = true.
Proof. unfold Rltb; destruct (Rlt_dec a b); auto; lra. Qed.

Lemma Rltb_false a b : b <= a -> Rltb a b = false.
Proof. unfold Rltb; destruct (Rlt_dec a b); auto; lra. Qed.

Lemma Rleb_true a b : a <= b -> Rleb a b = true.
Proof. unfold Rleb; destruct (Rle_dec a b); auto; lra. Qed.

Lemma Rleb_false a b : b < a -> Rleb a b = false.
Proof. unfold Rleb; destruct (Rle_dec a b); auto; lra. Qed.

Lemma Reqb_true a b : a = b -> Reqb a b = true.
Proof. unfold Reqb; destruct (Req_dec_T a b); auto; lra. Qed.

Lemma Reqb_false a b : a <> b -> Reqb a b = false.
Proof. unfold Reqb; destruct (Req_dec_T a b); auto; contradiction. Qed.

Lemma Rltb_spec a b : reflect (a < b) (Rltb a b).
Proof. unfold Rltb; destruct (Rlt_dec a b); constructor; auto. Qed.

Lemma Rleb_spec a b : reflect (a <= b) (Rleb a b).
Proof. unfold Rleb; destruct (Rle_dec a b); constructor; auto. Qed.

Lemma Reqb_spec a b : reflect (a = b) (Reqb a b).
Proof. unfold Reqb; destruct (Req_dec_T a b); constructor; auto. Qed.

Lemma Rleb_sqrt e c : 0 <= e -> 0 <= c -> Rleb (sqrt e) c = Rleb e (c * c).
Proof.
  intros He Hc.
  destruct (Rleb_spec (sqrt e) c) as [H|H], (Rleb_spec e (c * c)) as [H'|H'];
    auto; exfalso.
  - apply H'. rewrite <- (sqrt_sqrt e He).
    apply Rmult_le_compat; auto using sqrt_pos.
  - apply H. rewrite <- (sqrt_square c Hc). now apply sqrt_le_1_alt.
Qed.

(** ** Tactics: running the script on concrete inputs

    A test on reals does not compute; [ratom] settles the tests in the goal
    with [lra].  [geval] evaluates a closed call of a pure function, and
    [jseval] runs handlers statement by statement, so that every test is
    settled before the state it guards is used. *)

Ltac rsolve :=
  first [ lra | nra | unfold Rabs; repeat destruct Rcase_abs; lra ].

Ltac ratom :=
  match goal with
  | |- context [Rleb (sqrt ?e) ?c] => rewrite (Rleb_sqrt e c) by rsolve
  | |- context [Rltb ?a ?b] =>
      first [ rewrite (Rltb_true a b) by rsolve
            | rewrite (Rltb_false a b) by rsolve ]
  | |- context [Rleb ?a ?b] =>
      first [ rewrite (Rleb_true a b) by rsolve
            | rewrite (Rleb_false a b) by rsolve ]
  | |- context [Reqb ?a ?b] =>
      first [ rewrite (Reqb_true a b) by rsolve
            | rewrite (Reqb_false a b) by rsolve ]
  end.

(** ** Numbers and values *)

Local Open Scope js_scope.

Lemma dimension_or_zero v : (v || num 0) = dimension v.
Proof.
  destruct v as [| |[r| | |]]; try reflexivity.
  unfold or_else, truthy. destruct (Reqb_spec r 0) as [->|]; reflexivity.
Qed.

Lemma double_radius v : v * num 2 = v + v.
Proof.
  unfold vmul, vadd. f_equal.
  destruct (toNumber v) as [p| | |]; cbn; try reflexivity.
  - f_equal. lra.
  - unfold Num.scaleInf. now rewrite Reqb_false, Rltb_false by lra.
  - unfold Num.scaleInf. now rewrite Reqb_false, Rltb_false by lra.
Qed.

(** A comparison and its reverse cannot both hold. *)
Lemma lt_not_ge a b : Num.lt a b = true -> Num.le b a = false.
Proof.
  destruct a as [p| | |], b as [q| | |]; cbn; try congruence.
  destruct (Rltb_spec p q), (Rleb_spec q p); auto; lra.
Qed.

Lemma vlt_not_ge a b : (a <? b) = true -> (a >=? b) = false.
Proof. apply lt_not_ge. Qed.

Lemma vgt_not_le a b : (a >? b) = true -> (a <=? b) = false.
Proof. apply lt_not_ge. Qed.

(** ** Bounds of an object that is not rotated *)

Section BoundsFacts.

Variable measureText : Font.t -> string -> value.

Lemma strokeBounds_baseBox o :
  strokeBounds o =
  match points o with
  | Some (p :: ps) => pointsBox (p :: ps) (lineWidth o)
  | _ => Bounds.mk (x o - lineWidth o / num 2) (y o - lineWidth o / num 2)
                   (lineWidth o) (lineWidth o)
  end.
Proof. unfold strokeBounds. destruct (points o) as [[|p ps]|]; reflexivity. Qed.

Lemma getObjectBounds_unrotated o :
  truthy (rotation o) = false ->
  getObjectBounds measureText o = baseBox measureText o.
Proof.
  intros H. unfold getObjectBounds, baseBox. rewrite H. cbn [andb].
  rewrite !dimension_or_zero, !double_radius, <- !strokeBounds_baseBox.
  destruct (typeIs o "numbers"); [reflexivity|].
  destruct (typeIs o "text"); [reflexivity|].
  destruct (typeIs o "brush"); [reflexivity|].
  destruct (typeIs o "eraser"); reflexivity.
Qed.

End BoundsFacts.

(** ** Evaluation tactics *)

Ltac gred :=
  cbv -[getObjectBounds hits Rplus Rminus Rmult Rdiv Rinv Ropp IZR Rabs
        R_sqrt.sqrt Rltb Rleb Reqb Rtrigo_def.cos Rtrigo_def.sin atan PI INR].

Ltac gbounds :=
  match goal with
  | |- context [getObjectBounds ?m ?o] =>
      rewrite (getObjectBounds_unrotated m o)
        by (repeat (progress gred || ratom); reflexivity)
  end.

Ltac eval_call t tac :=
  let H := fresh in
  eassert (H : t = _) by (tac; reflexivity);
  rewrite H; clear H.

(** One call of [hits] at a time: a later object is only tested when the
    earlier ones were missed. *)
Ltac ghits :=
  match goal with
  | |- context [hits ?m ?o ?a ?b] =>
      eval_call (hits m o a b)
                ltac:(unfold hits; repeat (progress gred || ratom || gbounds))
  end.

Ltac geval := repeat (progress gred || ratom || gbounds || ghits).

Ltac egeom :=
  match goal with
  | |- context [getObjectAt ?m ?s ?a ?b] =>
      eval_call (getObjectAt m s a b) geval
  | |- context [getResizeHandle ?m ?a ?b ?o] =>
      eval_call (getResizeHandle m a b o) geval
  | |- context [getObjectBounds ?m ?o] =>
      eval_call (getObjectBounds m o) geval
  | |- context [createObject ?s ?a ?b ?c ?d] =>
      eval_call (createObject s a b c d) geval
  | |- context [applyResize ?ib ?o ?h ?a ?b ?c ?d] =>
      eval_call (applyResize ib o h a b c d) geval
  end.

Ltac jsred :=
  cbv -[andThen run getObjectAt getResizeHandle getObjectBounds createObject
        applyResize hits Rplus Rminus Rmult Rdiv Rinv Ropp IZR Rabs
        R_sqrt.sqrt Rltb Rleb Reqb Rtrigo_def.cos Rtrigo_def.sin atan PI INR].

Ltac jsnorm := repeat (progress jsred || ratom || egeom).

(** The next statement whose right-hand side is a value. *)
Ltac stepAndThen :=
  match goal with
  | |- context [@andThen ?A ?B ?D ?K] =>
      lazymatch D with
      | context [@andThen] => fail
      | context [Rltb] => fail
      | context [Rleb] => fail
      | context [Reqb] => fail
      | context [run] => fail
      | _ => change (@andThen A B D K) with (K D); cbv beta
      end
  end.

Lemma run_cons mt ri s e es :
  run mt ri s (e :: es) = andThen (handle mt ri s e) (fun s => run mt ri s es).
Proof. reflexivity. Qed.

Lemma run_nil mt ri s : run mt ri s [] = s.
Proof. reflexivity. Qed.

Ltac stepRun := first [rewrite run_cons | rewrite run_nil].

Ltac jseval := repeat (jsnorm; first [stepAndThen | stepRun]); jsnorm.

(** Arithmetic on values whose operands are finite numbers. *)
Ltac varith :=
  cbv [vadd vsub vmul vdiv vneg vabs toNumber Num.add Num.sub Num.mul Num.div
       Num.neg Num.abs num];
  repeat ratom; cbv beta iota;
  try apply (f_equal (fun r => Num (Fin r)));
  first [ lra | field; lra | rsolve ].

Lemma typeIs_eq o t : type o = Some t -> forall t', typeIs o t' = String.eqb t t'.
Proof. intros H t'. unfold typeIs. now rewrite H. Qed.

(** ** Resizing *)

(** C4: a Rect with baseline box {0, 0, 100, 100} and cached original
    dimensions 100 x 100, dragged by its se handle by (+50, +20), ends with
    width 150 and height 120 at the baseline's x = 0, y = 0; dragged by its
    nw handle by (+10, +10) it ends as {10, 10, 90, 90}.  Nothing else of
    the object changes, wherever the drag started. *)
Theorem resize_rect_corners (o : obj) (mx my : R) :
  type o = Some "rect"%string ->
  originalWidth o = num 100 -> originalHeight o = num 100 ->
  let baseline := Some (Bounds.mk (num 0) (num 0) (num 100) (num 100)) in
  applyResize baseline o "se-resize" (num (mx + 50)) (num (my + 20))
              (num mx) (num my)
  = set_height (num 120) (set_width (num 150) (set_y (num 0) (set_x (num 0) o)))
  /\ applyResize baseline o "nw-resize" (num (mx + 10)) (num (my + 10))
                 (num mx) (num my)
     = set_height (num 90) (set_width (num 90) (set_y (num 10) (set_x (num 10) o))).
Proof.
  intros Ht Hw Hh baseline. subst baseline.
  unfold applyResize, resizedBounds, andThen, falsy, num in *.
  rewrite (typeIs_eq o _ Ht).
  cbn [String.eqb Ascii.eqb Bool.eqb Bounds.x Bounds.y Bounds.width Bounds.height].
  rewrite Hw. cbn. repeat ratom. cbn. rewrite Hh. cbn. repeat ratom. cbn.
  rewrite Hw, Hh. cbn. repeat ratom.
  split; unfold set_height, set_width, set_y, set_x; cbn; f_equal; varith.
Qed.

Lemma resize_rect_corners_witness :
  applyResize (Some (Bounds.mk (num 0) (num 0) (num 100) (num 100))) rect100
              "se-resize" (num (300 + 50)) (num (200 + 20)) (num 300) (num 200)
  = set_height (num 120)
      (set_width (num 150) (set_y (num 0) (set_x (num 0) rect100)))
  /\ applyResize (Some (Bounds.mk (num 0) (num 0) (num 100) (num 100))) rect100
                 "nw-resize" (num (300 + 10)) (num (200 + 10)) (num 300) (num 200)
     = set_height (num 90)
         (set_width (num 90) (set_y (num 10) (set_x (num 10) rect100))).
Proof.
  exact (resize_rect_corners rect100 300 200 eq_refl eq_refl eq_refl).
Defined.

(** What the text branch of [applyResize] takes as the cached size, and the
    font size it computes from it. *)
Lemma falsy_or_else a b : (if falsy a then b else a) = (a || b).
Proof. unfold falsy, or_else. now destruct (truthy a). Qed.

(** A resize whose box falls below the minimum leaves the object alone. *)
Lemma applyResize_below_minimum ib o h nx ny mx my :
  h <> "rotate"%string ->
  let nb := resizedBounds ib h (nx - mx) (ny - my) in
  (vabs (Bounds.width nb) <? num 5) = true
  \/ (vabs (Bounds.height nb) <? num 5) = true ->
  applyResize (Some ib) o h nx ny mx my = o.
Proof.
  intros Hh nb H. subst nb. unfold applyResize.
  apply String.eqb_neq in Hh. rewrite Hh.
  destruct H as [H|H]; rewrite ?H; [reflexivity|].
  match goal with |- (if ?c then _ else _) = _ => destruct c end; reflexivity.
Qed.

(** A text resize either is rejected, and then at most records the cached
    size, or moves the text and sets the computed size. *)
Lemma applyResize_text ib o h nx ny mx my :
  h <> "rotate"%string -> typeIs o "text" = true ->
  let nb := resizedBounds ib h (nx - mx) (ny - my) in
  let newSize :=
    (originalSize o || size o) * (vabs (Bounds.height nb) / Bounds.height ib) in
  let o' := applyResize (Some ib) o h nx ny mx my in
  if ((vabs (Bounds.width nb) <? num 5) || (vabs (Bounds.height nb) <? num 5)
      || (newSize <? num 4))%bool
  then x o' = x o /\ y o' = y o /\ width o' = width o /\ height o' = height o
       /\ size o' = size o /\ rotation o' = rotation o
  else x o' = Bounds.x nb /\ y o' = Bounds.y nb /\ size o' = newSize.
Proof.
  intros Hh Ht nb newSize o'. subst nb newSize o'. unfold applyResize.
  apply String.eqb_neq in Hh. rewrite Hh, Ht.
  destruct (vlt (vabs (Bounds.width _)) _); [cbn; tauto|].
  destruct (vlt (vabs (Bounds.height _)) _); [cbn; tauto|].
  cbn [orb]. unfold andThen.
  assert (Hos : originalSize (if falsy (originalSize o)
                              then set_originalSize (size o) o else o)
                = (originalSize o || size o)).
  { rewrite <- falsy_or_else. now destruct (falsy (originalSize o)). }
  rewrite Hos.
  destruct (vlt _ (num 4)); [|cbn; tauto].
  destruct (falsy (originalSize o)); cbn; tauto.
Qed.



(** ** Creation *)

(** Comparisons and arithmetic on finite values, read on the reals. *)
Lemma vlt_num a b : (num a <? num b) = Rltb a b.
Proof. reflexivity. Qed.

Lemma vge_num a b : (num a >=? num b) = Rleb b a.
Proof. reflexivity. Qed.

Lemma vsub_num a b : num a - num b = num (a - b).
Proof. reflexivity. Qed.

Lemma vadd_num a b : num a + num b = num (a + b).
Proof. reflexivity. Qed.

Lemma vmul_num a b : num a * num b = num (a * b).
Proof. reflexivity. Qed.

Lemma vabs_num a : vabs (num a) = num (Rabs a).
Proof. reflexivity. Qed.

Lemma vneg_num a : (- num a) = num (- a).
Proof. reflexivity. Qed.

Lemma num_inj a b : a = b -> num a = num b.
Proof. now intros ->. Qed.

(** The two sizes a degenerate arrow is created with. *)
Lemma arrow_created s x1 y1 x2 y2 :
  activeTool s = "arrow"%string ->
  (Rabs (x2 - x1) < 10 \/ Rabs (y2 - y1) < 10)%R ->
  exists o,
    fst (createObject s (num x1) (num y1) (num x2) (num y2)) = Some o
    /\ width o = num (if Rleb 0 (x2 - x1) then 10 else -10)
    /\ height o = num (if Rleb 0 (y2 - y1) then 10 else -10).
Proof.
  intros Hs Hd. unfold createObject, andThen. rewrite !Hs.
  cbn [String.eqb Ascii.eqb Bool.eqb andb orb negb].
  rewrite !vsub_num, !vabs_num, !vlt_num, !vge_num.
  assert (Hsnap : (Rltb (Rabs (x2 - x1)) 10 || Rltb (Rabs (y2 - y1)) 10)%bool
                  = true).
  { destruct Hd as [H|H].
    - now rewrite (Rltb_true _ _ H).
    - rewrite (Rltb_true _ _ H). apply orb_true_r. }
  rewrite Hsnap. eexists. split; [reflexivity|].
  cbn [fst width height set_width set_height set_x set_y set_lineWidth
       set_originalWidth set_originalHeight].
  split.
  - destruct (Rleb 0 (x2 - x1)); rewrite vmul_num; apply num_inj; lra.
  - destruct (Rleb 0 (y2 - y1)); rewrite vmul_num; apply num_inj; lra.
Qed.

(** C7: an Arrow created from (x1, y1) to (x2, y2) with |x2 - x1| < 10 or
    |y2 - y1| < 10 has width and height of magnitude exactly 10, each with
    the sign of its delta (a zero delta counts as positive); from (0, 0) to
    (3, 3) it has width 10 and height 10. *)
Theorem degenerate_arrow_snaps_to_ten (s : state) :
  activeTool s = "arrow"%string ->
  (forall x1 y1 x2 y2 : R,
      (Rabs (x2 - x1) < 10 \/ Rabs (y2 - y1) < 10)%R ->
      exists o,
        fst (createObject s (num x1) (num y1) (num x2) (num y2)) = Some o
        /\ vabs (width o) = num 10 /\ vabs (height o) = num 10
        /\ ((0 <= x2 - x1)%R -> width o = num 10)
        /\ ((x2 - x1 < 0)%R -> width o = num (-10))
        /\ ((0 <= y2 - y1)%R -> height o = num 10)
        /\ ((y2 - y1 < 0)%R -> height o = num (-10)))
  /\ (exists o,
        fst (createObject s (num 0) (num 0) (num 3) (num 3)) = Some o
        /\ width o = num 10 /\ height o = num 10).
Proof.
  intros Hs. split.
  - intros x1 y1 x2 y2 Hd.
    destruct (arrow_created s x1 y1 x2 y2 Hs Hd) as (o & Ho & Hw & Hh).
    exists o. split; [exact Ho|]. rewrite Hw, Hh, !vabs_num.
    destruct (Rleb_spec 0 (x2 - x1)), (Rleb_spec 0 (y2 - y1));
      repeat split; intros; try apply num_inj; try rsolve.
  - destruct (arrow_created s 0 0 3 3 Hs) as (o & Ho & Hw & Hh).
    { left. rsolve. }
    exists o. split; [exact Ho|]. rewrite Hw, Hh.
    rewrite !Rleb_true by lra. split; reflexivity.
Qed.

Lemma degenerate_arrow_snaps_to_ten_witness :
  exists o,
    fst (createObject arrowToolState (num 0) (num 0) (num 3) (num 3)) = Some o
    /\ width o = num 10 /\ height o = num 10.
Proof.
  exact (proj2 (degenerate_arrow_snaps_to_ten arrowToolState eq_refl)).
Defined.

(** ** Rotation *)

(** [v || 0] is never [NaN], and keeps every number that is not [NaN]. *)
Lemma or_zero_number v : exists n, (v || num 0) = Num n /\ n <> NaN.
Proof.
  unfold or_else. destruct v as [| |[r| | |]]; cbn;
    try (eexists; split; [reflexivity|discriminate]).
  destruct (Reqb r 0); cbn; eexists; split; try reflexivity; discriminate.
Qed.

Lemma or_zero_id n : n <> NaN -> (Num n || num 0) = Num n.
Proof.
  intros Hn. unfold or_else. destruct n as [r| | |]; cbn; try congruence.
  destruct (Reqb_spec r 0) as [->|]; reflexivity.
Qed.

Lemma add_finite_number n (t : R) : n <> NaN -> Num.add n (Fin t) <> NaN.
Proof. destruct n; cbn; congruence. Qed.

Lemma add_finite_assoc n (t t' : R) :
  Num.add (Num.add n (Fin t)) (Fin t') = Num.add n (Fin (t + t')).
Proof. destruct n; cbn; try reflexivity. f_equal. lra. Qed.

(** During a drag only [rotation] changes under the rotate handle; the
    fields the next move reads stay. *)
Lemma applyResize_rotate b o nx ny mx my :
  applyResize (Some b) o "rotate" nx ny mx my
  = set_rotation ((initialRotation o || num 0) + rotationDelta b nx ny mx my) o.
Proof. reflexivity. Qed.

Lemma rotate_moves_last b mx my moves nx ny o :
  rotation (fold_left (fun o '(newX, newY) =>
                         applyResize (Some b) o "rotate" newX newY mx my)
                      (moves ++ [(nx, ny)]) o)
  = (initialRotation o || num 0) + rotationDelta b nx ny mx my.
Proof.
  rewrite fold_left_app. cbn [fold_left]. rewrite applyResize_rotate.
  cbn [rotation set_rotation]. f_equal. f_equal.
  induction moves as [|[ax ay] moves IH] in o |- *; [reflexivity|].
  cbn [fold_left]. rewrite IH. reflexivity.
Qed.

Lemma commitTransform_rotation o : rotation (commitTransform o) = rotation o.
Proof. unfold commitTransform, andThen. now destruct (typeIs o "text"). Qed.

(** The rotation a rotate drag ends with: the baseline rotation plus the
    angle of the last move. *)
Lemma rotate_drag_rotation b mx my moves nx ny o :
  rotation (dragHandle b "rotate" mx my (moves ++ [(nx, ny)]) o)
  = (rotation o || num 0) + rotationDelta b nx ny mx my.
Proof.
  unfold dragHandle. rewrite commitTransform_rotation, rotate_moves_last.
  unfold startTransform. cbn [initialRotation set_initialRotation].
  destruct (or_zero_number (rotation o)) as (n & -> & Hn).
  now rewrite or_zero_id.
Qed.

(** C5: a rotate drag that adds theta, committed, followed by a second
    rotate drag that adds theta' from the new baseline, ends with the same
    rotation as a single rotate drag adding theta + theta' from the
    original baseline, and that rotation is the one the object had (0 when
    it had none) plus theta plus theta': the first drag ends with the
    original rotation plus theta, the second with that plus theta', the
    single drag with the original rotation plus theta + theta'.  A drag is
    any number of moves; the angle it adds is that of its last move. *)
Theorem rotate_drags_add_up (o : obj) (theta theta' : R)
    (b1 b2 b : Bounds.t) (mx1 my1 mx2 my2 mx my : value)
    (moves1 moves2 moves : list (value * value))
    (nx1 ny1 nx2 ny2 nx ny : value) :
  rotationDelta b1 nx1 ny1 mx1 my1 = num theta ->
  rotationDelta b2 nx2 ny2 mx2 my2 = num theta' ->
  rotationDelta b nx ny mx my = num (theta + theta') ->
  let first := dragHandle b1 "rotate" mx1 my1 (moves1 ++ [(nx1, ny1)]) o in
  let second :=
    dragHandle b2 "rotate" mx2 my2 (moves2 ++ [(nx2, ny2)]) first in
  let single := dragHandle b "rotate" mx my (moves ++ [(nx, ny)]) o in
  rotation first = (rotation o || num 0) + num theta
  /\ rotation second = (rotation o || num 0) + num theta + num theta'
  /\ rotation single = (rotation o || num 0) + num (theta + theta')
  /\ rotation second = rotation single.
Proof.
  intros H1 H2 H. cbv zeta. rewrite !rotate_drag_rotation, H1, H2, H.
  destruct (or_zero_number (rotation o)) as (n & -> & Hn).
  unfold vadd, num. cbn [toNumber].
  rewrite or_zero_id by now apply add_finite_number.
  cbn [toNumber]. rewrite add_finite_assoc. repeat split.
Qed.

(** The angle from the point right of the centre of the box {0, 0, 100, 100}
    to the point below it is a quarter turn, from there to the point left
    of the centre another one, and from the point right of the centre to
    the point left of it half a turn. *)
Lemma quarter_turn :
  rotationDelta (Bounds.mk (num 0) (num 0) (num 100) (num 100))
                (num 50) (num 100) (num 100) (num 50)
  = num (PI / 2).
Proof.
  geval. apply num_inj.
  replace ((50 - (0 + 100 / 2)) / (100 - (0 + 100 / 2)))%R with 0%R by field.
  rewrite atan_0. lra.
Qed.

Lemma second_quarter_turn :
  rotationDelta (Bounds.mk (num 0) (num 0) (num 100) (num 100))
                (num 0) (num 50) (num 50) (num 100)
  = num (PI / 2).
Proof.
  geval. apply num_inj.
  replace ((50 - (0 + 100 / 2)) / (0 - (0 + 100 / 2)))%R with 0%R by field.
  rewrite atan_0. lra.
Qed.

Lemma half_turn :
  rotationDelta (Bounds.mk (num 0) (num 0) (num 100) (num 100))
                (num 0) (num 50) (num 100) (num 50)
  = num (PI / 2 + PI / 2).
Proof.
  geval. apply num_inj.
  replace ((50 - (0 + 100 / 2)) / (0 - (0 + 100 / 2)))%R with 0%R by field.
  replace ((50 - (0 + 100 / 2)) / (100 - (0 + 100 / 2)))%R with 0%R by field.
  rewrite atan_0. lra.
Qed.

Lemma rotate_drags_add_up_witness :
  let b := Bounds.mk (num 0) (num 0) (num 100) (num 100) in
  let first :=
    dragHandle b "rotate" (num 100) (num 50)
               ([(num 80, num 80)] ++ [(num 50, num 100)]) rect100 in
  let second :=
    dragHandle b "rotate" (num 50) (num 100) ([] ++ [(num 0, num 50)]) first in
  let single :=
    dragHandle b "rotate" (num 100) (num 50) ([] ++ [(num 0, num 50)])
               rect100 in
  rotation first = (rotation rect100 || num 0) + num (PI / 2)
  /\ rotation second
     = (rotation rect100 || num 0) + num (PI / 2) + num (PI / 2)
  /\ rotation single = (rotation rect100 || num 0) + num (PI / 2 + PI / 2)
  /\ rotation second = rotation single.
Proof.
  exact (rotate_drags_add_up rect100 (PI / 2) (PI / 2) _ _ _ _ _ _ _ _ _
           [(num 80, num 80)] [] [] _ _ _ _ _ _
           quarter_turn second_quarter_turn half_turn).
Defined.

(** ** Sessions

    What the example sessions leave in the Document. *)

Ltac same :=
  lazymatch goal with
  | |- @eq R _ _ => rsolve
  | |- ?a = ?a => reflexivity
  | |- _ => f_equal; same
  end.

Lemma brushSession_document :
  document (run tenPixelGlyphs plainSlider init brushSession)
  = [brushStroke; pointlessBrush].
Proof. unfold brushSession. jseval. same. Qed.

Lemma brushSession_stack :
  drawingStack (run tenPixelGlyphs plainSlider init brushSession) = [0; 1]%nat.
Proof. unfold brushSession. jseval. reflexivity. Qed.

Lemma brushSession_top :
  deref (run tenPixelGlyphs plainSlider init brushSession) 1 = pointlessBrush.
Proof. unfold brushSession. jseval. same. Qed.

Lemma thinRectSession_document :
  document (run tenPixelGlyphs plainSlider init thinRectSession)
  = [widenedThinRect].
Proof. unfold thinRectSession. jseval. same. Qed.

Lemma checkClickSession_document :
  document (run tenPixelGlyphs plainSlider init checkClickSession)
  = [clickedCheck].
Proof. unfold checkClickSession. jseval. same. Qed.

(** ** Bounds of an unrotated object *)

Lemma isNumber_dimension v : isNumber v = true -> dimension v = v.
Proof. now destruct v as [| |[]]. Qed.

Lemma baseBox_conforming mt o :
  conforming o = true -> baseBox mt o = statedBox mt o.
Proof.
  unfold conforming, drawn, baseBox, statedBox.
  destruct (typeIs o "numbers"); [reflexivity|].
  destruct (typeIs o "text"); [reflexivity|].
  destruct (typeIs o "brush"); cbn [orb].
  - destruct (points o) as [[|p ps]|]; try discriminate. reflexivity.
  - destruct (typeIs o "eraser"); cbn [negb andb]; [discriminate|].
    intros [Hw Hh]%andb_prop.
    now rewrite !isNumber_dimension.
Qed.

Lemma unrotated_not_truthy o :
  rotation o = num 0 \/ rotation o = Undefined -> truthy (rotation o) = false.
Proof.
  intros [-> | ->]; [|reflexivity].
  unfold truthy, num. now rewrite Reqb_true.
Qed.

(** C2, as the script has it.  For every object whose rotation is 0 or
    absent, [getObjectBounds] returns the base box of its kind, where a
    stored width or height that is absent, [null] or [NaN] reads as 0 and a
    brush stroke without points has the [lineWidth] square centred on its
    [x], [y] ([baseBox]).  On number markers, texts, brush strokes with
    points and boxes whose width and height are numbers, this is the box
    the specification describes ([statedBox]). *)
Theorem bounds_of_unrotated_object mt (o : obj) :
  rotation o = num 0 \/ rotation o = Undefined ->
  getObjectBounds mt o = baseBox mt o
  /\ (conforming o = true -> getObjectBounds mt o = statedBox mt o).
Proof.
  intros Hrot%unrotated_not_truthy.
  rewrite (getObjectBounds_unrotated mt o Hrot).
  split; [reflexivity | apply baseBox_conforming].
Qed.

Lemma bounds_of_unrotated_object_witness :
  getObjectBounds tenPixelGlyphs rect100 = baseBox tenPixelGlyphs rect100
  /\ getObjectBounds tenPixelGlyphs rect100 = statedBox tenPixelGlyphs rect100.
Proof.
  destruct (bounds_of_unrotated_object tenPixelGlyphs rect100) as [H1 H2].
  - left; reflexivity.
  - split; [exact H1 | apply H2; reflexivity].
Defined.

(** C2 as stated fails on the second object every brush drag leaves in
    the Document: its rotation is 0, it is of type [brush], and its bounds
    are the 10 x 10 square around (50, 100), while the min/max over its
    points (it has none) is the empty box. *)
Lemma pointless_brush_bounds :
  let s := run tenPixelGlyphs plainSlider init brushSession in
  reachable tenPixelGlyphs plainSlider s
  /\ In pointlessBrush (document s)
  /\ type pointlessBrush = Some "brush"%string
  /\ rotation pointlessBrush = num 0
  /\ getObjectBounds tenPixelGlyphs pointlessBrush
     = Bounds.mk (num 45) (num 95) (num 10) (num 10)
  /\ statedBox tenPixelGlyphs pointlessBrush
     = Bounds.mk (Num PInf) (Num PInf) (Num NInf) (Num NInf)
  /\ getObjectBounds tenPixelGlyphs pointlessBrush
     <> statedBox tenPixelGlyphs pointlessBrush.
Proof.
  cbv zeta.
  assert (Hb : getObjectBounds tenPixelGlyphs pointlessBrush
               = Bounds.mk (num 45) (num 95) (num 10) (num 10))
    by (unfold pointlessBrush; geval; same).
  assert (Hs : statedBox tenPixelGlyphs pointlessBrush
               = Bounds.mk (Num PInf) (Num PInf) (Num NInf) (Num NInf))
    by (unfold pointlessBrush; geval; reflexivity).
  split; [now exists brushSession|].
  split; [rewrite brushSession_document; now right; left|].
  split; [reflexivity|]. split; [reflexivity|].
  split; [exact Hb|]. split; [exact Hs|].
  rewrite Hb, Hs. discriminate.
Qed.

(** The same on a stored width: a rectangle drawn 0 wide and then widened
    by a handle stores [NaN], which [getObjectBounds] reads as 0. *)
Lemma widened_rect_bounds :
  let s := run tenPixelGlyphs plainSlider init thinRectSession in
  reachable tenPixelGlyphs plainSlider s
  /\ document s = [widenedThinRect]
  /\ rotation widenedThinRect = num 0
  /\ getObjectBounds tenPixelGlyphs widenedThinRect
     = Bounds.mk (num 90) (num 100) (num 0) (num 50)
  /\ statedBox tenPixelGlyphs widenedThinRect
     = Bounds.mk (num 90) (num 100) (Num NaN) (num 50).
Proof.
  cbv zeta.
  split; [now exists thinRectSession|].
  split; [apply thinRectSession_document|].
  split; [reflexivity|].
  split.
  - unfold widenedThinRect. geval. same.
  - unfold widenedThinRect. geval. reflexivity.
Qed.

(** ** Hit testing *)

Lemma vmin_num a b : vmin (num a) (num b) = num (Rmin a b).
Proof.
  unfold vmin, num, toNumber, Num.min, Num.lt, Rmin.
  destruct (Rle_dec a b); [rewrite Rltb_false by lra | rewrite Rltb_true by lra];
    reflexivity.
Qed.

Lemma vmax_num a b : vmax (num a) (num b) = num (Rmax a b).
Proof.
  unfold vmax, num, toNumber, Num.max, Num.lt, Rmax.
  destruct (Rle_dec a b) as [[H|H]|H].
  - now rewrite Rltb_true by lra.
  - subst. now rewrite Rltb_false by lra.
  - now rewrite Rltb_false by lra.
Qed.

Lemma vsqrt_num a : (0 <= a)%R -> vsqrt (num a) = num (sqrt a).
Proof.
  intros H. unfold vsqrt, num, toNumber, Num.sqrt.
  now rewrite Rltb_false by lra.
Qed.

Lemma vdiv_num a b : b <> 0%R -> num a / num b = num (a / b).
Proof.
  intros H. unfold vdiv, num, toNumber, Num.div. now rewrite Reqb_false.
Qed.

Lemma vgt_num a b : (num a >? num b) = Rltb b a.
Proof. reflexivity. Qed.

Lemma vle_num a b : (num a <=? num b) = Rleb a b.
Proof. reflexivity. Qed.

Lemma strict_eq_num a b : strict_eq (num a) (num b) = Reqb a b.
Proof. unfold strict_eq, strict_ne, num, Num.eq. now rewrite negb_involutive. Qed.

(** The distance from a point to a segment that is not a single point:
    the distance to its projection on the segment. *)
Lemma distanceToLineSegment_segment px py x1 y1 x2 y2 :
  (0 < (x2 - x1) * (x2 - x1) + (y2 - y1) * (y2 - y1))%R ->
  distanceToLineSegment (num px) (num py) (num x1) (num y1) (num x2) (num y2)
  = let dx := (x2 - x1)%R in
    let dy := (y2 - y1)%R in
    let t := Rmax 0 (Rmin 1 (((px - x1) * dx + (py - y1) * dy)
                             / (dx * dx + dy * dy))%R) in
    num (sqrt ((px - (x1 + t * dx)) * (px - (x1 + t * dx))
               + (py - (y1 + t * dy)) * (py - (y1 + t * dy)))%R).
Proof.
  intros Hlen. cbv zeta. unfold distanceToLineSegment. cbv zeta.
  cbn [Point.x Point.y].
  rewrite !vsub_num, !vmul_num, !vadd_num.
  rewrite (vsqrt_num _ (Rlt_le _ _ Hlen)).
  rewrite strict_eq_num, Reqb_false
    by (pose proof (sqrt_lt_R0 _ Hlen); lra).
  rewrite vmul_num.
  rewrite sqrt_sqrt by lra.
  rewrite vdiv_num by (apply Rgt_not_eq; lra).
  rewrite vmin_num, vmax_num.
  repeat (rewrite ?vmul_num, ?vadd_num, ?vsub_num).
  rewrite vsqrt_num by (apply Rplus_le_le_0_compat; apply Rle_0_sqr).
  reflexivity.
Qed.

Lemma lt_sqrt c e : (0 <= c -> c * c < e -> c < sqrt e)%R.
Proof.
  intros Hc He. rewrite <- (sqrt_square c Hc) at 1.
  apply sqrt_lt_1_alt. nra.
Qed.

Section HitTest.

Variable measureText : Font.t -> string -> value.

Lemma outsideSegments_not_near mx my segs lw :
  outsideSegments mx my segs lw = true ->
  existsb (fun '(p1, p2) =>
             distanceToLineSegment mx my (Point.x p1) (Point.y p1)
                                   (Point.x p2) (Point.y p2)
             <=? lw / num 2 + num 2) segs = false.
Proof.
  induction segs as [|[p1 p2] segs IH]; cbn [outsideSegments forallb existsb];
    [reflexivity|].
  intros [Hd Hs]%andb_prop.
  now rewrite (vgt_not_le _ _ Hd), (IH Hs).
Qed.

Lemma outsideBox_not_inside mx my b margin :
  outsideBox mx my b margin = true ->
  ((mx >=? Bounds.x b - margin)
   && (mx <=? Bounds.x b + Bounds.width b + margin)
   && (my >=? Bounds.y b - margin)
   && (my <=? Bounds.y b + Bounds.height b + margin))%bool = false.
Proof.
  unfold outsideBox.
  intros [[[H|H]%orb_prop|H]%orb_prop|H]%orb_prop.
  - now rewrite (vlt_not_ge _ _ H).
  - rewrite (vgt_not_le _ _ H). now rewrite andb_false_r.
  - rewrite (vlt_not_ge _ _ H). now rewrite andb_false_r.
  - rewrite (vgt_not_le _ _ H). now rewrite andb_false_r.
Qed.

Lemma outside_not_hit mx my o :
  outside measureText mx my o = true -> hits measureText o mx my = false.
Proof.
  unfold outside, hits.
  destruct (if typeIs o "brush" then points o else None) as [[|p ps]|].
  - destruct (typeIs o "arrow").
    + intros H%outsideSegments_not_near. cbn in H.
      now rewrite orb_false_r in H.
    + apply outsideBox_not_inside.
  - apply outsideSegments_not_near.
  - destruct (typeIs o "arrow").
    + intros H%outsideSegments_not_near. cbn in H.
      now rewrite orb_false_r in H.
    + apply outsideBox_not_inside.
Qed.

Lemma drawn_outside mx my o :
  drawn o = true ->
  statedOutside measureText mx my o = outside measureText mx my o.
Proof.
  unfold drawn, statedOutside, outside.
  destruct (typeIs o "brush") eqn:Hb.
  - destruct (points o) as [[|p ps]|]; try discriminate. intros _.
    destruct (typeIs o "arrow") eqn:Ha; [|reflexivity].
    unfold typeIs in Hb, Ha. destruct (type o) as [t|]; [|discriminate].
    apply String.eqb_eq in Hb, Ha. congruence.
  - reflexivity.
Qed.

Lemma find_none_of_all_false {A} (f : A -> bool) (l : list A) :
  Forall (fun a => f a = false) l -> find f l = None.
Proof. induction 1 as [|a l Ha _ IH]; cbn; [reflexivity | now rewrite Ha]. Qed.

Lemma getObjectAt_none s mx my :
  Forall (fun o => hits measureText o mx my = false) (document s) ->
  getObjectAt measureText s mx my = None.
Proof.
  intros H. unfold getObjectAt. apply find_none_of_all_false.
  apply Forall_rev. unfold document in H.
  now apply Forall_map in H.
Qed.

(** C3, as the script has it.  For every point and every Document, if the
    point is strictly outside every object, [getObjectAt] returns none,
    where "outside" is read as the script tests it ([outside]): an object
    of type [brush] without points is tested on its box like the other
    kinds.  When every brush stroke of the Document has its points, this
    is the test the specification describes ([statedOutside]). *)
Theorem no_hit_outside_every_object (s : state) (mx my : value) :
  (Forall (fun o => outside measureText mx my o = true) (document s) ->
   getObjectAt measureText s mx my = None)
  /\ (Forall (fun o => drawn o = true) (document s) ->
      Forall (fun o => statedOutside measureText mx my o = true) (document s) ->
      getObjectAt measureText s mx my = None).
Proof.
  split.
  - intros H. apply getObjectAt_none.
    eapply Forall_impl; [exact H|]. intros o. apply outside_not_hit.
  - intros Hd H. apply getObjectAt_none.
    induction Hd as [|o os Ho _ IH]; [constructor|].
    inversion H as [|? ? Hout Hrest]; subst.
    constructor; [|now apply IH].
    apply outside_not_hit. now rewrite <- drawn_outside.
Qed.

End HitTest.

Lemma no_hit_outside_every_object_witness :
  let s := run tenPixelGlyphs plainSlider init checkClickSession in
  getObjectAt tenPixelGlyphs s (num 0) (num 0) = None.
Proof.
  cbv zeta.
  apply (proj1 (no_hit_outside_every_object tenPixelGlyphs _ (num 0) (num 0))).
  rewrite checkClickSession_document.
  constructor; [|constructor].
  unfold clickedCheck, outside. geval. reflexivity.
Defined.

(** C3 as stated fails after a brush drag from (100, 100) to (50, 150):
    the point (50, 100) is farther than [lineWidth / 2 + 2] from the one
    segment of the stroke, the second object of type [brush] has no
    segment at all, and [getObjectAt] returns that second object. *)
Lemma pointless_brush_is_hit :
  let s := run tenPixelGlyphs plainSlider init brushSession in
  reachable tenPixelGlyphs plainSlider s
  /\ document s = [brushStroke; pointlessBrush]
  /\ Forall (fun o => statedOutside tenPixelGlyphs (num 50) (num 100) o = true)
            (document s)
  /\ getObjectAt tenPixelGlyphs s (num 50) (num 100) = Some 1%nat.
Proof.
  cbv zeta. split; [now exists brushSession|].
  split; [apply brushSession_document|].
  split.
  - rewrite brushSession_document.
    constructor; [|constructor; [reflexivity|constructor]].
    cbv [statedOutside brushStroke outsideSegments typeIs type String.eqb
         Ascii.eqb Bool.eqb points default from_option Datatypes.id segments
         forallb lineWidth Point.x Point.y].
    rewrite distanceToLineSegment_segment by lra. cbv zeta.
    rewrite vdiv_num, vadd_num, vgt_num by lra.
    rewrite andb_true_r. apply Rltb_true. apply lt_sqrt; [lra|].
    replace (((50 - 100) * (50 - 100) + (100 - 100) * (150 - 100))
             / ((50 - 100) * (50 - 100) + (150 - 100) * (150 - 100)))%R
      with (1 / 2)%R by (field; lra).
    rewrite (Rmin_right 1 (1 / 2)%R) by lra.
    rewrite (Rmax_right 0 (1 / 2)%R) by lra. lra.
  - unfold getObjectAt. rewrite brushSession_stack.
    cbn [rev app find]. rewrite brushSession_top.
    assert (H : hits tenPixelGlyphs pointlessBrush (num 50) (num 100) = true)
      by (unfold hits, pointlessBrush; geval; reflexivity).
    now rewrite H.
Qed.

(** ** Snapshots *)

Lemma get_prop_here k v l :
  Json.get k (Json.prop k v ++ l)
  = match v with Some j => Some j | None => Json.get k l end.
Proof.
  destruct v as [j|]; cbn [Json.prop app Json.get]; [|reflexivity].
  now rewrite String.eqb_refl.
Qed.

Lemma get_prop_skip k k' v l :
  String.eqb k' k = false -> Json.get k (Json.prop k' v ++ l) = Json.get k l.
Proof.
  intros H. destruct v as [j|]; cbn [Json.prop app Json.get]; [|reflexivity].
  now rewrite H.
Qed.

Ltac get_props :=
  repeat first [ rewrite get_prop_skip by reflexivity | rewrite get_prop_here ];
  cbn [Json.get].

Lemma toValue_ofValue v :
  representable v -> Json.toValue (Json.ofValue v) = v.
Proof. now destruct v as [| |[]]. Qed.

Lemma toValue_absent v :
  Json.toValue match Json.ofValue v with Some j => Some j | None => None end
  = Json.toValue (Json.ofValue v).
Proof. now destruct (Json.ofValue v). Qed.

Lemma toStr_JStr (o : option string) :
  Json.toStr match JStr <$> o with Some j => Some j | None => None end = o.
Proof. now destruct o. Qed.

Lemma toBool_JBool (o : option bool) :
  Json.toBool match JBool <$> o with Some j => Some j | None => None end = o.
Proof. now destruct o. Qed.

Lemma toPoint_ofPoint p :
  representablePoint p -> Json.toPoint (Json.ofPoint p) = p.
Proof.
  destruct p as [px py]. intros [Hx Hy]. cbn [Point.x Point.y] in Hx, Hy.
  unfold Json.ofPoint, Json.toPoint. cbn [Point.x Point.y].
  rewrite <- (app_nil_r (Json.prop "y" _)).
  get_props.
  rewrite !toValue_absent, !toValue_ofValue by assumption. reflexivity.
Qed.

Lemma toPoints_ofPoints (o : option (list Point.t)) :
  Forall representablePoint (default [] o) ->
  Json.toPoints
    match (fun ps => JArr (map Json.ofPoint ps)) <$> o with
    | Some j => Some j
    | None => None
    end = o.
Proof.
  destruct o as [ps|]; [|reflexivity]. cbn. intros H. f_equal.
  induction H as [|p ps Hp _ IH]; [reflexivity|].
  cbn [map]. now rewrite toPoint_ofPoint, IH.
Qed.

Lemma toObj_ofObj o : jsonSafe o -> Json.toObj (Json.ofObj o) = o.
Proof.
  intros (? & ? & ? & ? & ? & ? & ? & ? & ? & ? & ? & ? & ? & ?).
  unfold Json.ofObj, Json.toObj.
  rewrite <- (app_nil_r (Json.prop "isAllSelected" _)).
  get_props.
  rewrite !toValue_absent, !toStr_JStr, !toBool_JBool.
  rewrite toPoints_ofPoints by assumption.
  rewrite !toValue_ofValue by assumption.
  now destruct o.
Qed.

Lemma parse_stringify d :
  Forall jsonSafe d -> Json.parse (Json.stringify d) = d.
Proof.
  unfold Json.parse, Json.stringify.
  induction 1 as [|o d Ho _ IH]; [reflexivity|].
  cbn [map]. now rewrite toObj_ofObj, IH.
Qed.

(** ** The heap *)

Lemma allocAll_appends os s :
  allocAll os s
  = (seq (length (heap s)) (length os), set_heap (heap s ++ os) s).
Proof.
  revert s. induction os as [|o os IH]; intros s.
  - cbn. rewrite app_nil_r. now destruct s.
  - cbn [allocAll alloc]. unfold andThen. rewrite IH.
    cbn [heap set_heap length seq]. rewrite length_app. cbn [length].
    rewrite Nat.add_1_r, <- app_assoc. reflexivity.
Qed.

Lemma deref_new h os :
  map (fun l => default emptyObj ((h ++ os) !! l)) (seq (length h) (length os))
  = os.
Proof.
  revert h. induction os as [|o os IH]; intros h; [reflexivity|].
  cbn [length seq map]. rewrite list_lookup_middle by reflexivity.
  f_equal. specialize (IH (h ++ [o])).
  rewrite length_app, Nat.add_1_r, <- app_assoc in IH. exact IH.
Qed.

Lemma document_restore j s : document (restore j s) = Json.parse j.
Proof.
  unfold restore, andThen. rewrite allocAll_appends.
  unfold document, deref. cbn [heap drawingStack set_heap set_drawingStack].
  apply deref_new.
Qed.

Lemma undoStack_restore j s : undoStack (restore j s) = undoStack s.
Proof. unfold restore, andThen. now rewrite allocAll_appends. Qed.

Lemma redoStack_restore j s : redoStack (restore j s) = redoStack s.
Proof. unfold restore, andThen. now rewrite allocAll_appends. Qed.

Lemma undo_some s top rest :
  undoStack s = top :: rest ->
  undo s = set_selectedObject None
             (restore top
                (set_undoStack rest
                   (set_redoStack (Json.stringify (document s) :: redoStack s)
                                  s))).
Proof. intros H. unfold undo. now rewrite H. Qed.

Lemma redo_some s top rest :
  redoStack s = top :: rest ->
  redo s = set_selectedObject None
             (restore top
                (set_redoStack rest
                   (set_undoStack (Json.stringify (document s) :: undoStack s)
                                  s))).
Proof. intros H. unfold redo. now rewrite H. Qed.

Lemma document_set_selectedObject v s :
  document (set_selectedObject v s) = document s.
Proof. reflexivity. Qed.

Lemma document_redo_undo s :
  undoStack s <> [] ->
  document (redo (undo s)) = Json.parse (Json.stringify (document s)).
Proof.
  intros H. destruct (undoStack s) as [|top rest] eqn:Hs; [easy|].
  rewrite (undo_some s top rest Hs).
  erewrite redo_some.
  2:{ cbn [redoStack set_selectedObject]. rewrite redoStack_restore.
      reflexivity. }
  rewrite document_set_selectedObject. apply document_restore.
Qed.

Lemma document_undo_redo s :
  redoStack s <> [] ->
  document (undo (redo s)) = Json.parse (Json.stringify (document s)).
Proof.
  intros H. destruct (redoStack s) as [|top rest] eqn:Hs; [easy|].
  rewrite (redo_some s top rest Hs).
  erewrite undo_some.
  2:{ cbn [undoStack set_selectedObject]. rewrite undoStack_restore.
      reflexivity. }
  rewrite document_set_selectedObject. apply document_restore.
Qed.

(** C1, as the script has it.  For every state whose Document holds no
    [NaN] and no infinity (in particular every such reachable state), with
    no snapshot between the two calls: when a redo is available, redo then
    undo leaves the Document equal to what it was, and when an undo is
    available, undo then redo does.  In general the Document comes back as
    [JSON.parse(JSON.stringify(...))] of itself ([document_undo_redo],
    [document_redo_undo]). *)
Theorem undo_redo_round_trip (s : state) :
  Forall jsonSafe (document s) ->
  (redoStack s <> [] -> document (undo (redo s)) = document s)
  /\ (undoStack s <> [] -> document (redo (undo s)) = document s).
Proof.
  intros Hsafe. split; intros H.
  - now rewrite document_undo_redo, parse_stringify.
  - now rewrite document_redo_undo, parse_stringify.
Qed.

Lemma twoRectSession_document :
  document (run tenPixelGlyphs plainSlider init twoRectSession) = [firstRect].
Proof. unfold twoRectSession. jseval. same. Qed.

Lemma twoRectSession_undoStack :
  undoStack (run tenPixelGlyphs plainSlider init twoRectSession) = [JArr []].
Proof. unfold twoRectSession. jseval. reflexivity. Qed.

Lemma twoRectSession_redoStack :
  length (redoStack (run tenPixelGlyphs plainSlider init twoRectSession)) = 1%nat.
Proof. unfold twoRectSession. jseval. reflexivity. Qed.

Lemma markerSession_document :
  document (run tenPixelGlyphs plainSlider init markerSession)
  = [resizedMarker].
Proof. unfold markerSession. jseval. same. Qed.

Lemma markerSession_undoStack :
  length (undoStack (run tenPixelGlyphs plainSlider init markerSession)) = 2%nat.
Proof. unfold markerSession. jseval. reflexivity. Qed.

Lemma nonempty_of_length {A} (l : list A) n : length l = S n -> l <> [].
Proof. now destruct l. Qed.

Lemma undo_redo_round_trip_witness :
  let s := run tenPixelGlyphs plainSlider init twoRectSession in
  document (undo (redo s)) = document s
  /\ document (redo (undo s)) = document s.
Proof.
  cbv zeta.
  destruct (undo_redo_round_trip
              (run tenPixelGlyphs plainSlider init twoRectSession)) as [H1 H2].
  - rewrite twoRectSession_document. constructor; [|constructor].
    unfold jsonSafe, firstRect. cbn. repeat split; constructor.
  - split.
    + apply H1. eapply nonempty_of_length, twoRectSession_redoStack.
    + apply H2. rewrite twoRectSession_undoStack. discriminate.
Defined.

(** C1 as stated fails after a number marker was resized by a handle: its
    [width] and [height] are [NaN], and undo then redo brings them back as
    [null]. *)
Lemma marker_not_restored :
  let s := run tenPixelGlyphs plainSlider init markerSession in
  reachable tenPixelGlyphs plainSlider s
  /\ undoStack s <> []
  /\ document s = [resizedMarker]
  /\ document (redo (undo s)) = [restoredMarker]
  /\ document (redo (undo s)) <> document s.
Proof.
  cbv zeta.
  assert (Hu : undoStack (run tenPixelGlyphs plainSlider init markerSession)
               <> [])
    by (eapply nonempty_of_length, markerSession_undoStack).
  assert (Hd : document (redo (undo (run tenPixelGlyphs plainSlider init
                                         markerSession)))
               = [restoredMarker]).
  { rewrite (document_redo_undo _ Hu), markerSession_document. reflexivity. }
  split; [now exists markerSession|].
  split; [exact Hu|].
  split; [apply markerSession_document|].
  split; [exact Hd|].
  rewrite Hd, markerSession_document. discriminate.
Qed.

(** ** Removal and the hover reference *)

Lemma hoverSession_state :
  (fun s => (document s, selectedObject s, hoveredObject s))
    (run tenPixelGlyphs plainSlider init hoverSession)
  = ([firstRect], Some 0%nat, Some 0%nat).
Proof. unfold hoverSession. jseval. same. Qed.

Lemma hoverDeleteSession_state :
  (fun s => (drawingStack s, selectedObject s, hoveredObject s))
    (run tenPixelGlyphs plainSlider init hoverDeleteSession)
  = ([], None, Some 0%nat).
Proof. unfold hoverDeleteSession, hoverSession. jseval. reflexivity. Qed.

Lemma delete_keeps_hover s :
  hoveredObject (keydown deleteKey s) = hoveredObject s.
Proof.
  unfold keydown, deleteKey, andThen.
  cbn [Key.key Key.ctrlKey Key.altKey Key.shiftKey Key.targetIsInput
       String.eqb Ascii.eqb Bool.eqb andb negb].
  destruct (selectedObject s); cbn [isEditingText set_selectedObject
    set_drawingStack pushToUndoStack]; unfold pushToUndoStack, andThen;
    cbn [isEditingText set_selectedObject set_drawingStack set_undoStack
         set_redoStack];
    destruct (isEditingText s); reflexivity.
Qed.

Lemma delete_clears_selection s :
  selectedObject (keydown deleteKey s) = None.
Proof.
  unfold keydown, deleteKey, andThen.
  cbn [Key.key Key.ctrlKey Key.altKey Key.shiftKey Key.targetIsInput
       String.eqb Ascii.eqb Bool.eqb andb negb].
  destruct (selectedObject s) eqn:Hs; unfold pushToUndoStack, andThen;
    cbn [isEditingText set_selectedObject set_drawingStack set_undoStack
         set_redoStack];
    destruct (isEditingText s); cbn; try reflexivity; exact Hs.
Qed.

(** C9 does not hold of the script: the Delete key empties the selection
    ([delete_clears_selection]) but never writes [hoveredObject].  In the
    session below the pointer rests on a rectangle, the rectangle is
    clicked and deleted: the Document is empty, the selection is none and
    the hover reference still points at the deleted rectangle. *)
Theorem hover_outlives_deleted_object :
  let before := run tenPixelGlyphs plainSlider init hoverSession in
  let after := run tenPixelGlyphs plainSlider init hoverDeleteSession in
  (document before = [firstRect]
   /\ selectedObject before = Some 0%nat
   /\ hoveredObject before = Some 0%nat)
  /\ (drawingStack after = []
      /\ selectedObject after = None
      /\ hoveredObject after = Some 0%nat).
Proof.
  cbv zeta. split.
  - pose proof hoverSession_state as H. cbv beta in H.
    repeat split; congruence.
  - pose proof hoverDeleteSession_state as H. cbv beta in H.
    repeat split; congruence.
Qed.

(** ** Click creation of a checkmark *)

Lemma directCheckSession_document :
  document (run tenPixelGlyphs plainSlider init directCheckSession)
  = [twentyCheck].
Proof. unfold directCheckSession. jseval. same. Qed.

(** C10 does not hold of the script: a click with the checkmark chosen in
    the shape menu, the only way the page offers, creates a box of the
    slider's size (5 x 5 around the click point), because [mouseup] tests
    [activeTool] against [shape] before it reaches the 20 x 20 branch.
    Only with [activeTool] set to [check] itself is the box 20 x 20. *)
Theorem check_click_takes_slider_size :
  let picked := run tenPixelGlyphs plainSlider init checkClickSession in
  let direct := run tenPixelGlyphs plainSlider init directCheckSession in
  (document picked = [clickedCheck]
   /\ getObjectBounds tenPixelGlyphs clickedCheck
      = Bounds.mk (num (195 / 2)) (num (195 / 2)) (num 5) (num 5))
  /\ (document direct = [twentyCheck]
      /\ getObjectBounds tenPixelGlyphs twentyCheck
         = Bounds.mk (num 90) (num 90) (num 20) (num 20)).
Proof.
  cbv zeta. split; split.
  - apply checkClickSession_document.
  - unfold clickedCheck. geval. same.
  - apply directCheckSession_document.
  - unfold twentyCheck. geval. same.
Qed.

(** ** Creation drags and the shift key *)

Lemma currentTool_cases s tool :
  currentTool s = tool -> boxShape tool ->
  (activeTool s = tool /\ String.eqb tool "shape" = false)
  \/ (activeTool s = "shape"%string /\ currentShape s = tool).
Proof.
  unfold currentTool. intros H Hb.
  destruct (String.eqb (activeTool s) "shape") eqn:He.
  - right. apply String.eqb_eq in He. now split.
  - left. split; [exact H|]. now rewrite <- H.
Qed.

Lemma shiftConstrain_stated s tool dx dy :
  currentTool s = tool -> boxShape tool ->
  shiftConstrain s (num dx) (num dy)
  = (num (fst (statedDrag (isShiftPressed s) tool dx dy)),
     num (snd (statedDrag (isShiftPressed s) tool dx dy))).
Proof.
  intros Ht Hb. unfold shiftConstrain, statedDrag. rewrite Ht.
  rewrite !vabs_num, vmax_num, vmin_num, !vge_num, !vneg_num.
  unfold towards.
  destruct Hb as [-> | [-> | [-> | ->]]];
    cbn [String.eqb Ascii.eqb Bool.eqb orb];
    destruct (isShiftPressed s); cbn [fst snd];
    destruct (Rleb 0 dx), (Rleb 0 dy); reflexivity.
Qed.

Ltac tool_cases s tool Ht Hb :=
  destruct (currentTool_cases s tool Ht Hb) as [[Ha Hn] | [Ha Hc]];
  destruct Hb as [-> | [-> | [-> | ->]]].

Lemma preview_drawn s tool (sx sy ex ey : R) :
  currentImage s = true -> isDrawing s = true ->
  startX s = num sx -> startY s = num sy ->
  currentTool s = tool -> boxShape tool ->
  exists p,
    previewObject s (num ex) (num ey) = Some p
    /\ type p = Some tool
    /\ (x p, y p) = (num sx, num sy)
    /\ (width p, height p)
       = shiftConstrain s (num (ex - sx)) (num (ey - sy)).
Proof.
  intros Hi Hd Hx Hy Ht Hb. unfold previewObject, andThen.
  rewrite Hi, Hd, Hx, Hy, !vsub_num.
  destruct (shiftConstrain s (num (ex - sx)) (num (ey - sy))) as [w h].
  tool_cases s tool Ht Hb; rewrite ?Ha, ?Hc;
    cbn [String.eqb Ascii.eqb Bool.eqb orb andb negb isIn existsb];
    eexists; (split; [reflexivity|]); cbn [type x y width height];
    repeat split; reflexivity.
Qed.

Lemma createObject_box s tool (x1 y1 x2 y2 : R) :
  currentTool s = tool -> boxShape tool ->
  exists o,
    createObject s (num x1) (num y1) (num x2) (num y2) = (Some o, s)
    /\ type o = Some tool
    /\ storedBox o = cornersBox x1 y1 x2 y2.
Proof.
  intros Ht Hb. unfold createObject, andThen. cbv zeta.
  rewrite !vsub_num.
  tool_cases s tool Ht Hb; rewrite ?Ha, ?Hc;
    cbn [String.eqb Ascii.eqb Bool.eqb orb andb negb];
    rewrite !vlt_num;
    unfold storedBox, cornersBox, Rmin;
    destruct (Rltb_spec (x2 - x1) 0), (Rltb_spec (y2 - y1) 0);
    (eexists; split; [reflexivity|]; split; [reflexivity|]);
    cbn [x y width height set_x set_y set_width set_height set_lineWidth
         set_originalWidth set_originalHeight set_color obj_width obj_height];
    rewrite ?vmul_num;
    destruct (Rle_dec x1 x2), (Rle_dec y1 y2); try lra;
    f_equal; apply num_inj; rsolve.
Qed.

Lemma mouseup_pushes s tool (sx sy ex ey w h : R) o :
  currentImage s = true -> isDrawing s = true -> selectedObject s = None ->
  startX s = num sx -> startY s = num sy ->
  currentTool s = tool -> boxShape tool ->
  ~ (Rabs (ex - sx) < 5 /\ Rabs (ey - sy) < 5)%R ->
  shiftConstrain s (num (ex - sx)) (num (ey - sy)) = (num w, num h) ->
  createObject s (num sx) (num sy) (num (sx + w)) (num (sy + h)) = (Some o, s) ->
  drawingStack (mouseup (num ex) (num ey) s)
  = drawingStack s ++ [length (heap s)]
  /\ heap (mouseup (num ex) (num ey) s) = heap s ++ [o].
Proof.
  intros Hi Hd Hsel Hx Hy Ht Hb Hdrag Hshift Ho.
  unfold mouseup, andThen. cbv beta. rewrite Hi, Hd, Hx, Hy. cbn [negb orb].
  rewrite !vsub_num, !vabs_num, !vlt_num, Hshift. cbv beta iota.
  rewrite !vadd_num, Ho.
  assert (Hclick : (Rltb (Rabs (ex - sx)) 5 && Rltb (Rabs (ey - sy)) 5)%bool
                   = false).
  { destruct (Rltb_spec (Rabs (ex - sx)) 5), (Rltb_spec (Rabs (ey - sy)) 5);
      try reflexivity. now destruct Hdrag. }
  rewrite Hclick.
  tool_cases s tool Ht Hb; rewrite ?Ha, ?Hc;
    cbn [String.eqb Ascii.eqb Bool.eqb orb andb negb isIn existsb];
    unfold pushObject, alloc, andThen;
    cbn [resizeHandle selectedObject initialBounds heap drawingStack
         set_heap set_drawingStack set_isDrawing set_isDragging
         set_resizeHandle set_initialBounds set_initialMousePos
         set_currentEraserStroke set_currentBrushStroke];
    rewrite Hsel; destruct (resizeHandle s); split; reflexivity.
Qed.

Lemma created_by_drag s tool (sx sy ex ey w h : R) o :
  currentImage s = true -> isDrawing s = true -> selectedObject s = None ->
  startX s = num sx -> startY s = num sy ->
  currentTool s = tool -> boxShape tool ->
  ~ (Rabs (ex - sx) < 5 /\ Rabs (ey - sy) < 5)%R ->
  shiftConstrain s (num (ex - sx)) (num (ey - sy)) = (num w, num h) ->
  createObject s (num sx) (num sy) (num (sx + w)) (num (sy + h)) = (Some o, s) ->
  created s (num ex) (num ey) = Some o.
Proof.
  intros Hi Hd Hsel Hx Hy Ht Hb Hdrag Hshift Ho.
  destruct (mouseup_pushes s tool sx sy ex ey w h o) as [Hds Hh]; trivial.
  unfold created. cbv zeta. unfold document, deref. rewrite Hds, Hh.
  rewrite length_app, Nat.add_1_r.
  rewrite (proj2 (Nat.ltb_lt _ _) (Nat.lt_succ_diag_r _)).
  rewrite map_app. cbn [map]. rewrite last_snoc.
  now rewrite list_lookup_middle.
Qed.

Lemma towards_sign d size : (0 <= size -> 0 <= towards d size * d)%R.
Proof.
  intros H. unfold towards. destruct (Rleb_spec 0 d); nra.
Qed.

Lemma towards_abs d size : (0 <= size)%R -> Rabs (towards d size) = size.
Proof.
  intros H. unfold towards. destruct (Rleb_spec 0 d); rsolve.
Qed.

Lemma Rmax_abs_nonneg a b : (0 <= Rmax (Rabs a) (Rabs b))%R.
Proof. pose proof (Rabs_pos a). pose proof (Rmax_l (Rabs a) (Rabs b)). lra. Qed.

Lemma Rmin_abs_nonneg a b : (0 <= Rmin (Rabs a) (Rabs b))%R.
Proof. apply Rmin_glb; apply Rabs_pos. Qed.

(** C8: while a creation drag is in progress (an image is loaded, the
    button went down at (sx, sy), nothing is selected) with the tool on one
    of rect, circle, check, cross, the pointer at (ex, ey) draws with
    deltas [w], [h], where dx = ex - sx and dy = ey - sy: the preview
    object has them as its width and height, and when the gesture is not a
    click the committed object is the box from (sx, sy) to
    (sx + w, sy + h), of width |w| and height |h|.  For a rect or circle
    with shift held, |w| and |h| are both the larger of |dx| and |dy| and
    each keeps the sign of its delta; for a check or cross, [w] and [h] are
    the deltas themselves with shift held, and without shift |w| and |h|
    are both the smaller of |dx| and |dy|, each keeping its sign. *)
Theorem shift_constrains_creation (s : state) (tool : string)
    (sx sy ex ey : R) :
  currentImage s = true -> isDrawing s = true -> selectedObject s = None ->
  startX s = num sx -> startY s = num sy ->
  currentTool s = tool -> boxShape tool ->
  let dx := (ex - sx)%R in
  let dy := (ey - sy)%R in
  exists w h : R,
    (exists p,
        previewObject s (num ex) (num ey) = Some p
        /\ type p = Some tool
        /\ storedBox p = Bounds.mk (num sx) (num sy) (num w) (num h))
    /\ (~ (Rabs dx < 5 /\ Rabs dy < 5)%R ->
        exists o,
          created s (num ex) (num ey) = Some o
          /\ type o = Some tool
          /\ storedBox o
             = Bounds.mk (num (Rmin sx (sx + w))) (num (Rmin sy (sy + h)))
                         (num (Rabs w)) (num (Rabs h)))
    /\ (tool = "rect"%string \/ tool = "circle"%string ->
        isShiftPressed s = true ->
        Rabs w = Rmax (Rabs dx) (Rabs dy)
        /\ Rabs h = Rmax (Rabs dx) (Rabs dy)
        /\ (0 <= w * dx)%R /\ (0 <= h * dy)%R)
    /\ (tool = "check"%string \/ tool = "cross"%string ->
        (isShiftPressed s = true -> w = dx /\ h = dy)
        /\ (isShiftPressed s = false ->
            Rabs w = Rmin (Rabs dx) (Rabs dy)
            /\ Rabs h = Rmin (Rabs dx) (Rabs dy)
            /\ (0 <= w * dx)%R /\ (0 <= h * dy)%R)).
Proof.
  intros Hi Hd Hsel Hx Hy Ht Hb dx dy.
  pose proof (shiftConstrain_stated s tool dx dy Ht Hb) as Hshift.
  exists (fst (statedDrag (isShiftPressed s) tool dx dy)),
         (snd (statedDrag (isShiftPressed s) tool dx dy)).
  set (w := fst (statedDrag (isShiftPressed s) tool dx dy)) in *.
  set (h := snd (statedDrag (isShiftPressed s) tool dx dy)) in *.
  split; [|split; [|split]].
  - destruct (preview_drawn s tool sx sy ex ey Hi Hd Hx Hy Ht Hb)
      as (p & Hp & Htype & Hxy & Hwh).
    exists p. split; [exact Hp|]. split; [exact Htype|].
    fold dx dy in Hwh. rewrite Hshift in Hwh. unfold storedBox. congruence.
  - intros Hdrag.
    destruct (createObject_box s tool sx sy (sx + w) (sy + h) Ht Hb)
      as (o & Ho & Htype & Hbox).
    exists o. split; [|split; [assumption|]].
    + now apply (created_by_drag s tool sx sy ex ey w h o).
    + rewrite Hbox. unfold cornersBox. f_equal; apply num_inj; f_equal; lra.
  - intros Htool Hshiftkey. subst w h. rewrite Hshiftkey. unfold statedDrag.
    destruct Htool as [-> | ->]; cbn [String.eqb Ascii.eqb Bool.eqb orb fst snd];
      rewrite !towards_abs by apply Rmax_abs_nonneg;
      repeat split; try apply towards_sign; apply Rmax_abs_nonneg.
  - intros Htool. split; intros Hshiftkey; subst w h; rewrite Hshiftkey;
      unfold statedDrag;
      destruct Htool as [-> | ->]; cbn [String.eqb Ascii.eqb Bool.eqb orb fst snd];
      try (split; reflexivity);
      rewrite !towards_abs by apply Rmin_abs_nonneg;
      repeat split; try apply towards_sign; apply Rmin_abs_nonneg.
Qed.

Lemma shiftRectSession_state :
  let s := run tenPixelGlyphs plainSlider init shiftRectSession in
  currentImage s = true /\ isDrawing s = true /\ selectedObject s = None
  /\ startX s = num 100 /\ startY s = num 100
  /\ currentTool s = "rect"%string /\ isShiftPressed s = true.
Proof.
  cbv zeta. unfold shiftRectSession.
  repeat split; jseval; reflexivity.
Qed.

Lemma shift_constrains_creation_witness :
  let s := run tenPixelGlyphs plainSlider init shiftRectSession in
  exists o,
    created s (num 160) (num 130) = Some o
    /\ type o = Some "rect"%string
    /\ storedBox o = Bounds.mk (num 100) (num 100) (num 60) (num 60).
Proof.
  cbv zeta.
  destruct shiftRectSession_state as (Hi & Hd & Hsel & Hx & Hy & Ht & Hk).
  destruct (shift_constrains_creation
              (run tenPixelGlyphs plainSlider init shiftRectSession)
              "rect" 100 100 160 130 Hi Hd Hsel Hx Hy Ht)
    as (w & h & _ & Hcommit & Hrect & _).
  { left. reflexivity. }
  destruct Hcommit as (o & Ho & Htype & Hbox).
  { intros [H _]. revert H. rsolve. }
  destruct (Hrect (or_introl eq_refl) Hk) as (Hw & Hh & Hsw & Hsh).
  exists o. split; [exact Ho|]. split; [exact Htype|].
  rewrite Hbox.
  assert (Hm : Rmax (Rabs (160 - 100)) (Rabs (130 - 100)) = 60%R).
  { rewrite !Rabs_pos_eq by lra. rewrite Rmax_left by lra. lra. }
  rewrite Hm in Hw, Hh.
  assert (w = 60%R) by (revert Hw Hsw; rsolve).
  assert (h = 60%R) by (revert Hh Hsh; rsolve).
  subst w h. unfold Rmin. destruct (Rle_dec 100 (100 + 60)); [|lra].
  f_equal; apply num_inj; rsolve.
Defined.

(** * Further properties of the script *)

(** ** Tools for states and references *)

Ltac state_simpl :=
  cbn [currentImage activeTool heap drawingStack undoStack redoStack
       numberCounter isDrawing isDragging selectedObject startX startY
       offsetX offsetY isCropping cropRect currentEraserStroke
       currentBrushStroke currentShape isShiftPressed textFormatting
       isEditingText hoveredObject resizeHandle initialBounds initialMousePos
       currentTextObj textCursor colorPicker lineWidthInput set_currentImage
       set_activeTool set_heap set_drawingStack set_undoStack set_redoStack
       set_numberCounter set_isDrawing set_isDragging set_selectedObject
       set_startX set_startY set_offsetX set_offsetY set_isCropping
       set_cropRect set_currentEraserStroke set_currentBrushStroke
       set_currentShape set_isShiftPressed set_textFormatting
       set_isEditingText set_hoveredObject set_resizeHandle set_initialBounds
       set_initialMousePos set_currentTextObj set_textCursor set_colorPicker
       set_lineWidthInput].

Lemma deref_modify s l f :
  (l < length (heap s))%nat -> deref (modify l f s) l = f (deref s l).
Proof.
  intros H. unfold deref, modify. cbn [heap set_heap].
  now rewrite list_lookup_insert_eq.
Qed.

Lemma deref_modify_other s l l' f :
  l' <> l -> deref (modify l f s) l' = deref s l'.
Proof.
  intros H. unfold deref, modify. cbn [heap set_heap].
  now rewrite list_lookup_insert_ne.
Qed.


(** A property of what a step passes on holds of the whole computation. *)
(** ** The object under the pointer *)

Section Topmost.

Variable measureText : Font.t -> string -> value.

Lemma find_rev_snoc {A} (f : A -> bool) (l : list A) (a : A) :
  find f (rev (l ++ [a])) = if f a then Some a else find f (rev l).
Proof. rewrite rev_app_distr. reflexivity. Qed.

Lemma find_last_hit {A} (f : A -> bool) (l : list A) :
  match find f (rev l) with
  | Some a => exists below above,
        l = below ++ a :: above /\ f a = true
        /\ Forall (fun b => f b = false) above
  | None => Forall (fun b => f b = false) l
  end.
Proof.
  induction l as [|a l IH] using rev_ind; [constructor|].
  rewrite find_rev_snoc. destruct (f a) eqn:Ha.
  - exists l, []. repeat split; [assumption | constructor].
  - destruct (find f (rev l)) as [b|].
    + destruct IH as (below & above & -> & Hb & Hab).
      exists below, (above ++ [a]). rewrite <- app_assoc. repeat split; trivial.
      apply Forall_app. split; [assumption | now constructor].
    + apply Forall_app. split; [assumption | now constructor].
Qed.

(** X1: [getObjectAt] answers with the topmost object the point hits: the
    object it returns is on the drawing stack and is hit, and no object
    above it is hit; it returns nothing only when no object of the stack is
    hit. *)
Theorem getObjectAt_topmost (s : state) (mx my : value) :
  match getObjectAt measureText s mx my with
  | Some l =>
      exists below above,
        drawingStack s = below ++ l :: above
        /\ hits measureText (deref s l) mx my = true
        /\ Forall (fun l' => hits measureText (deref s l') mx my = false) above
  | None =>
      Forall (fun l' => hits measureText (deref s l') mx my = false)
             (drawingStack s)
  end.
Proof.
  unfold getObjectAt.
  apply (find_last_hit (fun l => hits measureText (deref s l) mx my)).
Qed.

End Topmost.

(** ** The history *)

(** X2: Undo and redo only move snapshots between the two stacks: the
    number of snapshots the two stacks hold together is the same after
    either of them. And after a snapshot is pushed there is nothing to redo:
    [redo] leaves that state as it is. *)
Theorem history_keeps_snapshots (s : state) :
  (length (undoStack (undo s)) + length (redoStack (undo s))
   = length (undoStack s) + length (redoStack s))%nat
  /\ (length (undoStack (redo s)) + length (redoStack (redo s))
      = length (undoStack s) + length (redoStack s))%nat
  /\ redo (pushToUndoStack s) = pushToUndoStack s.
Proof.
  split; [|split].
  - destruct (undoStack s) as [|top rest] eqn:Hs.
    + assert (Hu : undo s = s) by (unfold undo; now rewrite Hs).
      rewrite !Hu, ?Hs. reflexivity.
    + rewrite (undo_some s top rest Hs).
      cbn [undoStack redoStack set_selectedObject].
      rewrite undoStack_restore, redoStack_restore.
      cbn [undoStack redoStack set_undoStack set_redoStack length]. lia.
  - destruct (redoStack s) as [|top rest] eqn:Hs.
    + assert (Hu : redo s = s) by (unfold redo; now rewrite Hs).
      rewrite !Hu, ?Hs. reflexivity.
    + rewrite (redo_some s top rest Hs).
      cbn [undoStack redoStack set_selectedObject].
      rewrite undoStack_restore, redoStack_restore.
      cbn [undoStack redoStack set_undoStack set_redoStack length]. lia.
  - reflexivity.
Qed.

Lemma representable_toValue j : representable (Json.toValue j).
Proof. now destruct j as [[]|]. Qed.

Lemma Forall_map_all {A B} (P : B -> Prop) (f : A -> B) (l : list A) :
  (forall a, P (f a)) -> Forall P (map f l).
Proof. intros H. induction l; constructor; auto. Qed.

Lemma jsonSafe_toObj j : jsonSafe (Json.toObj j).
Proof.
  destruct j; try (cbv; repeat split; constructor).
  unfold Json.toObj, jsonSafe.
  cbn [x y width height lineWidth rotation radius number size originalWidth
       originalHeight originalSize initialRotation points].
  repeat (split; [apply representable_toValue|]).
  destruct (Json.get "points" l) as [[]|]; try constructor.
  cbn. apply Forall_map_all. intros j.
  destruct j; try (split; exact I).
  split; apply representable_toValue.
Qed.

Lemma jsonSafe_parse j : Forall jsonSafe (Json.parse j).
Proof.
  destruct j; try constructor. cbn. apply Forall_map_all, jsonSafe_toObj.
Qed.

Lemma document_undo s :
  undoStack s <> [] ->
  exists top rest, undoStack s = top :: rest /\ document (undo s) = Json.parse top.
Proof.
  intros H. destruct (undoStack s) as [|top rest] eqn:Hs; [easy|].
  exists top, rest. split; [reflexivity|].
  rewrite (undo_some s top rest Hs), document_set_selectedObject.
  apply document_restore.
Qed.

Lemma document_redo s :
  redoStack s <> [] ->
  exists top rest, redoStack s = top :: rest /\ document (redo s) = Json.parse top.
Proof.
  intros H. destruct (redoStack s) as [|top rest] eqn:Hs; [easy|].
  exists top, rest. split; [reflexivity|].
  rewrite (redo_some s top rest Hs), document_set_selectedObject.
  apply document_restore.
Qed.

(** X3: The Document an undo or a redo restores comes out of
    [JSON.parse], so it holds only values JSON can carry, and saving it and
    reading it back gives the same Document: from then on, undo and redo
    round trips over it are exact. *)
Theorem restored_document_is_stable (s s' : state) :
  (undoStack s <> [] /\ s' = undo s) \/ (redoStack s <> [] /\ s' = redo s) ->
  Forall jsonSafe (document s')
  /\ Json.parse (Json.stringify (document s')) = document s'.
Proof.
  intros [[H ->] | [H ->]].
  - destruct (document_undo s H) as (top & rest & _ & ->).
    split; [apply jsonSafe_parse | apply parse_stringify, jsonSafe_parse].
  - destruct (document_redo s H) as (top & rest & _ & ->).
    split; [apply jsonSafe_parse | apply parse_stringify, jsonSafe_parse].
Qed.

Lemma restored_document_is_stable_witness :
  Forall jsonSafe (document (undo (pushToUndoStack selectedRectState)))
  /\ Json.parse
       (Json.stringify (document (undo (pushToUndoStack selectedRectState))))
     = document (undo (pushToUndoStack selectedRectState)).
Proof.
  apply (restored_document_is_stable (pushToUndoStack selectedRectState)).
  left. split; [discriminate | reflexivity].
Defined.

(** ** The Delete key *)

Lemma indexOf_first st l before after :
  st = before ++ l :: after -> ~ In l before ->
  indexOf st l = Some (length before).
Proof.
  intros -> Hn. induction before as [|b before IH]; cbn [app indexOf length].
  - now rewrite Nat.eqb_refl.
  - destruct (Nat.eqb_spec b l) as [->|_].
    + exfalso. apply Hn. now left.
    + rewrite IH; [reflexivity|]. intros H. apply Hn. now right.
Qed.

Lemma keydown_delete s l :
  selectedObject s = Some l ->
  keydown deleteKey s
  = set_selectedObject None
      (set_drawingStack (splice (indexOf (drawingStack s) l) (drawingStack s))
         (pushToUndoStack s)).
Proof.
  intros Hs. unfold keydown, deleteKey, andThen.
  cbn [Key.key Key.ctrlKey Key.altKey Key.shiftKey Key.targetIsInput
       String.eqb Ascii.eqb Bool.eqb andb negb].
  rewrite Hs. now destruct (isEditingText _).
Qed.

(** X4: Delete removes the selected object from the drawing stack, at its
    first place there, and nothing else: the objects below and above keep
    their order, the objects themselves are not touched, the selection is
    cleared, the Document as it was is on top of the undo stack and the redo
    stack is empty. *)
Theorem delete_removes_selection (s : state) (l : nat) (below above : list nat) :
  selectedObject s = Some l ->
  drawingStack s = below ++ l :: above -> ~ In l below ->
  let s' := keydown deleteKey s in
  drawingStack s' = below ++ above
  /\ heap s' = heap s
  /\ selectedObject s' = None
  /\ undoStack s' = Json.stringify (document s) :: undoStack s
  /\ redoStack s' = [].
Proof.
  intros Hs Hd Hn. cbv zeta. rewrite (keydown_delete s l Hs).
  rewrite (indexOf_first _ l below above Hd Hn). unfold splice. rewrite Hd.
  cbn [drawingStack heap selectedObject undoStack redoStack set_selectedObject
       set_drawingStack pushToUndoStack]. unfold pushToUndoStack, andThen.
  cbn [drawingStack heap selectedObject undoStack redoStack set_undoStack
       set_redoStack].
  rewrite delete_middle. repeat split.
Qed.

Lemma delete_removes_selection_witness :
  let s' := keydown deleteKey selectedSecondState in
  drawingStack s' = [0%nat] ++ []
  /\ heap s' = heap selectedSecondState
  /\ selectedObject s' = None
  /\ undoStack s' = Json.stringify (document selectedSecondState)
                    :: undoStack selectedSecondState
  /\ redoStack s' = [].
Proof.
  apply (delete_removes_selection selectedSecondState 1%nat [0%nat] []);
    [reflexivity | reflexivity |].
  intros [H | []]. discriminate H.
Defined.

Lemma keydown_ctrlZ s : keydown ctrlZ s = undo s.
Proof.
  unfold keydown, ctrlZ, andThen.
  cbn [Key.key Key.ctrlKey Key.altKey Key.shiftKey Key.targetIsInput
       String.eqb Ascii.eqb Bool.eqb andb negb toLowerCase lowerAscii].
  reflexivity.
Qed.

(** X5: Ctrl+Z after Delete brings the Document back as it was, for a
    Document of values JSON can carry. *)
Theorem delete_then_undo (s : state) (l : nat) :
  selectedObject s = Some l -> Forall jsonSafe (document s) ->
  document (keydown ctrlZ (keydown deleteKey s)) = document s.
Proof.
  intros Hs Hsafe. rewrite keydown_ctrlZ, (keydown_delete s l Hs).
  erewrite undo_some by reflexivity.
  rewrite document_set_selectedObject, document_restore.
  now apply parse_stringify.
Qed.

Lemma delete_then_undo_witness :
  document (keydown ctrlZ (keydown deleteKey selectedRectState))
  = document selectedRectState.
Proof.
  apply (delete_then_undo selectedRectState 0%nat); [reflexivity|].
  constructor; [|constructor].
  unfold jsonSafe, rect100. cbn. repeat split; constructor.
Defined.
(** ** Resizing follows the pointer *)

Lemma applyResize_scales ib o h nx ny mx my :
  h <> "rotate"%string -> typeIs o "text" = false ->
  truthy (originalWidth o) = true -> truthy (originalHeight o) = true ->
  accepted ib h nx ny mx my = true ->
  let nb := resizedBounds ib h (nx - mx) (ny - my) in
  applyResize (Some ib) o h nx ny mx my
  = set_height (originalHeight o * (Bounds.height nb / Bounds.height ib))
      (set_width (originalWidth o * (Bounds.width nb / Bounds.width ib))
         (set_y (Bounds.y nb) (set_x (Bounds.x nb) o))).
Proof.
  intros Hh Ht Hw Hhh Hacc nb. subst nb. unfold applyResize, accepted in *.
  apply String.eqb_neq in Hh. rewrite Hh, Ht.
  apply andb_prop in Hacc as [H1%negb_true_iff H2%negb_true_iff].
  rewrite H1, H2. unfold andThen, falsy. rewrite Hw. cbn [negb].
  rewrite Hhh. cbn [negb]. reflexivity.
Qed.

Lemma applyResize_not_accepted ib o h nx ny mx my :
  h <> "rotate"%string -> accepted ib h nx ny mx my = false ->
  applyResize (Some ib) o h nx ny mx my = o.
Proof.
  intros Hh Hacc. apply applyResize_below_minimum; [assumption|].
  unfold accepted in Hacc.
  apply andb_false_iff in Hacc as [H%negb_false_iff | H%negb_false_iff]; auto.
Qed.

(** X6: While a corner handle is dragged, the object is computed from
    the bounds it had when the drag began and from the pointer, not from
    the updates before: an accepted update gives the same object whatever
    the pointer did in between. (For an object that is not a text and
    whose original width and height are set and not zero.) *)
Theorem resize_follows_pointer ib o h nx1 ny1 nx ny mx my :
  h <> "rotate"%string -> typeIs o "text" = false ->
  truthy (originalWidth o) = true -> truthy (originalHeight o) = true ->
  accepted ib h nx ny mx my = true ->
  applyResize (Some ib) (applyResize (Some ib) o h nx1 ny1 mx my) h nx ny mx my
  = applyResize (Some ib) o h nx ny mx my.
Proof.
  intros Hh Ht Hw Hhh Hacc.
  destruct (accepted ib h nx1 ny1 mx my) eqn:H1.
  - rewrite (applyResize_scales ib o h nx1 ny1 mx my) by assumption.
    rewrite !applyResize_scales by assumption. cbv zeta.
    now destruct o.
  - now rewrite (applyResize_not_accepted ib o h nx1 ny1 mx my).
Qed.

Lemma resize_follows_pointer_witness :
  let ib := Bounds.mk (num 0) (num 0) (num 100) (num 100) in
  applyResize (Some ib)
    (applyResize (Some ib) rect100 "se-resize" (num 130) (num 140)
                 (num 100) (num 100))
    "se-resize" (num 150) (num 120) (num 100) (num 100)
  = applyResize (Some ib) rect100 "se-resize" (num 150) (num 120)
                (num 100) (num 100).
Proof.
  cbv zeta. apply resize_follows_pointer.
  - discriminate.
  - reflexivity.
  - unfold rect100. geval. reflexivity.
  - unfold rect100. geval. reflexivity.
  - unfold accepted. geval. reflexivity.
Defined.

(** ** Creation *)

(** X7: For every tool but the number marker, the eraser and the arrow,
    [createObject] gives an object of the current tool whose box is the
    rectangle between the two points of the drag, whatever the direction
    of the drag: top-left corner at the smaller coordinates, width and
    height positive or zero. Its original width and height are those,
    its rotation is 0 and its line width is the one of the slider. *)
Theorem createObject_normalises (s : state) (x1 y1 x2 y2 : R) :
  activeTool s <> "numbers"%string -> activeTool s <> "eraser"%string ->
  activeTool s <> "arrow"%string ->
  ~ (activeTool s = "shape"%string /\ currentShape s = "arrow"%string) ->
  exists o,
    createObject s (num x1) (num y1) (num x2) (num y2) = (Some o, s)
    /\ type o = Some (currentTool s)
    /\ storedBox o = cornersBox x1 y1 x2 y2
    /\ originalWidth o = width o /\ originalHeight o = height o
    /\ rotation o = num 0 /\ lineWidth o = lineWidthInput s.
Proof.
  intros Hn He Ha Hs. unfold createObject, andThen, currentTool. cbv zeta.
  apply String.eqb_neq in Hn, He, Ha. rewrite Hn, He, Ha.
  assert (Hsa : (negb (String.eqb (activeTool s) "shape")
                 || negb (String.eqb (currentShape s) "arrow"))%bool = true).
  { destruct (String.eqb_spec (activeTool s) "shape");
      destruct (String.eqb_spec (currentShape s) "arrow"); try reflexivity.
    now destruct Hs. }
  rewrite Hsa. cbn [andb negb].
  rewrite !vsub_num, !vabs_num, !vlt_num.
  unfold storedBox, cornersBox, Rmin.
  destruct (Rltb_spec (x2 - x1) 0), (Rltb_spec (y2 - y1) 0);
    (eexists; split; [reflexivity|]);
    match goal with
    | |- context [if ?c then set_color _ _ else _] => destruct c
    end;
    cbn [type x y width height rotation lineWidth originalWidth originalHeight
         set_x set_y set_width set_height set_lineWidth
         set_originalWidth set_originalHeight set_color obj_width obj_height];
    rewrite ?vmul_num;
    destruct (Rle_dec x1 x2), (Rle_dec y1 y2); try lra;
    repeat split; try reflexivity;
    try (f_equal; apply num_inj; rsolve); apply num_inj; rsolve.
Qed.

Lemma createObject_normalises_witness :
  exists o,
    createObject blurToolState (num 200) (num 50) (num 120) (num 90)
    = (Some o, blurToolState)
    /\ type o = Some (currentTool blurToolState)
    /\ storedBox o = cornersBox 200 50 120 90
    /\ originalWidth o = width o /\ originalHeight o = height o
    /\ rotation o = num 0 /\ lineWidth o = lineWidthInput blurToolState.
Proof.
  apply createObject_normalises; try discriminate.
  intros [H _]. discriminate H.
Defined.

Lemma createObject_marker s px py x2 y2 :
  activeTool s = "numbers"%string ->
  exists o,
    createObject s px py x2 y2
    = (Some o, set_numberCounter (numberCounter s + num 1) s)
    /\ type o = Some "numbers"%string
    /\ x o = px /\ y o = py
    /\ number o = numberCounter s /\ radius o = lineWidthInput s
    /\ width o = Undefined /\ height o = Undefined.
Proof.
  intros Ha. unfold createObject, andThen. rewrite Ha.
  cbn [String.eqb Ascii.eqb Bool.eqb orb andb].
  eexists. split; [reflexivity|]. repeat split.
Qed.

Lemma numberCounter_restore j s : numberCounter (restore j s) = numberCounter s.
Proof. unfold restore, andThen. now rewrite allocAll_appends. Qed.

(** X8: Number markers count up: two markers created one after the other
    get the number of the counter and the next one, and the counter is two
    further. Undo and redo do not touch the counter: a marker that is
    undone does not give its number back. *)
Theorem markers_count_up (s : state) (n : R) (p1x p1y p2x p2y a b c d : value) :
  activeTool s = "numbers"%string -> numberCounter s = num n ->
  exists o1 s1 o2 s2,
    createObject s p1x p1y a b = (Some o1, s1)
    /\ createObject s1 p2x p2y c d = (Some o2, s2)
    /\ number o1 = num n /\ number o2 = num (n + 1)
    /\ numberCounter s2 = num (n + 2)
    /\ numberCounter (undo s2) = num (n + 2)
    /\ numberCounter (redo s2) = num (n + 2).
Proof.
  intros Ha Hn.
  destruct (createObject_marker s p1x p1y a b Ha) as (o1 & H1 & _ & _ & _ & N1 & _).
  set (s1 := set_numberCounter (numberCounter s + num 1) s) in *.
  destruct (createObject_marker s1 p2x p2y c d Ha) as (o2 & H2 & _ & _ & _ & N2 & _).
  set (s2 := set_numberCounter (numberCounter s1 + num 1) s1) in *.
  assert (C2 : numberCounter s2 = num (n + 2)).
  { subst s2 s1. cbn [numberCounter set_numberCounter]. rewrite Hn, !vadd_num.
    apply num_inj. lra. }
  exists o1, s1, o2, s2. repeat split; trivial.
  - now rewrite N1.
  - rewrite N2. subst s1. cbn [numberCounter set_numberCounter].
    now rewrite Hn, vadd_num.
  - rewrite <- C2. destruct (undoStack s2) as [|top rest] eqn:Hu.
    + unfold undo. now rewrite Hu.
    + rewrite (undo_some s2 top rest Hu).
      cbn [numberCounter set_selectedObject]. now rewrite numberCounter_restore.
  - rewrite <- C2. destruct (redoStack s2) as [|top rest] eqn:Hu.
    + unfold redo. now rewrite Hu.
    + rewrite (redo_some s2 top rest Hu).
      cbn [numberCounter set_selectedObject]. now rewrite numberCounter_restore.
Qed.

Lemma markers_count_up_witness :
  exists o1 s1 o2 s2,
    createObject numbersToolState (num 10) (num 10) Undefined Undefined
    = (Some o1, s1)
    /\ createObject s1 (num 50) (num 50) Undefined Undefined = (Some o2, s2)
    /\ number o1 = num 1 /\ number o2 = num (1 + 1)
    /\ numberCounter s2 = num (1 + 2)
    /\ numberCounter (undo s2) = num (1 + 2)
    /\ numberCounter (redo s2) = num (1 + 2).
Proof.
  exact (markers_count_up numbersToolState 1 (num 10) (num 10) (num 50) (num 50)
           Undefined Undefined Undefined Undefined eq_refl eq_refl).
Defined.
(** ** Strings *)

Lemma substring_all (t : string) n :
  (String.length t <= n)%nat -> substring 0 n t = t.
Proof.
  revert n. induction t as [|c t IH]; intros n H; [now destruct n|].
  destruct n as [|n]; cbn in *; [lia|]. f_equal. apply IH. lia.
Qed.

Lemma substring_app_left (a b : string) :
  substring 0 (String.length a) (a ++ b) = a.
Proof.
  induction a as [|c a IH]; cbn; [now destruct b|]. now f_equal.
Qed.

Lemma substring_app_right (a b : string) n :
  substring (String.length a) n (a ++ b) = substring 0 n b.
Proof. induction a as [|c a IH]; cbn; [reflexivity | exact IH]. Qed.

Lemma append_assoc (a b c : string) :
  (a ++ (b ++ c))%string = ((a ++ b) ++ c)%string.
Proof. induction a as [|d a IH]; cbn; [reflexivity | now f_equal]. Qed.

Lemma length_append (a b : string) :
  String.length (a ++ b) = (String.length a + String.length b)%nat.
Proof. induction a as [|c a IH]; cbn; [reflexivity | now f_equal]. Qed.

Lemma length_sliceTo i t :
  (i <= String.length t)%nat -> String.length (sliceTo i t) = i.
Proof.
  unfold sliceTo. revert i. induction t as [|c t IH]; intros i H.
  - cbn in H. now replace i with 0%nat by lia.
  - destruct i as [|i]; cbn in *; [reflexivity|]. f_equal. apply IH. lia.
Qed.

Lemma substring_skip n m t :
  (m <= String.length t)%nat ->
  String.length (substring m n t) = Nat.min n (String.length t - m).
Proof.
  revert n m. induction t as [|c t IH]; intros n m H.
  - cbn in *. replace m with 0%nat by lia. destruct n; reflexivity.
  - destruct m as [|m].
    + destruct n as [|n]; cbn; [reflexivity|]. f_equal.
      rewrite (IH n 0%nat) by lia. now rewrite Nat.sub_0_r.
    + cbn in *. apply IH. lia.
Qed.

Lemma length_sliceFrom i t :
  (i <= String.length t)%nat ->
  String.length (sliceFrom i t) = (String.length t - i)%nat.
Proof. intros H. unfold sliceFrom. rewrite substring_skip by lia. lia. Qed.

Lemma substring_rest i n t :
  (i <= String.length t)%nat -> (String.length t <= i + n)%nat ->
  (substring 0 i t ++ substring i n t)%string = t.
Proof.
  revert i n. induction t as [|c t IH]; intros i n Hi Hn.
  - cbn in Hi. replace i with 0%nat by lia. now destruct n.
  - destruct i as [|i].
    + change (substring 0 0 (String c t) ++ substring 0 n (String c t))%string
        with (substring 0 n (String c t)).
      apply substring_all. lia.
    + cbn in *. f_equal. apply IH; lia.
Qed.

Lemma slice_split i t :
  (i <= String.length t)%nat -> (sliceTo i t ++ sliceFrom i t)%string = t.
Proof. intros H. apply substring_rest; lia. Qed.

Lemma cut_inserted (a k b : string) :
  (sliceTo (String.length a) (a ++ k ++ b)
   ++ sliceFrom (String.length a + String.length k) (a ++ k ++ b))%string
  = (a ++ b)%string.
Proof.
  unfold sliceTo, sliceFrom. rewrite substring_app_left. f_equal.
  rewrite <- length_append, append_assoc, substring_app_right.
  apply substring_all. rewrite !length_append. lia.
Qed.

(** ** Editing a text *)

Lemma single_char_key k lit :
  String.length k = 1%nat -> String.length lit <> 1%nat ->
  String.eqb k lit = false.
Proof.
  intros Hk Hl. destruct (String.eqb_spec k lit) as [->|]; [contradiction|reflexivity].
Qed.

Ltac not_named :=
  rewrite ?(single_char_key _ "Enter"), ?(single_char_key _ "Escape"),
          ?(single_char_key _ "Backspace"), ?(single_char_key _ "Delete"),
          ?(single_char_key _ "ArrowLeft"), ?(single_char_key _ "ArrowRight"),
          ?(single_char_key _ "Home"), ?(single_char_key _ "End")
    by (assumption || discriminate).

Lemma type_character s cur t e :
  currentTextObj s = Some cur ->
  text (deref s cur) = Some t ->
  isTrue (isAllSelected (deref s cur)) = false ->
  String.length (Key.key e) = 1%nat ->
  Key.ctrlKey e = false -> Key.altKey e = false -> Key.metaKey e = false ->
  handleGlobalKeydown e s
  = set_textCursor (textCursor s + 1)%nat
      (modify cur (set_text (Some (sliceTo (textCursor s) t ++ Key.key e
                                   ++ sliceFrom (textCursor s) t)%string)) s).
Proof.
  intros Hc Ht Hsel Hk Hctrl Halt Hmeta.
  unfold handleGlobalKeydown, andThen. rewrite Hc. unfold textOf.
  rewrite Ht, Hsel, Hctrl, Halt, Hmeta, Hk. cbn [default from_option Datatypes.id].
  not_named. cbn [orb andb negb Nat.eqb]. reflexivity.
Qed.

Lemma press_backspace s cur t b :
  currentTextObj s = Some cur ->
  text (deref s cur) = Some t ->
  isTrue (isAllSelected (deref s cur)) = false ->
  Key.key b = "Backspace"%string ->
  (0 < textCursor s)%nat ->
  handleGlobalKeydown b s
  = set_textCursor (textCursor s - 1)%nat
      (modify cur (set_text (Some (sliceTo (textCursor s - 1) t
                                   ++ sliceFrom (textCursor s) t)%string)) s).
Proof.
  intros Hc Ht Hsel Hk Hpos.
  unfold handleGlobalKeydown, andThen. rewrite Hc. unfold textOf.
  rewrite Ht, Hsel, Hk. cbn [default from_option Datatypes.id].
  cbn [String.eqb Ascii.eqb Bool.eqb orb toLowerCase lowerAscii].
  rewrite andb_false_r.
  now rewrite (proj2 (Nat.ltb_lt _ _) Hpos).
Qed.

Lemma typed_character_erased (s : state) (cur : nat) (t : string) (e b : Key.t) :
  currentTextObj s = Some cur -> (cur < length (heap s))%nat ->
  text (deref s cur) = Some t ->
  isTrue (isAllSelected (deref s cur)) = false ->
  (textCursor s <= String.length t)%nat ->
  String.length (Key.key e) = 1%nat ->
  Key.ctrlKey e = false -> Key.altKey e = false -> Key.metaKey e = false ->
  Key.key b = "Backspace"%string ->
  let s1 := handleGlobalKeydown e s in
  text (deref s1 cur)
  = Some (sliceTo (textCursor s) t ++ Key.key e ++ sliceFrom (textCursor s) t)%string
  /\ textCursor s1 = (textCursor s + 1)%nat
  /\ handleGlobalKeydown b s1 = s.
Proof.
  intros Hc Hv Ht Hsel Hcur Hk Hctrl Halt Hmeta Hb. cbv zeta.
  rewrite (type_character s cur t e) by assumption.
  set (t1 := (sliceTo (textCursor s) t ++ Key.key e
              ++ sliceFrom (textCursor s) t)%string).
  assert (Hd : deref (set_textCursor (textCursor s + 1)%nat
                        (modify cur (set_text (Some t1)) s)) cur
               = set_text (Some t1) (deref s cur)).
  { unfold deref at 1. cbn [heap set_textCursor]. now apply deref_modify. }
  split; [now rewrite Hd|]. split; [reflexivity|].
  rewrite (press_backspace _ cur t1 b); trivial.
  - cbn [textCursor set_textCursor].
    replace (textCursor s + 1 - 1)%nat with (textCursor s) by lia.
    assert (Hback : (sliceTo (textCursor s) t1
                     ++ sliceFrom (textCursor s + 1) t1)%string = t).
    { subst t1. rewrite <- (slice_split (textCursor s) t) at 5 by assumption.
      rewrite <- Hk.
      rewrite <- (length_sliceTo (textCursor s) t) at 1 4 by assumption.
      apply cut_inserted. }
    rewrite Hback.
    unfold modify at 1. cbn [heap set_textCursor set_heap].
    rewrite Hd. unfold modify. cbn [heap set_heap].
    rewrite list_insert_insert_eq.
    assert (Ho : set_text (Some t) (set_text (Some t1) (deref s cur))
                 = deref s cur).
    { revert Ht. generalize (deref s cur). intros o Ho.
      destruct o. cbn in *. now rewrite Ho. }
    rewrite Ho. unfold deref.
    destruct (lookup_lt_is_Some_2 _ _ Hv) as [o Hl]. rewrite Hl. cbn.
    rewrite list_insert_id by assumption. now destruct s.
  - now rewrite Hd.
  - now rewrite Hd.
  - cbn [textCursor set_textCursor]. lia.
Qed.



Lemma textOf_set_text t o : textOf (set_text (Some t) o) = t.
Proof. reflexivity. Qed.

Lemma textOf_set_isAllSelected b o : textOf (set_isAllSelected b o) = textOf o.
Proof. reflexivity. Qed.

Lemma deref_set_textCursor n s l : deref (set_textCursor n s) l = deref s l.
Proof. reflexivity. Qed.

Lemma applyText_cursor s :
  match currentTextObj (applyText s) with
  | Some cur' => applyText s = s
  | None => isEditingText s = false \/ textCursor (applyText s) = 0%nat
  end.
Proof.
  unfold applyText, andThen. destruct (isEditingText s) eqn:He.
  - cbn [currentTextObj textCursor set_selectedObject set_textCursor
         set_currentTextObj]. now right.
  - destruct (currentTextObj s); [reflexivity | now left].
Qed.

Lemma currentTextObj_modify l f s :
  currentTextObj (modify l f s) = currentTextObj s.
Proof. reflexivity. Qed.

Lemma textCursor_modify l f s : textCursor (modify l f s) = textCursor s.
Proof. reflexivity. Qed.

Ltac edit_step Hc Hv :=
  repeat (rewrite ?currentTextObj_modify, ?textCursor_modify;
          cbn [currentTextObj textCursor set_textCursor]);
  rewrite ?Hc;
  (split; [reflexivity|]);
  repeat first
    [ rewrite deref_set_textCursor
    | rewrite deref_modify by (cbn [heap set_textCursor]; exact Hv) ];
  rewrite ?textOf_set_isAllSelected, ?textOf_set_text.

Lemma cursor_kept (s : state) (cur : nat) (e : Key.t) :
  currentTextObj s = Some cur -> (cur < length (heap s))%nat ->
  (textCursor s <= String.length (textOf (deref s cur)))%nat ->
  let s' := handleGlobalKeydown e s in
  match currentTextObj s' with
  | Some cur' =>
      cur' = cur
      /\ (textCursor s' <= String.length (textOf (deref s' cur')))%nat
  | None => textCursor s' = 0%nat
  end.
Proof.
  intros Hc Hv Hcur. cbv zeta. unfold handleGlobalKeydown, andThen. rewrite Hc.
  set (t := textOf (deref s cur)) in *.
  destruct (String.eqb (Key.key e) "Enter" || String.eqb (Key.key e) "Escape")%bool.
  { pose proof (applyText_cursor s) as H.
    destruct (currentTextObj (applyText s)) as [c'|] eqn:Hc'.
    - rewrite H in Hc' |- *. rewrite Hc in Hc'. injection Hc' as <-. now split.
    - destruct H as [H|H]; [|exact H].
      unfold applyText in Hc'. rewrite H in Hc'. congruence. }
  destruct (Key.ctrlKey e && String.eqb (toLowerCase (Key.key e)) "a")%bool.
  { edit_step Hc Hv. fold t. lia. }
  destruct (String.eqb (Key.key e) "Backspace").
  { destruct (isTrue (isAllSelected (deref s cur))).
    - edit_step Hc Hv. cbn. lia.
    - destruct (Nat.ltb_spec 0 (textCursor s)).
      + edit_step Hc Hv. rewrite length_append, length_sliceTo, length_sliceFrom by lia. lia.
      + rewrite Hc. split; [reflexivity|]. fold t. lia. }
  destruct (String.eqb (Key.key e) "Delete").
  { destruct (isTrue (isAllSelected (deref s cur))).
    - edit_step Hc Hv. cbn. lia.
    - destruct (Nat.ltb_spec (textCursor s) (String.length t)).
      + edit_step Hc Hv.
        rewrite length_append, length_sliceTo, length_sliceFrom by lia. lia.
      + rewrite Hc. split; [reflexivity|]. fold t. lia. }
  destruct (String.eqb (Key.key e) "ArrowLeft").
  { rewrite textCursor_modify.
    destruct (Nat.ltb_spec 0 (textCursor s)); edit_step Hc Hv; fold t; lia. }
  destruct (String.eqb (Key.key e) "ArrowRight").
  { rewrite textCursor_modify.
    destruct (Nat.ltb_spec (textCursor s) (String.length t));
      edit_step Hc Hv; fold t; lia. }
  destruct (String.eqb (Key.key e) "Home").
  { edit_step Hc Hv. lia. }
  destruct (String.eqb (Key.key e) "End").
  { edit_step Hc Hv. fold t. lia. }
  destruct ((String.length (Key.key e) =? 1)%nat && negb (Key.ctrlKey e)
            && negb (Key.altKey e) && negb (Key.metaKey e))%bool eqn:Hchar.
  { apply andb_prop in Hchar as [[[Hk%Nat.eqb_eq _]%andb_prop _]%andb_prop _].
    destruct (isTrue (isAllSelected (deref s cur))).
    - edit_step Hc Hv. lia.
    - edit_step Hc Hv.
      rewrite !length_append, length_sliceTo, length_sliceFrom by lia. lia. }
  rewrite Hc. split; [reflexivity|]. fold t. lia.
Qed.

(** X10: No key moves the cursor out of the text that is edited: when the
    cursor is at most at the end of the text before a key press, it is so
    after it, the same text is still the one edited, or the editing has
    ended and the cursor is back at 0. *)
Theorem cursor_stays_in_text (s : state) (cur : nat) (e : Key.t) :
  isEditingText s = true -> Key.targetIsBody e = true ->
  currentTextObj s = Some cur -> (cur < length (heap s))%nat ->
  (textCursor s <= String.length (textOf (deref s cur)))%nat ->
  let s' := keydownEvent e s in
  match currentTextObj s' with
  | Some cur' =>
      cur' = cur
      /\ (textCursor s' <= String.length (textOf (deref s' cur')))%nat
  | None => textCursor s' = 0%nat
  end.
Proof.
  intros He Hte Hc Hv Hcur. cbv zeta.
  assert (H1 : keydownEvent e s = handleGlobalKeydown e s)
    by (unfold keydownEvent; now rewrite He, Hc, Hte).
  rewrite H1. now apply cursor_kept.
Qed.

Lemma cursor_stays_in_text_witness :
  let s' := keydownEvent bangKey editingState in
  match currentTextObj s' with
  | Some cur' =>
      cur' = 0%nat
      /\ (textCursor s' <= String.length (textOf (deref s' cur')))%nat
  | None => textCursor s' = 0%nat
  end.
Proof.
  apply (cursor_stays_in_text editingState 0%nat bangKey);
    [reflexivity | reflexivity | reflexivity | cbn; lia | cbn; lia].
Defined.

(** ** A text that is cancelled *)

(** X11: When a text input is opened for a new text, as a click with the
    text tool does, and the first event after it is Escape, received by
    the editing listener (so not before the listener is installed, 100 ms
    after the input was opened), the drawing stack and the Document are as
    they were before the input was opened, no text is edited and nothing
    is selected; but the history has changed: a snapshot of the Document
    was pushed on the undo stack and the redo stack was emptied. *)
Theorem cancelled_text_leaves_document (s : state) (px py : value) :
  Forall (fun l => (l < length (heap s))%nat) (drawingStack s) ->
  let s' := editingListener escapeKey (createTextInput px py None s) in
  drawingStack s' = drawingStack s
  /\ document s' = document s
  /\ isEditingText s' = false /\ currentTextObj s' = None
  /\ selectedObject s' = None
  /\ undoStack s' = Json.stringify (document s) :: undoStack s
  /\ redoStack s' = [].
Proof.
  intros Hvalid. cbv zeta.
  assert (Hn : ~ In (length (heap s)) (drawingStack s)).
  { intros Hin. apply (proj1 (List.Forall_forall _ _) Hvalid) in Hin. lia. }
  unfold createTextInput, pushToUndoStack, alloc, andThen. state_simpl.
  unfold editingListener. state_simpl.
  cbn [isSome negb orb escapeKey Key.targetIsBody].
  unfold handleGlobalKeydown, escapeKey, andThen. state_simpl.
  cbn [Key.key String.eqb Ascii.eqb Bool.eqb orb].
  unfold applyText, andThen. state_simpl.
  unfold deref. state_simpl.
  rewrite list_lookup_middle by reflexivity.
  cbn [default from_option Datatypes.id textOf text isBlank list_ascii_of_string
       forallb].
  rewrite (indexOf_first _ (length (heap s)) (drawingStack s) [] eq_refl Hn).
  unfold splice. rewrite delete_middle, app_nil_r.
  unfold document. state_simpl.
  repeat split.
  unfold deref. state_simpl. apply map_ext_Forall.
  eapply Forall_impl; [exact Hvalid|]. intros l Hl. cbn beta.
  now rewrite lookup_app_l.
Qed.

Lemma cancelled_text_leaves_document_witness :
  let s' := editingListener escapeKey
              (createTextInput (num 10) (num 10) None selectedRectState) in
  drawingStack s' = drawingStack selectedRectState
  /\ document s' = document selectedRectState
  /\ isEditingText s' = false /\ currentTextObj s' = None
  /\ selectedObject s' = None
  /\ undoStack s' = Json.stringify (document selectedRectState)
                    :: undoStack selectedRectState
  /\ redoStack s' = [].
Proof.
  apply (cancelled_text_leaves_document selectedRectState (num 10) (num 10)).
  constructor; [cbn; lia | constructor].
Defined.

(** ** Dragging *)

Section Drag.

Variable measureText : Font.t -> string -> value.
Variable rangeInput : value -> value.

(** X12: With the select tool, once the button is down on the selected
    object and no handle is taken, a move of the pointer puts the object
    where the pointer has gone: its [x] and [y] are the corner of its
    bounds moved by the way of the pointer since the button went down.
    No other object changes, the drawing stack is the same, and the
    Document as it was before the drag is on top of the undo stack. *)
Theorem drag_moves_to_pointer (s : state) (sel : nat)
    (sx sy mx my bx by_ : R) :
  currentImage s = true -> isDrawing s = true ->
  activeTool s = "select"%string ->
  selectedObject s = Some sel -> resizeHandle s = None ->
  (sel < length (heap s))%nat ->
  startX s = num sx -> startY s = num sy ->
  Bounds.x (getObjectBounds measureText (deref s sel)) = num bx ->
  Bounds.y (getObjectBounds measureText (deref s sel)) = num by_ ->
  let s' := mousemoveDraw measureText (num mx) (num my)
              (beginManipulation measureText rangeInput s) in
  deref s' sel
  = set_y (num (by_ + (my - sy))) (set_x (num (bx + (mx - sx))) (deref s sel))
  /\ (forall l, l <> sel -> deref s' l = deref s l)
  /\ drawingStack s' = drawingStack s
  /\ undoStack s' = Json.stringify (document s) :: undoStack s.
Proof.
  intros Hi Hd Ha Hsel Hrh Hv Hx Hy Hbx Hby. cbv zeta.
  unfold beginManipulation, andThen. rewrite Hsel, Hrh.
  unfold pushToUndoStack, andThen. state_simpl.
  unfold updateToolOptions. state_simpl. rewrite Ha.
  cbn [String.eqb Ascii.eqb Bool.eqb]. rewrite orb_true_r.
  unfold mousemoveDraw. state_simpl. rewrite Hi, Hd, Ha, Hsel, Hrh.
  cbn [String.eqb Ascii.eqb Bool.eqb negb orb].
  change (deref (set_isDragging true ?s0) sel) with (deref s0 sel).
  change (deref (set_redoStack [] ?s0) sel) with (deref s0 sel).
  change (deref (set_undoStack ?u ?s0) sel) with (deref s0 sel).
  rewrite Hx, Hy, Hbx, Hby, !vsub_num.
  split; [|split; [|split]].
  - rewrite deref_modify by (state_simpl; exact Hv).
    change (deref (set_offsetY ?a ?s0) sel) with (deref s0 sel).
    change (deref (set_offsetX ?a ?s0) sel) with (deref s0 sel).
    change (deref (set_isDragging true ?s0) sel) with (deref s0 sel).
    change (deref (set_redoStack [] ?s0) sel) with (deref s0 sel).
    change (deref (set_undoStack ?u ?s0) sel) with (deref s0 sel).
    f_equal; [|f_equal]; apply num_inj; lra.
  - intros l Hl. now rewrite deref_modify_other.
  - reflexivity.
  - reflexivity.
Qed.

End Drag.

Lemma drag_moves_to_pointer_witness :
  let s' := mousemoveDraw tenPixelGlyphs (num 80) (num 70)
              (beginManipulation tenPixelGlyphs plainSlider pressedRectState) in
  deref s' 0%nat
  = set_y (num (0 + (70 - 50))) (set_x (num (0 + (80 - 50)))
                                   (deref pressedRectState 0%nat))
  /\ (forall l, l <> 0%nat -> deref s' l = deref pressedRectState l)
  /\ drawingStack s' = drawingStack pressedRectState
  /\ undoStack s' = Json.stringify (document pressedRectState)
                    :: undoStack pressedRectState.
Proof.
  apply (drag_moves_to_pointer tenPixelGlyphs plainSlider pressedRectState
           0%nat 50 50 80 70 0 0); try reflexivity.
  - cbn. lia.
  - change (deref pressedRectState 0%nat) with rect100. unfold rect100.
    geval. reflexivity.
  - change (deref pressedRectState 0%nat) with rect100. unfold rect100.
    geval. reflexivity.
Defined.

(** ** Shortcuts *)

Lemma restore_frame j s :
  restore j s = set_drawingStack (seq (length (heap s)) (length (Json.parse j)))
                  (set_heap (heap s ++ Json.parse j) s).
Proof. unfold restore, andThen. now rewrite allocAll_appends. Qed.

Lemma undo_tool s :
  activeTool (undo s) = activeTool s
  /\ isEditingText (undo s) = isEditingText s
  /\ isCropping (undo s) = isCropping s
  /\ cropRect (undo s) = cropRect s.
Proof.
  unfold undo, andThen. destruct (undoStack s); [repeat split|].
  rewrite restore_frame. repeat split.
Qed.

Lemma redo_tool s :
  activeTool (redo s) = activeTool s
  /\ isEditingText (redo s) = isEditingText s
  /\ isCropping (redo s) = isCropping s
  /\ cropRect (redo s) = cropRect s.
Proof.
  unfold redo, andThen. destruct (redoStack s); [repeat split|].
  rewrite restore_frame. repeat split.
Qed.

Lemma applyText_tool s : activeTool (applyText s) = activeTool s.
Proof.
  unfold applyText, andThen. destruct (isEditingText s); [|reflexivity].
  state_simpl. destruct (currentTextObj s) as [cur|]; [|reflexivity].
  destruct (isBlank _); [|reflexivity].
  now destruct (indexOf _ _).
Qed.

Lemma handleGlobalKeydown_tool e s :
  activeTool (handleGlobalKeydown e s) = activeTool s.
Proof.
  unfold handleGlobalKeydown, andThen.
  destruct (currentTextObj s) as [cur|]; [|reflexivity].
  repeat match goal with
         | |- activeTool (if ?c then _ else _) = _ => destruct c
         end; try reflexivity.
  apply applyText_tool.
Qed.

Lemma andThen_inv {A B} (P : A -> Prop) (Q : B -> Prop) (a : A) (k : A -> B) :
  P a -> (forall a', P a' -> Q (k a')) -> Q (andThen a k).
Proof. intros Ha Hk. now apply Hk. Qed.

(** X13: A key press changes the tool only as a plain shortcut: with
    Ctrl, Alt or Shift held, while a text is edited, or when the key goes to
    an input field, the active tool after the key press is the one
    before. *)
Theorem shortcuts_need_a_plain_key (e : Key.t) (s : state) :
  plainKeydown e s = false ->
  activeTool (keydownEvent e s) = activeTool s.
Proof.
  intros Hp. unfold keydownEvent.
  destruct (isEditingText s && isSome (currentTextObj s) && Key.targetIsBody e)%bool;
    [apply handleGlobalKeydown_tool|].
  unfold keydown. cbv zeta.
  set (P := fun s' => activeTool s' = activeTool s
                      /\ isEditingText s' = isEditingText s).
  assert (P s) as H0 by (split; reflexivity).
  apply (andThen_inv P).
  { destruct (String.eqb _ _); exact H0. }
  intros s1 H1. apply (andThen_inv P).
  { destruct (_ && _)%bool; [|exact H1].
    destruct (undo_tool s1) as (Ha & He & _). destruct H1. split; congruence. }
  intros s2 H2. apply (andThen_inv P).
  { destruct (_ && _)%bool; [|exact H2].
    destruct (redo_tool s2) as (Ha & He & _). destruct H2. split; congruence. }
  intros s3 H3. apply (andThen_inv P).
  { destruct (if String.eqb _ _ then _ else _); [|exact H3].
    unfold pushToUndoStack, andThen. exact H3. }
  intros s4 H4. apply (andThen_inv P).
  { destruct (String.eqb _ _); [|exact H4].
    destruct (isCropping s4); exact H4. }
  intros s5 [Ha He]. rewrite He.
  unfold plainKeydown in Hp.
  destruct (negb (Key.ctrlKey e) && negb (Key.altKey e) && negb (Key.shiftKey e)
            && negb (isEditingText s))%bool eqn:Hc; [|exact Ha].
  cbn [andb] in Hp. apply negb_false_iff in Hp.
  destruct (if String.eqb _ _ then _ else _); [|exact Ha].
  now rewrite Hp.
Qed.

Lemma shortcuts_need_a_plain_key_witness :
  activeTool (keydownEvent ctrlR (loadImage init)) = activeTool (loadImage init).
Proof. apply shortcuts_need_a_plain_key. reflexivity. Defined.

(** ** The crop frame *)

(** A step that leaves the tool and the crop variables alone keeps what
    holds of them. *)
Lemma cropConsistent_view s s' :
  cropView s' = cropView s -> cropConsistent s -> cropConsistent s'.
Proof.
  unfold cropView, cropConsistent. intros [= Ha Hc Hr]. now rewrite Ha, Hc, Hr.
Qed.

Ltac view_cases :=
  unfold cropView, andThen;
  repeat (state_simpl;
          match goal with
          | |- context [if ?c then _ else _] => destruct c
          | |- context [match ?x with _ => _ end] => destruct x
          end);
  state_simpl; try reflexivity.

Lemma cropView_undo s : cropView (undo s) = cropView s.
Proof.
  unfold undo, andThen. destruct (undoStack s); [reflexivity|].
  now rewrite restore_frame.
Qed.

Lemma cropView_redo s : cropView (redo s) = cropView s.
Proof.
  unfold redo, andThen. destruct (redoStack s); [reflexivity|].
  now rewrite restore_frame.
Qed.

Lemma cropView_modify l f s : cropView (modify l f s) = cropView s.
Proof. reflexivity. Qed.

Lemma cropView_pushToUndoStack s : cropView (pushToUndoStack s) = cropView s.
Proof. reflexivity. Qed.

Lemma cropView_pushObject o s : cropView (pushObject o s) = cropView s.
Proof. reflexivity. Qed.

Lemma cropView_applyText s : cropView (applyText s) = cropView s.
Proof. unfold applyText, andThen. view_cases. Qed.

Lemma cropView_createTextInput px py ex s :
  cropView (createTextInput px py ex s) = cropView s.
Proof. unfold createTextInput, andThen. destruct ex; reflexivity. Qed.

Lemma cropView_updateToolOptions ri o s :
  cropView (updateToolOptions ri o s) = cropView s.
Proof. unfold updateToolOptions, andThen. view_cases. Qed.

Lemma cropView_createObject s a b c d :
  cropView (snd (createObject s a b c d)) = cropView s.
Proof.
  unfold createObject, andThen. cbv zeta.
  destruct (String.eqb (activeTool s) "numbers"); [reflexivity|].
  destruct (String.eqb (activeTool s) "eraser"); reflexivity.
Qed.

Section Crop.

Variable measureText : Font.t -> string -> value.
Variable rangeInput : value -> value.

Lemma cropView_eraseAt mx my s :
  cropView (eraseAt measureText mx my s) = cropView s.
Proof. unfold eraseAt. view_cases. Qed.

Lemma cropView_beginManipulation s :
  cropView (beginManipulation measureText rangeInput s) = cropView s.
Proof.
  unfold beginManipulation. destruct (selectedObject s) as [sel|]; [|reflexivity].
  eapply (andThen_inv (fun s' => cropView s' = cropView s)).
  - destruct (resizeHandle s); reflexivity.
  - intros s' <-. apply cropView_updateToolOptions.
Qed.

Lemma cropView_handleGlobalKeydown e s :
  cropView (handleGlobalKeydown e s) = cropView s.
Proof.
  unfold handleGlobalKeydown, andThen.
  destruct (currentTextObj s) as [cur|]; [|reflexivity].
  view_cases; try apply cropView_applyText.
Qed.

Lemma cropView_handleClickOutside cx cy s :
  cropView (handleClickOutside measureText cx cy s) = cropView s.
Proof.
  unfold handleClickOutside, andThen. view_cases; try apply cropView_applyText.
Qed.

Lemma cropView_dblclick cx cy s :
  cropView (dblclick measureText cx cy s) = cropView s.
Proof.
  unfold dblclick. view_cases; try apply cropView_createTextInput.
Qed.

Lemma cropView_mousemoveHover mx my s :
  cropView (mousemoveHover measureText mx my s) = cropView s.
Proof. unfold mousemoveHover. view_cases. Qed.

Lemma cropConsistent_cancelCrop s : cropConsistent (cancelCrop s).
Proof. split; [reflexivity | discriminate]. Qed.

Lemma cropConsistent_setActiveTool tool s :
  cropConsistent s -> cropConsistent (setActiveTool tool s).
Proof.
  intros [Hc Ha]. unfold setActiveTool.
  destruct (String.eqb tool "copy"); [now split|].
  destruct (String.eqb tool "save"); [now split|].
  assert (H : cropView (andThen
                (if String.eqb (activeTool s) "crop" then cancelCrop s else s)
                (fun s0 => s0))
              = (activeTool s, false, None)).
  { unfold andThen. destruct (String.eqb_spec (activeTool s) "crop") as [He|He].
    - unfold cropView, cancelCrop, andThen. state_simpl. reflexivity.
    - unfold cropView. destruct (isCropping s) eqn:Hi.
      + exfalso. now apply He, Ha.
      + destruct (cropRect s); [discriminate|]. reflexivity. }
  unfold andThen in *.
  set (s0 := if String.eqb (activeTool s) "crop" then cancelCrop s else s) in *.
  injection H as _ Hi Hr.
  split.
  - repeat match goal with
           | |- context [if ?c then _ else _] => destruct c
           end; state_simpl; now rewrite Hi, Hr.
  - repeat match goal with
           | |- context [if ?c then _ else _] => destruct c
           end; state_simpl; rewrite Hi; discriminate.
Qed.

Lemma cropConsistent_mousedown ex ey s :
  cropConsistent s -> cropConsistent (mousedown measureText rangeInput ex ey s).
Proof.
  intros Hs. unfold mousedown.
  destruct (negb (currentImage s)); [exact Hs|].
  unfold andThen at 1 2 3.
  set (s0 := set_isDrawing true (set_startY ey (set_startX ex s))).
  assert (H0 : cropView s0 = cropView s) by reflexivity.
  destruct (String.eqb (activeTool s0) "select").
  { apply (cropConsistent_view s); [|exact Hs].
    apply (andThen_inv (fun s' => cropView s' = cropView s)).
    - view_cases.
    - intros s1 H1.
      apply (andThen_inv (fun s' => cropView s' = cropView s)).
      + rewrite <- H1. view_cases.
      + intros s2 H2. now rewrite cropView_beginManipulation. }
  destruct (String.eqb_spec (activeTool s0) "crop") as [Hc|Hc].
  { unfold andThen. split; [reflexivity|]. intros _. exact Hc. }
  apply (cropConsistent_view s); [|exact Hs].
  destruct (String.eqb (activeTool s0) "text").
  { destruct (isEditingText s0); [exact H0|]. cbv zeta.
    apply (andThen_inv (fun s' => cropView s' = cropView s)).
    - view_cases.
    - intros s1 H1.
      destruct (_ && _)%bool; [now rewrite cropView_beginManipulation|].
      destruct (match getObjectAt _ _ _ _ with Some _ => _ | None => _ end).
      + unfold andThen. now rewrite cropView_beginManipulation.
      + unfold andThen. change (cropView (createTextInput (startX s1) (startY s1) None s1) = cropView s).
        now rewrite cropView_createTextInput. }
  unfold andThen at 1 2.
  destruct (String.eqb _ "eraser").
  { unfold andThen. view_cases. }
  destruct (String.eqb _ "brush"); reflexivity.
Qed.

Lemma cropConsistent_mousemove mx my s :
  cropConsistent s -> cropConsistent (mousemove measureText mx my s).
Proof.
  intros Hs. unfold mousemove.
  apply (cropConsistent_view (mousemoveDraw measureText mx my s));
    [apply cropView_mousemoveHover|].
  unfold mousemoveDraw.
  destruct (_ || _)%bool; [exact Hs|].
  destruct (if (_ || _)%bool then selectedObject s else None).
  { apply (cropConsistent_view s); [|exact Hs]. view_cases. }
  destruct (_ && _)%bool.
  { destruct (cropRect s) eqn:Hr; [|exact Hs].
    destruct Hs as [Hc Ha]. rewrite Hr in Hc. split; [exact Hc | exact Ha]. }
  apply (cropConsistent_view s); [|exact Hs].
  destruct (if String.eqb _ _ then currentBrushStroke s else None); [reflexivity|].
  destruct (_ && _)%bool; [apply cropView_eraseAt | reflexivity].
Qed.

Lemma cropConsistent_mouseup ex ey s :
  cropConsistent s -> cropConsistent (mouseup ex ey s).
Proof.
  intros Hs. unfold mouseup.
  destruct (_ || _)%bool; [exact Hs|]. cbv zeta.
  apply (andThen_inv cropConsistent).
  - destruct (_ && _)%bool.
    { destruct (cropRect s); [|exact Hs].
      destruct (_ && _)%bool; [exact Hs | apply cropConsistent_cancelCrop]. }
    destruct (_ && _)%bool; [|exact Hs].
    apply (cropConsistent_view s); [|exact Hs].
    apply (andThen_inv (fun p : option obj * state => cropView (snd p) = cropView s)).
    + repeat match goal with
             | |- context [if ?c then _ else _] => destruct c
             end; try reflexivity; try apply cropView_createObject.
      unfold andThen. destruct (shiftConstrain _ _ _).
      apply cropView_createObject.
    + intros [[o|] s1] H1; exact H1.
  - intros s1 H1. apply (cropConsistent_view s1); [|exact H1].
    apply (andThen_inv (fun s' => cropView s' = cropView s1)); [view_cases|].
    intros s2 H2. exact H2.
Qed.

Lemma cropConsistent_keydown e s :
  cropConsistent s -> cropConsistent (keydown e s).
Proof.
  intros Hs. unfold keydown. cbv zeta.
  apply (andThen_inv cropConsistent).
  { now destruct (String.eqb _ _). }
  intros s1 H1. apply (andThen_inv cropConsistent).
  { destruct (_ && _)%bool; [|exact H1].
    apply (cropConsistent_view s1); [apply cropView_undo | exact H1]. }
  intros s2 H2. apply (andThen_inv cropConsistent).
  { destruct (_ && _)%bool; [|exact H2].
    apply (cropConsistent_view s2); [apply cropView_redo | exact H2]. }
  intros s3 H3. apply (andThen_inv cropConsistent).
  { destruct (if String.eqb _ _ then _ else _); exact H3. }
  intros s4 H4. apply (andThen_inv cropConsistent).
  { destruct (String.eqb _ _); [|exact H4].
    destruct (isCropping s4); [apply cropConsistent_cancelCrop | exact H4]. }
  intros s5 H5.
  destruct (_ && _)%bool; [|exact H5].
  destruct (if String.eqb _ _ then _ else _); [|exact H5].
  destruct (Key.targetIsInput e); [exact H5|].
  now apply cropConsistent_setActiveTool.
Qed.

Lemma cropConsistent_handle e s :
  cropConsistent s -> cropConsistent (handle measureText rangeInput s e).
Proof.
  intros Hs. destruct e; cbn [handle].
  - exact Hs.
  - now apply cropConsistent_setActiveTool.
  - unfold selectShape, andThen. apply cropConsistent_setActiveTool.
    destruct (String.eqb _ _); exact Hs.
  - now apply cropConsistent_mousedown.
  - now apply cropConsistent_mousemove.
  - now apply cropConsistent_mouseup.
  - apply (cropConsistent_view s); [apply cropView_handleClickOutside | exact Hs].
  - apply (cropConsistent_view s); [apply cropView_dblclick | exact Hs].
  - unfold keydownEvent. destruct (_ && _)%bool.
    + apply (cropConsistent_view s); [apply cropView_handleGlobalKeydown | exact Hs].
    + now apply cropConsistent_keydown.
  - unfold keyup. now destruct (String.eqb _ _).
  - apply (cropConsistent_view s); [apply cropView_undo | exact Hs].
  - apply (cropConsistent_view s); [apply cropView_redo | exact Hs].
Qed.

(** X14: Whatever images are loaded, tools chosen, mouse and key events
    handled and undo and redo steps taken, a crop is in progress exactly
    when there is a crop frame, and only while the crop tool is the active
    tool. *)
Theorem crop_only_with_crop_tool (s : state) :
  reachable measureText rangeInput s ->
  isCropping s = isSome (cropRect s)
  /\ (isCropping s = true -> activeTool s = "crop"%string).
Proof.
  intros [es ->]. change (cropConsistent (run measureText rangeInput init es)).
  assert (H : cropConsistent init) by (split; [reflexivity | discriminate]).
  revert H. generalize init. induction es as [|e es IH]; intros s Hs.
  - now rewrite run_nil.
  - rewrite run_cons. apply IH. now apply cropConsistent_handle.
Qed.

End Crop.

Lemma crop_only_with_crop_tool_witness :
  let s := run tenPixelGlyphs plainSlider init cropSession in
  isCropping s = isSome (cropRect s)
  /\ (isCropping s = true -> activeTool s = "crop"%string).
Proof.
  apply (crop_only_with_crop_tool tenPixelGlyphs plainSlider).
  now exists cropSession.
Defined.

(** ** The eraser *)

Section Eraser.

Variable measureText : Font.t -> string -> value.
Variable rangeInput : value -> value.

(** X15: A click with the eraser removes the topmost object under the
    pointer from the drawing stack and no other: the objects below and
    above it keep their order, and none of the objects above it was under
    the pointer. With no object under the pointer the drawing stack stays
    as it is. In both cases the Document as it was is pushed on the undo
    stack, and no object is changed. (For a drawing stack that holds no
    object twice.) *)
Theorem eraser_click_removes_topmost (s : state) (ex ey : value) :
  currentImage s = true -> activeTool s = "eraser"%string ->
  List.NoDup (drawingStack s) ->
  let s' := mousedown measureText rangeInput ex ey s in
  undoStack s' = Json.stringify (document s) :: undoStack s
  /\ heap s' = heap s
  /\ match getObjectAt measureText s ex ey with
     | Some l =>
         exists below above,
           drawingStack s = below ++ l :: above
           /\ drawingStack s' = below ++ above
           /\ Forall (fun l' => hits measureText (deref s l') ex ey = false)
                     above
     | None => drawingStack s' = drawingStack s
     end.
Proof.
  intros Hi Ha Hnd. cbv zeta. unfold mousedown, andThen.
  rewrite Hi. state_simpl. rewrite Ha.
  cbn [negb String.eqb Ascii.eqb Bool.eqb].
  unfold pushToUndoStack, andThen. state_simpl. rewrite Ha.
  cbn [negb String.eqb Ascii.eqb Bool.eqb].
  change (document (set_selectedObject None _)) with (document s).
  change (getObjectAt measureText _ ex ey)
    with (getObjectAt measureText s ex ey).
  pose proof (find_last_hit (fun l => hits measureText (deref s l) ex ey)
                (drawingStack s)) as H.
  change (find _ (rev (drawingStack s)))
    with (getObjectAt measureText s ex ey) in H.
  destruct (getObjectAt measureText s ex ey) as [l|].
  - destruct H as (below & above & Hd & _ & Hab).
    assert (Hn : ~ In l below).
    { rewrite Hd in Hnd. apply List.NoDup_remove_2 in Hnd.
      intros Hin. apply Hnd, in_or_app. now left. }
    pose proof (indexOf_first _ l below above Hd Hn) as Hix. rewrite Hix.
    unfold splice. state_simpl.
    repeat split. exists below, above.
    rewrite Hd at 2. rewrite delete_middle. now repeat split.
  - state_simpl. now repeat split.
Qed.

End Eraser.

Lemma eraser_click_removes_topmost_witness :
  let s' := mousedown tenPixelGlyphs plainSlider (num 50) (num 50) eraserState in
  undoStack s' = Json.stringify (document eraserState) :: undoStack eraserState
  /\ heap s' = heap eraserState
  /\ match getObjectAt tenPixelGlyphs eraserState (num 50) (num 50) with
     | Some l =>
         exists below above,
           drawingStack eraserState = below ++ l :: above
           /\ drawingStack s' = below ++ above
           /\ Forall (fun l' => hits tenPixelGlyphs (deref eraserState l')
                                   (num 50) (num 50) = false)
                     above
     | None => drawingStack s' = drawingStack eraserState
     end.
Proof.
  apply eraser_click_removes_topmost; [reflexivity | reflexivity |].
  constructor; [intros [] | constructor].
Defined.

(** ** The handles of the selection box *)

Section Handles.

Variable measureText : Font.t -> string -> value.

Lemma getResizeHandle_corner (o : obj) (bx by_ bw bh mx my : R) kind :
  getObjectBounds measureText o = Bounds.mk (num bx) (num by_) (num bw) (num bh) ->
  (8 < bw)%R -> (8 < bh)%R ->
  (by_ - 6 <= my)%R ->
  (kind = "nw-resize"%string /\ Rabs (mx - (bx - 2)) <= 4 /\ Rabs (my - (by_ - 2)) <= 4
   \/ kind = "ne-resize"%string /\ Rabs (mx - (bx + bw - 2)) <= 4 /\ Rabs (my - (by_ - 2)) <= 4
   \/ kind = "sw-resize"%string /\ Rabs (mx - (bx - 2)) <= 4 /\ Rabs (my - (by_ + bh - 2)) <= 4
   \/ kind = "se-resize"%string /\ Rabs (mx - (bx + bw - 2)) <= 4 /\ Rabs (my - (by_ + bh - 2)) <= 4)%R ->
  getResizeHandle measureText (num mx) (num my) o = Some kind.
Proof.
  intros Hb Hw Hh Htop Hk. unfold getResizeHandle. rewrite Hb. cbv zeta.
  cbn [Bounds.x Bounds.y Bounds.width Bounds.height].
  rewrite !vdiv_num by lra.
  repeat (rewrite ?vadd_num, ?vsub_num, ?vmul_num).
  set (dx := (mx - (bx + bw / 2))%R). set (dy := (my - (by_ - 20))%R).
  assert (Hsq : (0 <= dx * dx + dy * dy)%R)
    by (apply Rplus_le_le_0_compat; apply Rle_0_sqr).
  rewrite vsqrt_num by exact Hsq.
  rewrite vle_num, Rleb_sqrt by (exact Hsq || lra).
  rewrite Rleb_false
    by (pose proof (Rle_0_sqr dx) as Hdx; unfold Rsqr in Hdx;
        assert (14 <= dy)%R by (subst dy; lra); nra).
  cbn [find fmap option_fmap option_map Point.x Point.y].
  repeat (rewrite ?vadd_num, ?vsub_num, ?vabs_num, ?vle_num).
  replace (8 / 2)%R with 4%R by lra.
  destruct Hk as [(-> & H1 & H2) | [(-> & H1 & H2) | [(-> & H1 & H2) | (-> & H1 & H2)]]].
  - now rewrite !Rleb_true by assumption.
  - rewrite (Rleb_false (Rabs (mx - (bx - 2))) 4) by (revert H1; rsolve).
    cbn [andb]. now rewrite !Rleb_true by assumption.
  - rewrite (Rleb_false (Rabs (my - (by_ - 2))) 4) by (revert H2; rsolve).
    rewrite !andb_false_r. now rewrite !Rleb_true by assumption.
  - rewrite (Rleb_false (Rabs (my - (by_ - 2))) 4) by (revert H2; rsolve).
    rewrite !andb_false_r.
    rewrite (Rleb_false (Rabs (mx - (bx - 2))) 4) by (revert H1; rsolve).
    cbn [andb]. now rewrite !Rleb_true by assumption.
Qed.

Lemma inRect_square (mx my cx cy : R) :
  inRect (num mx) (num my)
         (Bounds.mk (num cx - num 8 / num 2) (num cy - num 8 / num 2)
                    (num 8) (num 8)) = true ->
  (Rabs (mx - cx) <= 4 /\ Rabs (my - cy) <= 4)%R.
Proof.
  unfold inRect. cbn [Bounds.x Bounds.y Bounds.width Bounds.height].
  rewrite !vdiv_num by lra. rewrite !vsub_num, !vadd_num, !vle_num.
  intros [[[H1 H2]%andb_prop H3]%andb_prop H4]%andb_prop.
  destruct (Rleb_spec (cx - 8 / 2) mx); [|discriminate].
  destruct (Rleb_spec mx (cx - 8 / 2 + 8)); [|discriminate].
  destruct (Rleb_spec (cy - 8 / 2) my); [|discriminate].
  destruct (Rleb_spec my (cy - 8 / 2 + 8)); [|discriminate].
  split; rsolve.
Qed.

(** X16: The handles [drawSelectionBox] draws are the ones
    [getResizeHandle] finds: for an object whose bounds are more than 8
    wide and more than 8 high, every point of the square drawn at a corner
    takes the resize handle of that corner, and every point of the circle
    drawn above the object takes the rotation handle. *)
Theorem drawn_handles_are_grabbed (o : obj) (bx by_ bw bh : R) :
  getObjectBounds measureText o = Bounds.mk (num bx) (num by_) (num bw) (num bh) ->
  (8 < bw)%R -> (8 < bh)%R ->
  Forall2 (fun square kind =>
             forall mx my : R,
               inRect (num mx) (num my) square = true ->
               getResizeHandle measureText (num mx) (num my) o = Some kind)
          (handleSquares measureText o)
          ["nw-resize"; "ne-resize"; "sw-resize"; "se-resize"]%string
  /\ (forall mx my : R,
        (vsqrt ((num mx - Point.x (fst (rotationCircle measureText o)))
                * (num mx - Point.x (fst (rotationCircle measureText o)))
                + (num my - Point.y (fst (rotationCircle measureText o)))
                  * (num my - Point.y (fst (rotationCircle measureText o))))
         <=? snd (rotationCircle measureText o)) = true ->
        getResizeHandle measureText (num mx) (num my) o = Some "rotate"%string).
Proof.
  intros Hb Hw Hh. split.
  - unfold handleSquares, handleCorners. rewrite Hb. cbv zeta.
    cbn [map Bounds.x Bounds.y Bounds.width Bounds.height Point.x Point.y].
    repeat (rewrite ?vadd_num, ?vsub_num).
    repeat constructor; intros mx my [H1 H2]%inRect_square;
      apply (getResizeHandle_corner o bx by_ bw bh mx my _ Hb Hw Hh);
      try (revert H2; rsolve); tauto.
  - intros mx my. unfold rotationCircle, getResizeHandle. rewrite Hb. cbv zeta.
    cbn [fst snd Bounds.x Bounds.y Bounds.width Bounds.height Point.x Point.y].
    rewrite !vdiv_num by lra.
    repeat (rewrite ?vadd_num, ?vsub_num, ?vmul_num).
    set (dx := (mx - (bx + bw / 2))%R). set (dy := (my - (by_ - 20))%R).
    assert (Hsq : (0 <= dx * dx + dy * dy)%R)
      by (apply Rplus_le_le_0_compat; apply Rle_0_sqr).
    rewrite vsqrt_num by exact Hsq. rewrite !vle_num.
    intros H. destruct (Rleb_spec (sqrt (dx * dx + dy * dy)) (8 / 2)) as [Hd|];
      [|discriminate].
    now rewrite Rleb_true by lra.
Qed.

End Handles.

Lemma drawn_handles_are_grabbed_witness :
  Forall2 (fun square kind =>
             forall mx my : R,
               inRect (num mx) (num my) square = true ->
               getResizeHandle tenPixelGlyphs (num mx) (num my) rect100
               = Some kind)
          (handleSquares tenPixelGlyphs rect100)
          ["nw-resize"; "ne-resize"; "sw-resize"; "se-resize"]%string
  /\ (forall mx my : R,
        (vsqrt ((num mx - Point.x (fst (rotationCircle tenPixelGlyphs rect100)))
                * (num mx - Point.x (fst (rotationCircle tenPixelGlyphs rect100)))
                + (num my - Point.y (fst (rotationCircle tenPixelGlyphs rect100)))
                  * (num my - Point.y (fst (rotationCircle tenPixelGlyphs rect100))))
         <=? snd (rotationCircle tenPixelGlyphs rect100)) = true ->
        getResizeHandle tenPixelGlyphs (num mx) (num my) rect100
        = Some "rotate"%string).
Proof.
  apply (drawn_handles_are_grabbed tenPixelGlyphs rect100 0 0 100 100);
    [| lra | lra].
  unfold rect100. geval. reflexivity.
Defined.

(** ** The distance to a segment *)

Lemma clamp_cases (q : R) :
  let t := Rmax 0 (Rmin 1 q) in
  (t = 0 /\ q <= 0)%R \/ (t = q /\ 0 <= q <= 1)%R \/ (t = 1 /\ 1 <= q)%R.
Proof.
  cbv zeta. unfold Rmax, Rmin.
  destruct (Rle_dec 1 q), (Rle_dec 0 1), (Rle_dec 0 q); lra.
Qed.

Lemma sumsq_nonneg (a b : R) : (0 <= a * a + b * b)%R.
Proof. apply Rplus_le_le_0_compat; apply Rle_0_sqr. Qed.

Lemma squaredDistance_nonneg px py qx qy : (0 <= squaredDistance px py qx qy)%R.
Proof. apply sumsq_nonneg. Qed.

Lemma squaredDistance_along (px py x1 y1 x2 y2 u t : R) :
  (squaredDistance px py (x1 + u * (x2 - x1)) (y1 + u * (y2 - y1))
   - squaredDistance px py (x1 + t * (x2 - x1)) (y1 + t * (y2 - y1))
   = (u - t) * ((u + t) * squaredDistance x2 y2 x1 y1
                - 2 * ((px - x1) * (x2 - x1) + (py - y1) * (y2 - y1))))%R.
Proof. unfold squaredDistance. ring. Qed.

(** X17: For a point and two endpoints with coordinates of at most a
    million in absolute value, [distanceToLineSegment] gives the distance
    from the point to the nearest point of the segment: the distance to a
    point of the segment, and at most the distance to any point of the
    segment; also when the two endpoints are the same point. *)
Theorem distance_to_nearest_point (px py x1 y1 x2 y2 : R) :
  (Rabs px <= 1000000 /\ Rabs py <= 1000000)%R ->
  (Rabs x1 <= 1000000 /\ Rabs y1 <= 1000000)%R ->
  (Rabs x2 <= 1000000 /\ Rabs y2 <= 1000000)%R ->
  exists d t : R,
    distanceToLineSegment (num px) (num py) (num x1) (num y1) (num x2) (num y2)
    = num d
    /\ (0 <= t <= 1)%R
    /\ d = distanceTo px py (pointOn x1 y1 x2 y2 t)
    /\ forall u : R, (0 <= u <= 1)%R ->
                     (d <= distanceTo px py (pointOn x1 y1 x2 y2 u))%R.
Proof.
  intros _ _ _.
  set (L := squaredDistance x2 y2 x1 y1).
  assert (HL : (0 <= L)%R) by apply squaredDistance_nonneg.
  destruct (Req_dec_T L 0) as [H0|Hne].
  - assert (x2 = x1 /\ y2 = y1) as [-> ->].
    { destruct (Rplus_sqr_eq_0 (x2 - x1) (y2 - y1)) as [Hx Hy];
        [exact H0 | split; lra]. }
    exists (sqrt (squaredDistance px py x1 y1)), 0%R.
    split; [|split; [lra | split]].
    + unfold distanceToLineSegment. cbv zeta.
      rewrite !vsub_num, !vmul_num, !vadd_num.
      rewrite vsqrt_num by apply sumsq_nonneg.
      replace ((x1 - x1) * (x1 - x1) + (y1 - y1) * (y1 - y1))%R with 0%R by ring.
      rewrite sqrt_0, strict_eq_num, Reqb_true by reflexivity.
      now rewrite vsqrt_num by apply sumsq_nonneg.
    + unfold distanceTo, pointOn. cbn [fst snd]. f_equal. f_equal; ring.
    + intros u _. unfold distanceTo, pointOn. cbn [fst snd].
      apply Req_le. f_equal. f_equal; ring.
  - assert (Hpos : (0 < L)%R) by lra.
    rewrite (distanceToLineSegment_segment px py x1 y1 x2 y2 Hpos). cbv zeta.
    set (c := ((px - x1) * (x2 - x1) + (py - y1) * (y2 - y1))%R).
    change ((x2 - x1) * (x2 - x1) + (y2 - y1) * (y2 - y1))%R with L.
    set (q := (c / L)%R).
    pose proof (clamp_cases q) as Ht. cbv zeta in Ht.
    set (t := Rmax 0 (Rmin 1 q)) in *.
    assert (Hc : c = (q * L)%R) by (subst q; field; lra).
    assert (Ht01 : (0 <= t <= 1)%R)
      by (destruct Ht as [[-> ?] | [[-> ?] | [-> ?]]]; lra).
    exists (distanceTo px py (pointOn x1 y1 x2 y2 t)), t.
    split; [reflexivity|]. split; [exact Ht01|]. split; [reflexivity|].
    intros u Hu. unfold distanceTo, pointOn. cbn [fst snd].
    apply sqrt_le_1_alt.
    pose proof (squaredDistance_along px py x1 y1 x2 y2 u t) as Hd.
    fold L c in Hd.
    assert (0 <= (u - t) * ((u + t) * L - 2 * c))%R; [|lra].
    rewrite Hc. clearbody t L q. clear -Ht Hpos Hu.
    replace ((u - t) * ((u + t) * L - 2 * (q * L)))%R
      with (L * ((u - t) * (u + t - 2 * q)))%R by ring.
    apply Rmult_le_pos; [lra|].
    destruct Ht as [[Ht ?] | [[Ht ?] | [Ht ?]]]; rewrite Ht.
    + nra.
    + replace ((u - q) * (u + q - 2 * q))%R with ((u - q) * (u - q))%R by ring.
      apply Rle_0_sqr.
    + assert (0 <= (1 - u) * (2 * q - u - 1))%R by (apply Rmult_le_pos; lra).
      lra.
Qed.

Lemma distance_to_nearest_point_witness :
  exists d t : R,
    distanceToLineSegment (num 5) (num 5) (num 0) (num 0) (num 10) (num 0)
    = num d
    /\ (0 <= t <= 1)%R
    /\ d = distanceTo 5 5 (pointOn 0 0 10 0 t)
    /\ forall u : R, (0 <= u <= 1)%R ->
                     (d <= distanceTo 5 5 (pointOn 0 0 10 0 u))%R.
Proof.
  apply (distance_to_nearest_point 5 5 0 0 10 0);
    split; unfold Rabs; destruct Rcase_abs; lra.
Defined.

(** ** Cropping *)

Lemma normalizeRect_num (cx cy cw ch : R) :
  normalizeRect (Bounds.mk (num cx) (num cy) (num cw) (num ch))
  = Bounds.mk (num (Rmin cx (cx + cw))) (num (Rmin cy (cy + ch)))
              (num (Rabs cw)) (num (Rabs ch)).
Proof.
  unfold normalizeRect, andThen.
  cbn [Bounds.x Bounds.y Bounds.width Bounds.height].
  rewrite !vlt_num, !vadd_num, !vneg_num.
  destruct (Rltb_spec cw 0), (Rltb_spec ch 0); cbv beta iota;
    f_equal; apply num_inj; unfold Rmin;
    repeat match goal with |- context [Rle_dec ?a ?b] => destruct (Rle_dec a b) end;
    rsolve.
Qed.

Ltac rminmax :=
  unfold Rmin, Rmax, Rabs;
  repeat (destruct Rle_dec || destruct Rcase_abs); lra.

Lemma cropArea_cases (iw ih cx cy cw ch : R) :
  match cropArea (num iw) (num ih)
                 (Bounds.mk (num cx) (num cy) (num cw) (num ch)) with
  | Some area =>
      exists ax ay aw ah : R,
        area = Bounds.mk (num ax) (num ay) (num aw) (num ah)
        /\ (0 <= ax /\ 0 < aw /\ ax + aw <= iw /\ aw <= Rabs cw)%R
        /\ (0 <= ay /\ 0 < ah /\ ay + ah <= ih /\ ah <= Rabs ch)%R
        /\ ((0 <= Rmin cx (cx + cw))%R -> ax = Rmin cx (cx + cw))
        /\ ((0 <= Rmin cy (cy + ch))%R -> ay = Rmin cy (cy + ch))
  | None => True
  end.
Proof.
  unfold cropArea. rewrite normalizeRect_num. cbv zeta.
  cbn [Bounds.x Bounds.y Bounds.width Bounds.height].
  rewrite !vmin_num, !vmax_num, !vsub_num, !vmin_num, !vle_num.
  set (ax := Rmax 0 (Rmin (Rmin cx (cx + cw)) iw)).
  set (ay := Rmax 0 (Rmin (Rmin cy (cy + ch)) ih)).
  destruct (Rleb_spec (Rmin (Rabs cw) (iw - ax)) 0) as [|Hw]; [exact I|].
  destruct (Rleb_spec (Rmin (Rabs ch) (ih - ay)) 0) as [|Hh]; [exact I|].
  cbn [orb]. exists ax, ay, (Rmin (Rabs cw) (iw - ax)), (Rmin (Rabs ch) (ih - ay)).
  split; [reflexivity|].
  assert (0 <= ax)%R by apply Rmax_l.
  assert (0 <= ay)%R by apply Rmax_l.
  pose proof (Rmin_l (Rabs cw) (iw - ax)). pose proof (Rmin_r (Rabs cw) (iw - ax)).
  pose proof (Rmin_l (Rabs ch) (ih - ay)). pose proof (Rmin_r (Rabs ch) (ih - ay)).
  repeat split; try lra.
  - intros Hin. subst ax. unfold Rmax, Rmin in *.
    repeat match goal with
           | H : context [Rle_dec ?a ?b] |- _ => destruct (Rle_dec a b)
           | |- context [Rle_dec ?a ?b] => destruct (Rle_dec a b)
           end; try lra.
  - intros Hin. subst ay. unfold Rmax, Rmin in *.
    repeat match goal with
           | H : context [Rle_dec ?a ?b] |- _ => destruct (Rle_dec a b)
           | |- context [Rle_dec ?a ?b] => destruct (Rle_dec a b)
           end; try lra.
Qed.

(** X18: The area [applyCrop] cuts out lies within the image and within
    the frame that was dragged, in whatever direction: it starts at 0 or
    to the right of it and ends at the image width or before it, it is as
    wide as the frame at most, and not empty; the same for its height.
    When the corner of the frame with the smaller coordinates is not left
    of (above) the image, the area starts at that corner. *)
Theorem cropArea_within_image (iw ih cx cy cw ch : R) (area : Bounds.t) :
  cropArea (num iw) (num ih) (Bounds.mk (num cx) (num cy) (num cw) (num ch))
  = Some area ->
  exists ax ay aw ah : R,
    area = Bounds.mk (num ax) (num ay) (num aw) (num ah)
    /\ (0 <= ax /\ 0 < aw /\ ax + aw <= iw /\ aw <= Rabs cw)%R
    /\ (0 <= ay /\ 0 < ah /\ ay + ah <= ih /\ ah <= Rabs ch)%R
    /\ ((0 <= Rmin cx (cx + cw))%R -> ax = Rmin cx (cx + cw))
    /\ ((0 <= Rmin cy (cy + ch))%R -> ay = Rmin cy (cy + ch)).
Proof.
  intros H. pose proof (cropArea_cases iw ih cx cy cw ch) as Hc.
  rewrite H in Hc. exact Hc.
Qed.

Lemma cropArea_within_image_witness :
  exists ax ay aw ah : R,
    Bounds.mk (num 10) (num 10) (num 190) (num 140)
    = Bounds.mk (num ax) (num ay) (num aw) (num ah)
    /\ (0 <= ax /\ 0 < aw /\ ax + aw <= 800 /\ aw <= Rabs (-190))%R
    /\ (0 <= ay /\ 0 < ah /\ ay + ah <= 600 /\ ah <= Rabs (-140))%R
    /\ ((0 <= Rmin 200 (200 + -190))%R -> ax = Rmin 200 (200 + -190))
    /\ ((0 <= Rmin 150 (150 + -140))%R -> ay = Rmin 150 (150 + -140)).
Proof.
  apply (cropArea_within_image 800 600 200 150 (-190) (-140)).
  unfold cropArea. rewrite normalizeRect_num. cbv zeta.
  cbn [Bounds.x Bounds.y Bounds.width Bounds.height].
  rewrite !vmin_num, !vmax_num, !vsub_num, !vmin_num, !vle_num.
  replace (Rmax 0 (Rmin (Rmin 200 (200 + -190)) 800)) with 10%R by rminmax.
  replace (Rmax 0 (Rmin (Rmin 150 (150 + -140)) 600)) with 10%R by rminmax.
  replace (Rmin (Rabs (-190)) (800 - 10)) with 190%R by rminmax.
  replace (Rmin (Rabs (-140)) (600 - 10)) with 140%R by rminmax.
  now rewrite !Rleb_false by lra.
Defined.

(** X19: The area that is cut out does not depend on the direction the
    frame was dragged in: the frame dragged from the opposite corner, with
    width and height of the opposite sign, gives the same area. *)
Theorem cropArea_any_direction (iw ih cx cy cw ch : R) :
  cropArea (num iw) (num ih)
           (Bounds.mk (num (cx + cw)) (num (cy + ch)) (num (- cw)) (num (- ch)))
  = cropArea (num iw) (num ih) (Bounds.mk (num cx) (num cy) (num cw) (num ch)).
Proof.
  unfold cropArea. rewrite !normalizeRect_num.
  replace (Rmin (cx + cw) (cx + cw + - cw)) with (Rmin cx (cx + cw))
    by (replace (cx + cw + - cw)%R with cx by ring; apply Rmin_comm).
  replace (Rmin (cy + ch) (cy + ch + - ch)) with (Rmin cy (cy + ch))
    by (replace (cy + ch + - ch)%R with cy by ring; apply Rmin_comm).
  now rewrite !Rabs_Ropp.
Qed.

Section CropFacts.

Variable measureText : Font.t -> string -> value.

Lemma existsb_eqb_In l ls : existsb (Nat.eqb l) ls = true <-> In l ls.
Proof.
  rewrite existsb_exists. split.
  - intros (x & Hx & ->%Nat.eqb_eq). exact Hx.
  - intros H. exists l. split; [exact H | apply Nat.eqb_refl].
Qed.

Lemma existsb_eqb_notin l ls : ~ In l ls -> existsb (Nat.eqb l) ls = false.
Proof.
  intros H. destruct (existsb (Nat.eqb l) ls) eqn:E; [|reflexivity].
  now apply existsb_eqb_In in E.
Qed.

Lemma cropFilter_result (area : Bounds.t) (ls : list nat) (s : state) :
  List.NoDup ls -> Forall (fun l => (l < length (heap s))%nat) ls ->
  fst (cropFilter measureText area ls s)
  = List.filter (fun l => negb (typeIs (deref s l) "blur")
                          && cropVisible measureText area
                               (cropShift area (deref s l)))%bool ls
  /\ forall l,
       deref (snd (cropFilter measureText area ls s)) l
       = if (existsb (Nat.eqb l) ls && negb (typeIs (deref s l) "blur"))%bool
         then cropShift area (deref s l) else deref s l.
Proof.
  revert s. induction ls as [|l0 ls IH]; intros s Hnd Hv.
  - split; [reflexivity | intros l; reflexivity].
  - apply List.NoDup_cons_iff in Hnd as [Hnot Hnd].
    apply Forall_cons_1 in Hv as [Hv0 Hv].
    cbn [cropFilter List.filter existsb].
    destruct (typeIs (deref s l0) "blur") eqn:Hb.
    + destruct (IH s Hnd Hv) as [Hk Hd]. split; [exact Hk|].
      intros l. rewrite Hd. destruct (Nat.eqb_spec l l0) as [->|Hne].
      * rewrite (existsb_eqb_notin _ _ Hnot), Hb. reflexivity.
      * reflexivity.
    + unfold andThen. set (s1 := modify l0 (cropShift area) s).
      assert (H0 : deref s1 l0 = cropShift area (deref s l0))
        by (now apply deref_modify).
      assert (Hother : forall l, l <> l0 -> deref s1 l = deref s l)
        by (intros l Hl; now apply deref_modify_other).
      assert (Hv1 : Forall (fun l => (l < length (heap s1))%nat) ls).
      { subst s1. unfold modify. cbn [heap set_heap].
        now rewrite length_insert. }
      destruct (IH s1 Hnd Hv1) as [Hk Hd].
      destruct (cropFilter measureText area ls s1) as [kept s'] eqn:Hrec.
      cbn [fst snd] in *. rewrite H0. cbn [negb andb]. split.
      * assert (Hf : kept
                     = List.filter
                         (fun l => negb (typeIs (deref s l) "blur")
                                   && cropVisible measureText area
                                        (cropShift area (deref s l)))%bool ls).
        { rewrite Hk. apply filter_ext_in. intros l Hl.
          rewrite Hother; [reflexivity|]. intros ->. contradiction. }
        rewrite <- Hf. reflexivity.
      * intros l. rewrite Hd. destruct (Nat.eqb_spec l l0) as [->|Hne].
        -- rewrite (existsb_eqb_notin _ _ Hnot), H0, Hb. reflexivity.
        -- cbn [orb]. now rewrite Hother.
Qed.

Lemma cropFilter_heap_only (area : Bounds.t) (ls : list nat) (s : state) :
  exists h, snd (cropFilter measureText area ls s) = set_heap h s.
Proof.
  revert s. induction ls as [|l0 ls IH]; intros s.
  - exists (heap s). now destruct s.
  - cbn [cropFilter]. destruct (typeIs (deref s l0) "blur"); [apply IH|].
    unfold andThen. destruct (IH (modify l0 (cropShift area) s)) as [h Hh].
    destruct (cropFilter measureText area ls _) as [kept s']. cbn [snd] in *.
    exists h. rewrite Hh. reflexivity.
Qed.

(** X20: When the cropped image has loaded, every object of the drawing
    stack that is not a blurred region has been moved by the corner of the
    area ([x] and [y] less the corner), also the ones that are then taken
    off the stack; the blurred regions and the objects that are not on the
    stack are as they were. The drawing stack keeps, in their order, the
    objects that are not blurred regions and whose bounds after the move
    meet the area. The crop is over, and the undo stack is not touched by
    this step. (For a drawing stack of valid references that holds no
    object twice.) *)
Theorem crop_moves_and_filters (area : Bounds.t) (s : state) :
  List.NoDup (drawingStack s) ->
  Forall (fun l => (l < length (heap s))%nat) (drawingStack s) ->
  let s' := cropLoaded measureText area s in
  drawingStack s'
  = List.filter (fun l => negb (typeIs (deref s l) "blur")
                          && cropVisible measureText area
                               (cropShift area (deref s l)))%bool
                (drawingStack s)
  /\ (forall l,
        deref s' l
        = if (existsb (Nat.eqb l) (drawingStack s)
              && negb (typeIs (deref s l) "blur"))%bool
          then cropShift area (deref s l) else deref s l)
  /\ isCropping s' = false /\ cropRect s' = None
  /\ undoStack s' = undoStack s.
Proof.
  intros Hnd Hv. cbv zeta. unfold cropLoaded, andThen.
  change (drawingStack (set_currentImage true s)) with (drawingStack s).
  destruct (cropFilter_result area (drawingStack s) (set_currentImage true s)
              Hnd Hv) as [Hk Hd].
  destruct (cropFilter measureText area (drawingStack s)
              (set_currentImage true s)) as [kept s1] eqn:Hrec.
  cbn [fst snd] in *. unfold cancelCrop, andThen.
  split; [exact Hk|]. split; [exact Hd|].
  destruct (cropFilter_heap_only area (drawingStack s) (set_currentImage true s))
    as [h Hh].
  rewrite Hrec in Hh. cbn [snd] in Hh. rewrite Hh. repeat split.
Qed.

(** X21: A brush stroke is not moved by a crop: the step that moves the
    objects changes only [x] and [y], which the bounds of a stroke with
    points do not depend on, and leaves the points alone: the points and
    the bounds of the stroke are the same as before. *)
Theorem crop_leaves_strokes_in_place (area : Bounds.t) (o : obj) p ps :
  type o = Some "brush"%string -> points o = Some (p :: ps) ->
  getObjectBounds measureText (cropShift area o) = getObjectBounds measureText o
  /\ points (cropShift area o) = points o.
Proof.
  intros Ht Hp. split; [|reflexivity].
  unfold getObjectBounds, cropShift, andThen, strokeBounds.
  rewrite !(typeIs_eq o "brush" Ht).
  assert (Ht' : type (set_y (y (set_x (x o - Bounds.x area) o) - Bounds.y area)
                        (set_x (x o - Bounds.x area) o)) = Some "brush"%string)
    by exact Ht.
  rewrite !(typeIs_eq _ "brush" Ht').
  cbn [String.eqb Ascii.eqb Bool.eqb orb].
  cbn [points rotation lineWidth set_x set_y]. rewrite Hp. reflexivity.
Qed.

End CropFacts.

Lemma crop_moves_and_filters_witness :
  let area := Bounds.mk (num 10) (num 10) (num 190) (num 140) in
  let s := blurAndRectState in
  let s' := cropLoaded tenPixelGlyphs area s in
  drawingStack s'
  = List.filter (fun l => negb (typeIs (deref s l) "blur")
                          && cropVisible tenPixelGlyphs area
                               (cropShift area (deref s l)))%bool
                (drawingStack s)
  /\ (forall l,
        deref s' l
        = if (existsb (Nat.eqb l) (drawingStack s)
              && negb (typeIs (deref s l) "blur"))%bool
          then cropShift area (deref s l) else deref s l)
  /\ isCropping s' = false /\ cropRect s' = None
  /\ undoStack s' = undoStack s.
Proof.
  apply (crop_moves_and_filters tenPixelGlyphs
           (Bounds.mk (num 10) (num 10) (num 190) (num 140)) blurAndRectState).
  - constructor; [intros [H | []]; discriminate H|].
    constructor; [intros [] | constructor].
  - repeat constructor.
Defined.

Lemma crop_leaves_strokes_in_place_witness :
  let area := Bounds.mk (num 10) (num 10) (num 190) (num 140) in
  getObjectBounds tenPixelGlyphs (cropShift area zigzag)
  = getObjectBounds tenPixelGlyphs zigzag
  /\ points (cropShift area zigzag) = points zigzag.
Proof.
  apply (crop_leaves_strokes_in_place tenPixelGlyphs
           (Bounds.mk (num 10) (num 10) (num 190) (num 140)) zigzag
           (Point.mk (num 10) (num 10))
           [Point.mk (num 30) (num 40); Point.mk (num 60) (num 20)]);
    reflexivity.
Defined.

(** ** The size of the canvas on the page *)

(** X22: The size [resetCanvas] displays the canvas at has the proportions
    of the image, and neither side is shorter than 100 pixels. It fits
    into the container less the padding of 40, unless the minimum size had
    to be forced, and then one side is exactly 100. (Before rounding, for
    an image of positive width and height.) *)
Theorem displaySize_keeps_ratio (cw ch iw ih : R) :
  (0 < iw)%R -> (0 < ih)%R ->
  exists w h : R,
    displaySize (num cw) (num ch) (num iw) (num ih) = (num w, num h)
    /\ (100 <= w)%R /\ (100 <= h)%R
    /\ (w * ih = h * iw)%R
    /\ ((w <= cw - 40 /\ h <= ch - 40) \/ w = 100 \/ h = 100)%R.
Proof.
  intros Hiw Hih. unfold displaySize, andThen. cbv zeta.
  assert (Hr : (0 < iw / ih)%R) by (apply Rdiv_lt_0_compat; assumption).
  set (r := (iw / ih)%R) in *.
  rewrite !vsub_num, (vdiv_num iw ih) by lra. fold r.
  rewrite !vdiv_num by lra. rewrite vgt_num.
  set (aw := (cw - 40)%R). set (ah := (ch - 40)%R).
  assert (Hih' : ih <> 0%R) by lra.
  assert (Hratio : forall a, (a / r * iw = a * ih /\ a * r * ih = a * iw)%R).
  { intros a. subst r. split; field; lra. }
  destruct (Rltb_spec ah (aw / r)) as [H1|H1]; cbv beta iota;
    rewrite ?vmul_num, ?vlt_num.
  - destruct (Rltb_spec (ah * r) 100) as [H2|H2]; cbv beta iota;
      rewrite ?vdiv_num, ?vlt_num by lra.
    + destruct (Rltb_spec (100 / r) 100) as [H3|H3]; rewrite ?vmul_num.
      * eexists _, _. split; [reflexivity|].
        assert (1 < r)%R.
        { apply (Rmult_lt_reg_r (100 / r)); [apply Rdiv_lt_0_compat; lra|].
          replace (r * (100 / r))%R with 100%R by (field; lra). lra. }
        repeat split; try nra. apply (Hratio 100).
      * eexists _, _. split; [reflexivity|].
        repeat split; try lra. apply (eq_sym (proj1 (Hratio 100))).
    + destruct (Rltb_spec ah 100) as [H3|H3]; rewrite ?vmul_num.
      * eexists _, _. split; [reflexivity|].
        assert (1 < r)%R by nra.
        repeat split; try nra. apply (Hratio 100).
      * eexists _, _. split; [reflexivity|].
        assert (ah * r < aw)%R.
        { apply (Rmult_lt_reg_r (/ r)); [now apply Rinv_0_lt_compat|].
          replace (ah * r * / r)%R with ah by (field; lra). exact H1. }
        repeat split; try lra. apply (Hratio ah).
  - destruct (Rltb_spec aw 100) as [H2|H2]; cbv beta iota;
      rewrite ?vdiv_num, ?vlt_num by lra.
    + destruct (Rltb_spec (100 / r) 100) as [H3|H3]; rewrite ?vmul_num.
      * eexists _, _. split; [reflexivity|].
        assert (1 < r)%R.
        { apply (Rmult_lt_reg_r (100 / r)); [apply Rdiv_lt_0_compat; lra|].
          replace (r * (100 / r))%R with 100%R by (field; lra). lra. }
        repeat split; try nra. apply (Hratio 100).
      * eexists _, _. split; [reflexivity|].
        repeat split; try lra. apply (eq_sym (proj1 (Hratio 100))).
    + destruct (Rltb_spec (aw / r) 100) as [H3|H3]; rewrite ?vmul_num.
      * eexists _, _. split; [reflexivity|].
        assert (1 < r)%R.
        { apply (Rmult_lt_reg_r (aw / r)); [apply Rdiv_lt_0_compat; lra|].
          replace (r * (aw / r))%R with aw by (field; lra). lra. }
        repeat split; try nra. apply (Hratio 100).
      * eexists _, _. split; [reflexivity|].
        repeat split; try lra. apply (eq_sym (proj1 (Hratio aw))).
Qed.

Lemma displaySize_keeps_ratio_witness :
  exists w h : R,
    displaySize (num 1000) (num 700) (num 800) (num 600) = (num w, num h)
    /\ (100 <= w)%R /\ (100 <= h)%R
    /\ (w * 600 = h * 800)%R
    /\ ((w <= 1000 - 40 /\ h <= 700 - 40) \/ w = 100 \/ h = 100)%R.
Proof. apply (displaySize_keeps_ratio 1000 700 800 600); lra. Defined.
